(** * Preschool demand forecasting: the forecasting engine

    A shallow embedding of the forecasting core of the repository
    ([src/process_fertility.py], [src/process_bto.py],
    [src/process_existing_residents.py], [src/forecast.py]) and the
    properties its design document states about it.

    Conventions.
    - Python [int] is [Z].
    - A Python exception is a value [Raise e] of the [result] type; code
      that can raise lives in the [result] monad.
    - Year labels of tables are strings, produced with [Py.str] as the
      source does with [str(year)]. *)

From Stdlib Require Import String Ascii DecimalString DecimalZ.
From Stdlib Require Import ZArith QArith Bool Lia Sorting.Sorted List.
Import ListNotations.

Open Scope Z_scope.

(** ** Python values and builtins *)

Module Py.

(** The exceptions the modelled code can raise. *)
Inductive exn : Type :=
| ValueError          (* max() of an empty sequence, int() of a bad literal *)
| KeyError            (* a label that is not in an index *)
| IntCastingNaNError. (* astype(int) of a non-finite value *)

Inductive result (A : Type) : Type :=
| Ok (a : A)
| Raise (e : exn).

Arguments Ok {A} a.
Arguments Raise {A} e.

Definition bind {A B : Type} (m : result A) (f : A -> result B) : result B :=
  match m with
  | Ok a => f a
  | Raise e => Raise e
  end.

Notation "x <- m ;; k" := (bind m (fun x => k))
  (at level 61, m at next level, right associativity).

(** A [for] loop whose body can raise: the state is threaded through the
    elements in order and the first exception ends the loop. *)
Fixpoint for_each {A S : Type} (body : S -> A -> result S) (xs : list A)
  (s : S) : result S :=
  match xs with
  | [] => Ok s
  | x :: xs' => bind (body s x) (for_each body xs')
  end.

(** An element-wise operation that can raise. *)
Fixpoint map_result {A B : Type} (f : A -> result B) (xs : list A)
  : result (list B) :=
  match xs with
  | [] => Ok []
  | x :: xs' =>
      y <- f x ;;
      ys <- map_result f xs' ;;
      Ok (y :: ys)
  end.

(** [list(range(lo, hi))]. *)
Definition range (lo hi : Z) : list Z :=
  map (fun i => lo + Z.of_nat i) (seq 0 (Z.to_nat (hi - lo))).

(** [max(xs)] on a list of integers; [ValueError] on the empty list. *)
Definition max (xs : list Z) : result Z :=
  match xs with
  | [] => Raise ValueError
  | x :: xs' => Ok (fold_left Z.max xs' x)
  end.

(** [round(n / d)] for integers [n] and [d > 0]: the true division followed
    by the builtin [round], which rounds to the nearest integer and sends a
    tie to the even neighbour. *)
Definition round_div (n d : Z) : Z :=
  let q := n / d in
  let r := n mod d in
  if 2 * r <? d then q
  else if d <? 2 * r then q + 1
  else if Z.even q then q else q + 1.

(** [str(z)] on an integer: the decimal numeral, with a leading minus sign
    for a negative number. *)
Definition str (z : Z) : string :=
  NilZero.string_of_int (Z.to_int z).

(** [int(s)] on a decimal numeral with an optional minus sign.  (The
    builtin also accepts surrounding whitespace, a plus sign and underscores
    between digits; where the conversion of a label matters, it is a
    parameter of the model and this function is one instance.) *)
Definition int_of_decimal (s : string) : result Z :=
  match NilZero.int_of_string s with
  | Some d => Ok (Z.of_int d)
  | None => Raise ValueError
  end.

(** The ASCII characters that [str.strip] removes. *)
Definition is_space (c : ascii) : bool :=
  let n := nat_of_ascii c in
  ((9 <=? n) && (n <=? 13) || (28 <=? n) && (n <=? 32))%nat.

Fixpoint lstrip (s : string) : string :=
  match s with
  | String c s' => if is_space c then lstrip s' else s
  | EmptyString => EmptyString
  end.

Fixpoint rstrip (s : string) : string :=
  match s with
  | String c s' =>
      match rstrip s' with
      | EmptyString => if is_space c then EmptyString else String c EmptyString
      | t => String c t
      end
  | EmptyString => EmptyString
  end.

(** [s.strip()]. *)
Definition strip (s : string) : string := rstrip (lstrip s).

End Py.

Import Py.

(** ** Floating-point numbers

    A pandas [float64] value is a rational number, one of the two
    infinities, or NaN.  Arithmetic on the finite values is exact (the
    rounding error of the individual IEEE operations is abstracted away);
    the infinities and NaN follow IEEE 754, with a zero divisor taken as
    positive zero, which is what pandas does. *)

Module Float64.

Inductive t : Type :=
| Finite (q : Q)
| PosInf
| NegInf
| NaN.

Definition zero : t := Finite 0%Q.
Definition half : t := Finite (1 # 2)%Q.

(** Conversion of a Python [int]. *)
Definition of_int (z : Z) : t := Finite (inject_Z z).

Definition is_zero (q : Q) : bool := Qnum q =? 0.
Definition is_neg (q : Q) : bool := Qnum q <? 0.

Definition inf (negative : bool) : t := if negative then NegInf else PosInf.

Definition add (x y : t) : t :=
  match x, y with
  | NaN, _ | _, NaN => NaN
  | PosInf, NegInf | NegInf, PosInf => NaN
  | PosInf, _ | _, PosInf => PosInf
  | NegInf, _ | _, NegInf => NegInf
  | Finite a, Finite b => Finite (a + b)%Q
  end.

Definition mul_inf (negative : bool) (y : t) : t :=
  match y with
  | NaN => NaN
  | PosInf => inf negative
  | NegInf => inf (negb negative)
  | Finite b =>
      if is_zero b then NaN else inf (xorb negative (is_neg b))
  end.

Definition mul (x y : t) : t :=
  match x, y with
  | NaN, _ => NaN
  | PosInf, _ => mul_inf false y
  | NegInf, _ => mul_inf true y
  | Finite _, NaN => NaN
  | Finite _, PosInf => mul_inf false x
  | Finite _, NegInf => mul_inf true x
  | Finite a, Finite b => Finite (a * b)%Q
  end.

Definition div (x y : t) : t :=
  match x, y with
  | NaN, _ | _, NaN => NaN
  | (PosInf | NegInf), (PosInf | NegInf) => NaN
  | PosInf, Finite b => inf (is_neg b)
  | NegInf, Finite b => inf (negb (is_neg b))
  | Finite _, (PosInf | NegInf) => zero
  | Finite a, Finite b =>
      if is_zero b then
        if is_zero a then NaN else inf (is_neg a)
      else Finite (a / b)%Q
  end.

(** [x > 0]. *)
Definition gt_zero (x : t) : bool :=
  match x with
  | Finite q => 0 <? Qnum q
  | PosInf => true
  | NegInf | NaN => false
  end.

Definition isna (x : t) : bool :=
  match x with NaN => true | _ => false end.

(** [fillna(0)] on one value. *)
Definition fillna0 (x : t) : t := if isna x then zero else x.

(** [round(0)]: to the nearest integer, a tie to the even neighbour (the
    rounding of [numpy.round], which pandas uses). *)
Definition round0 (x : t) : t :=
  match x with
  | Finite q => of_int (round_div (Qnum q) (Zpos (Qden q)))
  | _ => x
  end.

(** The integer a finite value is cast to: the fraction is dropped, that
    is, the value is truncated toward zero. *)
Definition truncate (q : Q) : Z := Z.quot (Qnum q) (Zpos (Qden q)).

(** [astype(int)] on one value; pandas refuses the non-finite values. *)
Definition to_int (x : t) : result Z :=
  match x with
  | Finite q => Ok (truncate q)
  | _ => Raise IntCastingNaNError
  end.

(** Sum that skips NaN, as [Series.sum] and [groupby().sum()] do. *)
Definition nansum (xs : list t) : t :=
  fold_left (fun acc x => if isna x then acc else add acc x) xs zero.

End Float64.

(** ** Labelled data: the parts of pandas the engine uses *)

Module Pandas.

(** A [Series] with string labels: its entries in index order.  Labels may
    repeat; where the source deals with repeated labels itself (the tests
    with [duplicated()] and the sums per label) the model follows it, and a
    lookup of a single value is modelled for a label that occurs once. *)
Definition Series (V : Type) : Type := list (string * V).

Definition index {V : Type} (s : Series V) : list string := map fst s.

(** [label in s.index]. *)
Definition has_label {V : Type} (label : string) (s : Series V) : bool :=
  existsb (String.eqb label) (index s).

(** [s[label]] on a label that occurs once; [None] for a missing label. *)
Fixpoint get {V : Type} (s : Series V) (label : string) : option V :=
  match s with
  | [] => None
  | (k, v) :: s' => if String.eqb k label then Some v else get s' label
  end.

(** [s[label]] as a statement: [KeyError] for a missing label. *)
Definition getitem {V : Type} (s : Series V) (label : string) : result V :=
  match get s label with
  | Some v => Ok v
  | None => Raise KeyError
  end.

(** [pd.Series(v, index=labels)]. *)
Definition full {V : Type} (v : V) (labels : list string) : Series V :=
  map (fun k => (k, v)) labels.

(** [s[label] = f(s[label])], the shape of an augmented assignment. *)
Definition update {V : Type} (f : V -> V) (label : string) (s : Series V)
  : Series V :=
  map (fun kv => if String.eqb (fst kv) label then (fst kv, f (snd kv)) else kv) s.

(** [list(set(labels))]: each label once.  The iteration order of a Python
    set is unspecified; the order chosen here is not relied upon. *)
Definition unique (labels : list string) : list string :=
  nodup string_dec labels.

(** [s.index.duplicated().any()]. *)
Fixpoint duplicated_any (labels : list string) : bool :=
  match labels with
  | [] => false
  | k :: rest => existsb (String.eqb k) rest || duplicated_any rest
  end.

(** [s.groupby(s.index).sum()]: one entry per label, holding the sum of the
    entries with that label.  (pandas orders the groups by label.) *)
Definition groupby_sum {V : Type} (sum : list V -> V) (s : Series V)
  : Series V :=
  map (fun k =>
         (k, sum (map snd (filter (fun kv => String.eqb (fst kv) k) s))))
      (unique (index s)).

Definition sum_int (xs : list Z) : Z := fold_left Z.add xs 0.

(** [s.fillna(0)]. *)
Definition fillna0 (s : Series Float64.t) : Series Float64.t :=
  map (fun kv => (fst kv, Float64.fillna0 (snd kv))) s.

(** [s.astype(int)]: the whole cast fails when some value is not finite. *)
Fixpoint astype_int (s : Series Float64.t) : result (Series Z) :=
  match s with
  | [] => Ok []
  | (k, v) :: s' =>
      z <- Float64.to_int v ;;
      r <- astype_int s' ;;
      Ok ((k, z) :: r)
  end.

(** A [DataFrame] of floats: the row labels and, per column, its label and
    its values in row order. *)
Record Frame : Type := mk_Frame {
  frame_index : list string;
  frame_columns : list (string * list Float64.t)
}.

Definition columns (f : Frame) : list string := map fst (frame_columns f).

(** [f[label]] for a column label that occurs once: the column as a Series
    over the row labels. *)
Definition column (f : Frame) (label : string) : option (Series Float64.t) :=
  match get (frame_columns f) label with
  | Some values => Some (combine (frame_index f) values)
  | None => None
  end.

(** A [DataFrame] of integers with the cells stored by row. *)
Record Table (R : Type) : Type := mk_Table {
  table_columns : list string;
  table_rows : list (R * list Z)
}.

Arguments mk_Table {R} table_columns table_rows.
Arguments table_columns {R} t.
Arguments table_rows {R} t.

End Pandas.

(** ** [src/process_fertility.py]: birth-year windows *)

Module FertilityProcessor.

(** The age bounds of a preschooler, in months (the processor's
    [min_preschool_age] and [max_preschool_age] attributes). *)
Record ages : Type := mk_ages {
  min_preschool_age : Z;
  max_preschool_age : Z
}.

Definition default_ages : ages := mk_ages 18 (6 * 12).

Definition birth_years_for_single_forecast_year (a : ages) (forecast_year : Z)
  : list Z :=
  let start_birth_year := forecast_year - round_div (max_preschool_age a) 12 in
  let end_birth_year := forecast_year - round_div (min_preschool_age a) 12 in
  range start_birth_year (end_birth_year + 1).

(** One iteration of the loop of [birth_years_for_multiple_forecast_years]:
    [birth_years_all] is [None] before the first forecast year and a list
    that is appended to afterwards. *)
Definition multiple_step (a : ages) (birth_years_all : option (list Z))
  (forecast_year : Z) : result (option (list Z)) :=
  match birth_years_all with
  | None => Ok (Some (birth_years_for_single_forecast_year a forecast_year))
  | Some l =>
      m <- max (birth_years_for_single_forecast_year a forecast_year) ;;
      Ok (Some (l ++ [m]))
  end.

(** The value returned is Python's [None] when [forecast_years] is empty. *)
Definition birth_years_for_multiple_forecast_years (a : ages)
  (forecast_years : list Z) : result (option (list Z)) :=
  for_each (multiple_step a) forecast_years None.

(** [self.fertility_data[label]] read as a whole column, as the right-hand
    side of the assignment in [extrapolate_births]: a missing label is a
    [KeyError]; a label that occurs more than once selects a sub-frame, which
    the assignment to a single column then refuses with a [ValueError]. *)
Definition read_column (f : Pandas.Frame) (label : string)
  : result (list Float64.t) :=
  match filter (fun kv => String.eqb (fst kv) label) (Pandas.frame_columns f) with
  | [] => Raise KeyError
  | [(_, values)] => Ok values
  | _ => Raise ValueError
  end.

(** [self.fertility_data[label] = values]: an existing column is
    overwritten, a new one is added after the last column. *)
Definition write_column (f : Pandas.Frame) (label : string)
  (values : list Float64.t) : Pandas.Frame :=
  if existsb (String.eqb label) (Pandas.columns f) then
    Pandas.mk_Frame (Pandas.frame_index f)
      (map (fun kv => if String.eqb (fst kv) label then (fst kv, values) else kv)
           (Pandas.frame_columns f))
  else
    Pandas.mk_Frame (Pandas.frame_index f)
      (Pandas.frame_columns f ++ [(label, values)]).

(** [[int(year) for year in columns]]; the conversion [int] of a column
    label is a parameter of the model. *)
Fixpoint years_of (int : string -> result Z) (labels : list string)
  : result (list Z) :=
  match labels with
  | [] => Ok []
  | l :: labels' =>
      y <- int l ;;
      ys <- years_of int labels' ;;
      Ok (y :: ys)
  end.

(** The body of the loop of [extrapolate_births]. *)
Definition extrapolate_step (available_years : list Z)
  (latest_available_year : Z) (f : Pandas.Frame) (year : Z)
  : result Pandas.Frame :=
  if negb (existsb (Z.eqb year) available_years) then
    values <- read_column f (str latest_available_year) ;;
    Ok (write_column f (str year) values)
  else Ok f.

(** [extrapolate_births]: the table is updated in place and returned; here
    the updated table is the result. *)
Definition extrapolate_births (int : string -> result Z)
  (fertility_data : Pandas.Frame) (birth_years : list Z)
  : result Pandas.Frame :=
  available_years <- years_of int (Pandas.columns fertility_data) ;;
  latest_available_year <- max available_years ;;
  max_birth_year <- max birth_years ;;
  if latest_available_year <? max_birth_year then
    for_each (extrapolate_step available_years latest_available_year)
      (range (latest_available_year + 1) (max_birth_year + 1))
      fertility_data
  else Ok fertility_data.

(** The age groups whose rates are averaged for the mothers of the new
    housing. *)
Definition mother_ages : list string :=
  ["20 - 24 Years"; "25 - 29 Years"; "30 - 34 Years"; "35 - 39 Years"]%string.

(** [mean] along a column: the values that are not NaN are added up and
    divided by their number; no such value gives NaN. *)
Definition mean (xs : list Float64.t) : Float64.t :=
  let present := filter (fun x => negb (Float64.isna x)) xs in
  Float64.div (Float64.nansum xs)
    (Float64.of_int (Z.of_nat (length present))).

(** A label list handed to [.loc]: every label has to be in the axis. *)
Definition check_labels (labels axis : list string) : result unit :=
  if forallb (fun l => existsb (String.eqb l) axis) labels
  then Ok tt
  else Raise KeyError.

(** [get_birth_rates_for_forecast_years]: the rows of [mother_ages] and the
    columns [str(year)] are selected with [.loc], a [KeyError] when a label
    is missing; the mean of each selected column, divided by 1000, is the
    rate of its year. *)
Definition get_birth_rates_for_forecast_years (fertility_data : Pandas.Frame)
  (birth_years : list Z) : result (Pandas.Series Float64.t) :=
  _ <- check_labels mother_ages (Pandas.frame_index fertility_data) ;;
  _ <- check_labels (map str birth_years) (Pandas.columns fertility_data) ;;
  birth_rate_by_age <-
    map_result
      (fun year =>
         match Pandas.column fertility_data (str year) with
         | Some column =>
             values <- map_result (Pandas.getitem column) mother_ages ;;
             Ok (str year, values)
         | None => Raise KeyError
         end)
      birth_years ;;
  Ok (map (fun kv =>
             (fst kv, Float64.div (mean (snd kv)) (Float64.of_int 1000)))
          birth_rate_by_age).

End FertilityProcessor.

(** ** [src/process_existing_residents.py] *)

Module ExistingResidentsProcessor.

(** Age groups for childbearing women. *)
Definition all_mother_ages : list string :=
  ["15 - 19 Years"; "20 - 24 Years"; "25 - 29 Years"; "30 - 34 Years";
   "35 - 39 Years"; "40 - 44 Years"; "45 - 49 Years"]%string.

(** A row of the cleaned residents table ([Subzone], [Age], [Count]); the
    count is NaN where the sheet held no number. *)
Record resident : Type := mk_resident {
  resident_Subzone : string;
  resident_Age : string;
  resident_Count : Float64.t
}.

(** A row of the aggregated table ([Subzone], [Age Bin], [Count]). *)
Record women : Type := mk_women {
  Subzone : string;
  Age_Bin : string;
  Count : Float64.t
}.

Definition digits_to_Z (s : string) : option Z :=
  match NilEmpty.uint_of_string s with
  | Some u => Some (Z.of_N (N.of_uint u))
  | None => None
  end.

(** The two ages in the name of a bin such as ["25 - 29 Years"]:
    [int(name.split(" - ")[0])] and
    [int(name.split(" - ")[1].replace(" Years", ""))]. *)
Definition bin_ages (bin_name : string) : option (Z * Z) :=
  match String.index 0 " - " bin_name with
  | Some i =>
      let first := String.substring 0 i bin_name in
      let second :=
        String.substring (i + 3) (String.length bin_name - (i + 3)) bin_name in
      let second :=
        match String.index 0 " Years" second with
        | Some j => String.substring 0 j second
        | None => second
        end in
      match digits_to_Z first, digits_to_Z second with
      | Some lo, Some hi => Some (lo, hi)
      | _, _ => None
      end
  | None => None
  end.

(** [get_age_bins]: the dictionary from each single age, as a string, to the
    name of its bin. *)
Definition get_age_bins : list (string * string) :=
  flat_map
    (fun bin_name =>
       match bin_ages bin_name with
       | Some (lo, hi) => map (fun age => (str age, bin_name)) (range lo (hi + 1))
       | None => []
       end)
    all_mother_ages.

Definition key_dec (x y : string * string) : {x = y} + {x <> y}.
Proof. decide equality; apply string_dec. Defined.

Definition key_eqb (x y : string * string) : bool :=
  if key_dec x y then true else false.

(** [aggregate_women_by_age_bin]: the age of each row is mapped to its bin,
    the rows without a count or without a bin are dropped, and the counts are
    summed per (subzone, bin) pair.  The subzone names are grouped as they
    are in the rows. *)
Definition aggregate_women_by_age_bin (age_bins : list (string * string))
  (existing_residents_in_subzones : list resident) : list women :=
  let mapped :=
    map (fun r => (resident_Subzone r,
                   Pandas.get age_bins (resident_Age r),
                   resident_Count r))
        existing_residents_in_subzones in
  let kept :=
    flat_map (fun row =>
                match row with
                | (subzone, Some bin, count) =>
                    if Float64.isna count then [] else [((subzone, bin), count)]
                | (_, None, _) => []
                end)
             mapped in
  map (fun key =>
         mk_women (fst key) (snd key)
           (Float64.nansum
              (map snd (filter (fun kc => key_eqb (fst kc) key) kept))))
      (nodup key_dec (map fst kept)).

(** A row of the sheet as it is loaded: [Subzone], [Age] (as the text that
    [astype(str)] gives), [Sex] and the count in the column of the year, NaN
    where [pd.to_numeric(..., errors='coerce')] finds no number. *)
Record sheet_row : Type := mk_sheet_row {
  sheet_Subzone : string;
  sheet_Age : string;
  sheet_Sex : string;
  sheet_Count : Float64.t
}.

(** [clean_existing_residents_data]: the total rows and the rows of the
    males are filtered out, and the columns [Subzone], [Age] and [Count]
    are kept. *)
Definition clean_existing_residents_data (existing_residents_data : list sheet_row)
  : list resident :=
  let cleaned_data :=
    filter (fun r => negb (String.eqb (sheet_Subzone r) "Total"))
           existing_residents_data in
  let cleaned_data :=
    filter (fun r => negb (String.eqb (sheet_Age r) "Total")) cleaned_data in
  let cleaned_data :=
    filter (fun r => negb (String.eqb (sheet_Sex r) "Total")) cleaned_data in
  let cleaned_data :=
    filter (fun r => negb (String.eqb (sheet_Sex r) "Males")) cleaned_data in
  map (fun r => mk_resident (sheet_Subzone r) (sheet_Age r) (sheet_Count r))
      cleaned_data.

(** [run], from the loaded sheet on. *)
Definition run (existing_residents_data : list sheet_row) : list women :=
  aggregate_women_by_age_bin get_age_bins
    (clean_existing_residents_data existing_residents_data).

End ExistingResidentsProcessor.

(** ** [src/process_bto.py] *)

Module BTOProcessor.

(** A row of the housing data: [Subzone], [Estimated completion year] and
    [Total number of units]. *)
Record bto : Type := mk_bto {
  Subzone : string;
  Estimated_completion_year : Z;
  Total_number_of_units : Z
}.

(** [cumsum] along a row. *)
Fixpoint cumsum_from (acc : Z) (xs : list Z) : list Z :=
  match xs with
  | [] => []
  | x :: xs' => (acc + x) :: cumsum_from (acc + x) xs'
  end.

Definition cumsum (xs : list Z) : list Z := cumsum_from 0 xs.

(** The transpose of a table with [n] columns, given by rows. *)
Definition transpose (n : nat) (rows : list (list Z)) : list (list Z) :=
  map (fun i => map (fun row => nth i row 0) rows) (seq 0 n).

(** The distinct values of a list of years in increasing order. *)
Fixpoint insert_year (x : Z) (l : list Z) : list Z :=
  match l with
  | [] => [x]
  | y :: l' =>
      if x <? y then x :: l
      else if x =? y then l
      else y :: insert_year x l'
  end.

Definition sorted_years (ys : list Z) : list Z := fold_right insert_year [] ys.

(** [get_cumulative_bto_units_by_subzone]: the projects completed by the
    last forecast year are summed per (subzone, completion year), with the
    subzone names as they are in the data; the sums are accumulated over the
    completion years; the table is transposed to one row per year, labelled
    [str(year)]; last, the whitespace around the subzone names, now the
    column labels, is removed. *)
Definition get_cumulative_bto_units_by_subzone (bto_data : list bto)
  (years : list Z) : result (Pandas.Table string) :=
  last_year <- max years ;;
  let bto_data_for_forecast :=
    filter (fun r => Estimated_completion_year r <=? last_year) bto_data in
  let subzones := Pandas.unique (map Subzone bto_data_for_forecast) in
  let completion_years :=
    sorted_years (map Estimated_completion_year bto_data_for_forecast) in
  let pivot :=
    map (fun subzone =>
           map (fun year =>
                  Pandas.sum_int
                    (map Total_number_of_units
                       (filter (fun r =>
                                  String.eqb (Subzone r) subzone
                                  && (Estimated_completion_year r =? year))
                               bto_data_for_forecast)))
               completion_years)
        subzones in
  let cumulative := map cumsum pivot in
  Ok (Pandas.mk_Table
        (map strip subzones)
        (combine (map str completion_years)
                 (transpose (length completion_years) cumulative))).

End BTOProcessor.

(** ** [src/forecast.py]: configuration and forecast years *)

Module Forecaster.

Record Config : Type := mk_Config {
  num_forecast_years : Z;
  preschool_capacity : Z;
  current_year : Z;
  min_preschool_age : Z;
  max_preschool_age : Z
}.

(** The defaults of the dataclass; [current_year] is the year of the clock
    when the module is loaded. *)
Definition default_Config (year_now : Z) : Config :=
  mk_Config 5 100 year_now 18 (6 * 12).

Definition ages_of (c : Config) : FertilityProcessor.ages :=
  FertilityProcessor.mk_ages (min_preschool_age c) (max_preschool_age c).

(** [self.forecast_years], as [__init__] computes it. *)
Definition forecast_years (c : Config) : list Z :=
  range (current_year c + 1) (current_year c + 1 + num_forecast_years c).

Import ExistingResidentsProcessor.

(** [birth_year == max(birth_years_for_target)], evaluated inside a loop
    over [birth_years_for_target], where the list is not empty. *)
Definition is_latest (birth_years_for_target : list Z) (birth_year : Z) : bool :=
  match max birth_years_for_target with
  | Ok latest => birth_year =? latest
  | Raise _ => false
  end.

(** [subzone_data[subzone_data["Age Bin"] == age_bin]["Count"].sum()], with
    [subzone_data] the rows of [subzone]. *)
Definition women_in_age_bin (existing_women_by_age_bin : list women)
  (subzone age_bin : string) : Float64.t :=
  let subzone_data :=
    filter (fun w => String.eqb (Subzone w) subzone) existing_women_by_age_bin in
  Float64.nansum
    (map Count (filter (fun w => String.eqb (Age_Bin w) age_bin) subzone_data)).

(** One step of the loop over the age bins: the births of an age group are
    added when there are women in the bin and the bin has a rate. *)
Definition add_age_group (fertility_rates_for_year : Pandas.Series Float64.t)
  (existing_women_by_age_bin : list women) (subzone : string)
  (total_births_in_subzone : Float64.t) (age_bin : string) : Float64.t :=
  let women_in_age_bin :=
    women_in_age_bin existing_women_by_age_bin subzone age_bin in
  if Float64.gt_zero women_in_age_bin
     && Pandas.has_label age_bin fertility_rates_for_year
  then
    match Pandas.get fertility_rates_for_year age_bin with
    | Some fertility_rate =>
        let births_from_age_group :=
          Float64.mul women_in_age_bin fertility_rate in
        Float64.add total_births_in_subzone births_from_age_group
    | None => total_births_in_subzone
    end
  else total_births_in_subzone.

(** The births over all the age bins of the mothers, before any discount. *)
Definition births_over_age_bins
  (fertility_rates_for_year : Pandas.Series Float64.t)
  (existing_women_by_age_bin : list women) (subzone : string) : Float64.t :=
  fold_left
    (add_age_group fertility_rates_for_year existing_women_by_age_bin subzone)
    all_mother_ages Float64.zero.

(** The value added to a subzone for one birth year: the births over the age
    bins, halved for the most recent birth year. *)
Definition total_births_in_subzone (birth_years_for_target : list Z)
  (fertility_rates_for_year : Pandas.Series Float64.t)
  (existing_women_by_age_bin : list women) (birth_year : Z)
  (subzone : string) : Float64.t :=
  let total :=
    births_over_age_bins fertility_rates_for_year existing_women_by_age_bin
      subzone in
  if is_latest birth_years_for_target birth_year
  then Float64.mul total Float64.half
  else total.

(** [fertility_rates_by_age[birth_year_str] / 1000]. *)
Definition rates_per_woman (column : Pandas.Series Float64.t)
  : Pandas.Series Float64.t :=
  map (fun kv => (fst kv, Float64.div (snd kv) (Float64.of_int 1000))) column.

(** The two nested loops of [calculate_existing_preschoolers_for_year]: the
    series of births per subzone before it is cleaned up and cast. *)
Definition existing_births (a : FertilityProcessor.ages) (target_year : Z)
  (fertility_rates_by_age : Pandas.Frame)
  (existing_women_by_age_bin : list women) : Pandas.Series Float64.t :=
  let birth_years_for_target :=
    FertilityProcessor.birth_years_for_single_forecast_year a target_year in
  let all_subzones :=
    Pandas.unique (map Subzone existing_women_by_age_bin) in
  fold_left
    (fun subzone_preschoolers birth_year =>
       match Pandas.column fertility_rates_by_age (str birth_year) with
       | Some column =>
           let fertility_rates_for_year := rates_per_woman column in
           fold_left
             (fun subzone_preschoolers subzone =>
                Pandas.update
                  (fun v =>
                     Float64.add v
                       (total_births_in_subzone birth_years_for_target
                          fertility_rates_for_year existing_women_by_age_bin
                          birth_year subzone))
                  subzone subzone_preschoolers)
             all_subzones subzone_preschoolers
       | None => subzone_preschoolers
       end)
    birth_years_for_target
    (Pandas.full Float64.zero all_subzones).

(** [s.fillna(0).astype(int)], then the sum per label if a label repeats. *)
Definition clean_up (subzone_preschoolers : Pandas.Series Float64.t)
  : result (Pandas.Series Z) :=
  ints <- Pandas.astype_int (Pandas.fillna0 subzone_preschoolers) ;;
  Ok (if Pandas.duplicated_any (Pandas.index ints)
      then Pandas.groupby_sum Pandas.sum_int ints
      else ints).

Definition calculate_existing_preschoolers_for_year
  (a : FertilityProcessor.ages) (target_year : Z)
  (fertility_rates_by_age : Pandas.Frame)
  (existing_women_by_age_bin : list women) : result (Pandas.Series Z) :=
  clean_up
    (existing_births a target_year fertility_rates_by_age
       existing_women_by_age_bin).

(** [bto_units_by_subzone.loc[label]]: a row as a Series over the column
    labels; [None] when no row has the label. *)
Definition loc_row (t : Pandas.Table string) (label : string)
  : option (Pandas.Series Z) :=
  match Pandas.get (Pandas.table_rows t) label with
  | Some values => Some (combine (Pandas.table_columns t) values)
  | None => None
  end.

(** The children of one birth year per column of the housing table: units
    times rate; for the most recent birth year, when the minimum age is not
    a whole number of years, times [12 - min_preschool_age % 12] and divided
    by 12; then summed per label if a label repeats. *)
Definition children_from_birth_year (c : Config)
  (birth_years_for_target : list Z) (bto_units : Pandas.Series Z)
  (fertility_rate : Float64.t) (birth_year : Z) : Pandas.Series Float64.t :=
  let children :=
    map (fun kv => (fst kv, Float64.mul (Float64.of_int (snd kv)) fertility_rate))
        bto_units in
  let children :=
    if is_latest birth_years_for_target birth_year
       && negb (min_preschool_age c mod 12 =? 0)
    then
      map (fun kv =>
             (fst kv,
              Float64.div
                (Float64.mul (snd kv)
                   (Float64.of_int (12 - min_preschool_age c mod 12)))
                (Float64.of_int 12)))
          children
    else children in
  if Pandas.duplicated_any (Pandas.index children)
  then Pandas.groupby_sum Float64.nansum children
  else children.

(** Every birth year that has a row in the housing table has a rate, so
    that no [birth_rates[label]] raises. *)
Definition rates_available (birth_rates : Pandas.Series Float64.t)
  (bto_units_by_subzone : Pandas.Table string) (years : list Z) : bool :=
  forallb
    (fun birth_year =>
       match loc_row bto_units_by_subzone (str birth_year) with
       | Some _ => Pandas.has_label (str birth_year) birth_rates
       | None => true
       end)
    years.

(** The loop over the subzones that adds the children of one birth year. *)
Definition add_children (children : Pandas.Series Float64.t)
  (unique_subzones : list string) (subzone_preschoolers : Pandas.Series Float64.t)
  : Pandas.Series Float64.t :=
  fold_left
    (fun subzone_preschoolers subzone =>
       match Pandas.get children subzone with
       | Some value_to_add =>
           Pandas.update (fun v => Float64.add v value_to_add)
             subzone subzone_preschoolers
       | None => subzone_preschoolers
       end)
    unique_subzones subzone_preschoolers.

(** The body of the loop over the birth years; the rate of a birth year
    that has a row in the housing table is read with [birth_rates[label]],
    a [KeyError] when it is missing. *)
Definition bto_step (c : Config) (birth_years_for_target : list Z)
  (birth_rates : Pandas.Series Float64.t)
  (bto_units_by_subzone : Pandas.Table string) (unique_subzones : list string)
  (subzone_preschoolers : Pandas.Series Float64.t) (birth_year : Z)
  : result (Pandas.Series Float64.t) :=
  match loc_row bto_units_by_subzone (str birth_year) with
  | Some bto_units =>
      fertility_rate <- Pandas.getitem birth_rates (str birth_year) ;;
      Ok (add_children
            (children_from_birth_year c birth_years_for_target bto_units
               fertility_rate birth_year)
            unique_subzones subzone_preschoolers)
  | None => Ok subzone_preschoolers
  end.

(** The loop of [calculate_bto_preschoolers_for_year]: the series of
    children per subzone before it is cleaned up and cast. *)
Definition bto_births (c : Config) (target_year : Z)
  (birth_rates : Pandas.Series Float64.t)
  (bto_units_by_subzone : Pandas.Table string)
  : result (Pandas.Series Float64.t) :=
  let birth_years_for_target :=
    FertilityProcessor.birth_years_for_single_forecast_year (ages_of c)
      target_year in
  let unique_subzones :=
    Pandas.unique (Pandas.table_columns bto_units_by_subzone) in
  for_each
    (bto_step c birth_years_for_target birth_rates bto_units_by_subzone
       unique_subzones)
    birth_years_for_target
    (Pandas.full Float64.zero unique_subzones).

Definition calculate_bto_preschoolers_for_year (c : Config) (target_year : Z)
  (birth_rates : Pandas.Series Float64.t)
  (bto_units_by_subzone : Pandas.Table string) : result (Pandas.Series Z) :=
  subzone_preschoolers <-
    bto_births c target_year birth_rates bto_units_by_subzone ;;
  clean_up subzone_preschoolers.

(** The sum per label if a label repeats. *)
Definition without_duplicates (s : Pandas.Series Z) : Pandas.Series Z :=
  if Pandas.duplicated_any (Pandas.index s)
  then Pandas.groupby_sum Pandas.sum_int s
  else s.

(** One of the two loops that add a side to [total_preschoolers]. *)
Definition add_side (side : Pandas.Series Z)
  (total_preschoolers : Pandas.Series Z) : Pandas.Series Z :=
  fold_left
    (fun total_preschoolers subzone =>
       if Pandas.has_label subzone total_preschoolers then
         match Pandas.get side subzone with
         | Some v => Pandas.update (fun t => t + v) subzone total_preschoolers
         | None => total_preschoolers
         end
       else total_preschoolers)
    (Pandas.index side) total_preschoolers.

(** The combination of the two sides in [calculate_preschoolers_for_year]. *)
Definition combine_sides (existing_preschoolers bto_preschoolers : Pandas.Series Z)
  : Pandas.Series Z :=
  let existing_preschoolers := without_duplicates existing_preschoolers in
  let bto_preschoolers := without_duplicates bto_preschoolers in
  let all_subzones :=
    Pandas.unique
      (Pandas.index existing_preschoolers ++ Pandas.index bto_preschoolers) in
  let total_preschoolers := Pandas.full 0 all_subzones in
  let total_preschoolers := add_side existing_preschoolers total_preschoolers in
  add_side bto_preschoolers total_preschoolers.

Definition calculate_preschoolers_for_year (c : Config) (target_year : Z)
  (bto_birth_rates : Pandas.Series Float64.t)
  (bto_units_by_subzone : Pandas.Table string)
  (fertility_rates_by_age : Pandas.Frame)
  (existing_women_by_age_bin : list women) : result (Pandas.Series Z) :=
  existing_preschoolers <-
    calculate_existing_preschoolers_for_year (ages_of c) target_year
      fertility_rates_by_age existing_women_by_age_bin ;;
  bto_preschoolers <-
    calculate_bto_preschoolers_for_year c target_year bto_birth_rates
      bto_units_by_subzone ;;
  Ok (combine_sides existing_preschoolers bto_preschoolers).

(** [calculate_preschoolers_all_years]: one series per forecast year, then
    the table with the years as rows and 0 in the cells a series lacks. *)
Definition calculate_preschoolers_all_years (c : Config)
  (bto_birth_rates : Pandas.Series Float64.t)
  (bto_units_by_subzone : Pandas.Table string)
  (fertility_rates_by_age : Pandas.Frame)
  (existing_women_by_age_bin : list women) : result (Pandas.Table Z) :=
  results_by_year <-
    map_result
      (fun forecast_year =>
         preschoolers <-
           calculate_preschoolers_for_year c forecast_year bto_birth_rates
             bto_units_by_subzone fertility_rates_by_age
             existing_women_by_age_bin ;;
         Ok (forecast_year, preschoolers))
      (forecast_years c) ;;
  let subzones :=
    Pandas.unique (flat_map (fun r => Pandas.index (snd r)) results_by_year) in
  Ok (Pandas.mk_Table subzones
        (map (fun r =>
                (fst r,
                 map (fun subzone =>
                        match Pandas.get (snd r) subzone with
                        | Some v => v
                        | None => 0
                        end)
                     subzones))
             results_by_year)).

(** A cell of [(forecasted_num_preschoolers / preschool_capacity).round(0)]. *)
Definition preschools_needed_cell (preschool_capacity num_preschoolers : Z)
  : Float64.t :=
  Float64.round0
    (Float64.div (Float64.of_int num_preschoolers)
       (Float64.of_int preschool_capacity)).

(** The conversion to preschools needed in [run]: the quotient is rounded
    and cast to [int]; the cast of the table fails if a cell is not
    finite. *)
Definition preschools_needed (preschool_capacity : Z)
  (forecasted_num_preschoolers : Pandas.Table Z) : result (Pandas.Table Z) :=
  rows <-
    map_result
      (fun row =>
         cells <-
           map_result
             (fun n => Float64.to_int (preschools_needed_cell preschool_capacity n))
             (snd row) ;;
         Ok (fst row, cells))
      (Pandas.table_rows forecasted_num_preschoolers) ;;
  Ok (Pandas.mk_Table (Pandas.table_columns forecasted_num_preschoolers) rows).

(** [preschool_gap.loc[year, subzone] = supply - preschool_gap.loc[year,
    subzone]] on the row of [year]: the cell under the column [subzone] is
    replaced. *)
Fixpoint set_gap (columns : list string) (cells : list Z) (subzone : string)
  (supply : Z) : list Z :=
  match columns, cells with
  | column :: columns', cell :: cells' =>
      (if String.eqb column subzone then supply - cell else cell)
      :: set_gap columns' cells' subzone supply
  | _, _ => cells
  end.

(** [calculate_preschool_gap]: a copy of the table of preschools needed in
    which the cells of the subzones common to both inputs are replaced by
    supply minus need.  [existing_preschools] gives the [num_preschools]
    column by subzone. *)
Definition calculate_preschool_gap (existing_preschools : Pandas.Series Z)
  (forecasted_preschools_needed : Pandas.Table Z) : Pandas.Table Z :=
  let preschool_gap := forecasted_preschools_needed in
  let common_subzones :=
    Pandas.unique
      (filter (fun subzone => Pandas.has_label subzone existing_preschools)
              (Pandas.table_columns preschool_gap)) in
  Pandas.mk_Table (Pandas.table_columns preschool_gap)
    (map (fun row =>
            (fst row,
             fold_left
               (fun cells subzone =>
                  match Pandas.get existing_preschools subzone with
                  | Some supply =>
                      set_gap (Pandas.table_columns preschool_gap) cells
                        subzone supply
                  | None => cells
                  end)
               common_subzones (snd row)))
         (Pandas.table_rows preschool_gap)).

End Forecaster.

(** ** Reference notions the design document uses *)

(** Years that go up by exactly one from each element to the next. *)
Fixpoint consecutive (ys : list Z) : Prop :=
  match ys with
  | y :: ((y' :: _) as rest) => y' = y + 1 /\ consecutive rest
  | _ => True
  end.

(** Insertion into an ascending list without repetition. *)
Fixpoint insert_asc (x : Z) (l : list Z) : list Z :=
  match l with
  | [] => [x]
  | y :: l' =>
      if x <? y then x :: l
      else if x =? y then l
      else y :: insert_asc x l'
  end.

(** The ascending union of a family of windows: every year of every window,
    once, in increasing order. *)
Definition ascending_union (windows : list (list Z)) : list Z :=
  fold_right insert_asc [] (concat windows).

(** The integer a value of an estimator series is stored as: a missing
    value counts as 0 and the fraction of a finite value is dropped. *)
Definition truncated (v : Float64.t) : Z :=
  match Float64.fillna0 v with
  | Float64.Finite q => Float64.truncate q
  | _ => 0
  end.

(** The sum of the sides that have an entry for a subzone. *)
Definition sum_sides (x y : option Z) : option Z :=
  match x, y with
  | Some a, Some b => Some (a + b)
  | Some a, None => Some a
  | None, Some b => Some b
  | None, None => None
  end.

(** The combination as the design document words it: the contributions of
    the sides that have an entry are added, and the sum is rounded to the
    nearest integer. *)
Definition rounded_sum (x y : option Float64.t) : option Float64.t :=
  match x, y with
  | Some a, Some b => Some (Float64.round0 (Float64.add a b))
  | Some a, None => Some (Float64.round0 a)
  | None, Some b => Some (Float64.round0 b)
  | None, None => None
  end.

(** Rounding of [n / d], for [d > 0], to the nearest integer with a tie
    sent away from zero, the rule the design document names for the
    conversion to preschools needed. *)
Definition round_half_away (n d : Z) : Z :=
  Z.sgn n * ((2 * Z.abs n + d) / (2 * d)).

(** The units of the projects of a subzone, named as in the data, that are
    completed by a year. *)
Definition units_completed_by (bto_data : list BTOProcessor.bto)
  (subzone : string) (year : Z) : Z :=
  Pandas.sum_int
    (map BTOProcessor.Total_number_of_units
       (filter (fun r =>
                  String.eqb (BTOProcessor.Subzone r) subzone
                  && (BTOProcessor.Estimated_completion_year r <=? year))
               bto_data)).

(** A value that is neither an infinity nor NaN. *)
Definition finite (x : Float64.t) : Prop := exists q, x = Float64.Finite q.

(** A series, and a frame, of such values. *)
Definition finite_series (s : Pandas.Series Float64.t) : Prop :=
  Forall (fun kv => finite (snd kv)) s.

Definition finite_frame (f : Pandas.Frame) : Prop :=
  Forall (fun kv => Forall finite (snd kv)) (Pandas.frame_columns f).

(** A frame in which every column has one value per row label. *)
Definition well_formed (f : Pandas.Frame) : Prop :=
  Forall (fun kv => length (snd kv) = length (Pandas.frame_index f))
         (Pandas.frame_columns f).

(** The rows of the sheet that count for a subzone and an age bin: the rows
    of the subzone that are no totals and no rows of the males, and whose age
    the dictionary sends to the bin. *)
Definition rows_counted_for (age_bins : list (string * string))
  (subzone age_bin : string)
  (rows : list ExistingResidentsProcessor.sheet_row)
  : list ExistingResidentsProcessor.sheet_row :=
  filter
    (fun r =>
       negb (String.eqb (ExistingResidentsProcessor.sheet_Subzone r) "Total")
       && negb (String.eqb (ExistingResidentsProcessor.sheet_Age r) "Total")
       && negb (String.eqb (ExistingResidentsProcessor.sheet_Sex r) "Total")
       && negb (String.eqb (ExistingResidentsProcessor.sheet_Sex r) "Males")
       && String.eqb (ExistingResidentsProcessor.sheet_Subzone r) subzone
       && match Pandas.get age_bins (ExistingResidentsProcessor.sheet_Age r) with
          | Some b => String.eqb b age_bin
          | None => false
          end)
    rows.

(** ** Worked examples of the design document *)

Module Examples.

Import Forecaster ExistingResidentsProcessor.

(** One subzone with 1000 women aged 25 to 29, and a fertility table whose
    only year is 2024, the latest birth year of the window of 2026, with 50
    births per 1000 women. *)
Definition women_A : list women :=
  [mk_women "A" "25 - 29 Years" (Float64.of_int 1000)].

Definition rates_2024 : Pandas.Frame :=
  Pandas.mk_Frame ["25 - 29 Years"%string]
    [("2024"%string, [Float64.of_int 50])].

(** 200 cumulative units in 2024 and an averaged rate of 0.02. *)
Definition units_2024 : Pandas.Table string :=
  Pandas.mk_Table ["A"%string] [("2024"%string, [200])].

Definition birth_rates_2024 : Pandas.Series Float64.t :=
  [("2024"%string, Float64.Finite (2 # 100))].

(** Three women aged 25 to 29 in subzone A and 250 births per 1000 women
    in 2023, a birth year of the window of 2026 that is not its latest. *)
Definition women_3 : list women :=
  [mk_women "A" "25 - 29 Years" (Float64.of_int 3)].

Definition rates_2023 : Pandas.Frame :=
  Pandas.mk_Frame ["25 - 29 Years"%string]
    [("2023"%string, [Float64.of_int 250])].

(** Residents and housing projects of one subzone whose name is written
    once with a trailing space and once without. *)
Definition residents_Bedok : list resident :=
  [mk_resident "Bedok " "25" (Float64.of_int 8);
   mk_resident "Bedok" "25" (Float64.of_int 4)].

Definition projects_Bedok : list BTOProcessor.bto :=
  [BTOProcessor.mk_bto "Bedok " 2024 100;
   BTOProcessor.mk_bto "Bedok" 2024 100].

(** A fertility table observed up to 2023. *)
Definition fertility_2023 : Pandas.Frame :=
  Pandas.mk_Frame ["20 - 24 Years"%string; "25 - 29 Years"%string]
    [("2022"%string, [Float64.of_int 12; Float64.of_int 50]);
     ("2023"%string, [Float64.of_int 11; Float64.of_int 48])].

End Examples.

(* ================================================================== *)
(** * Properties *)
(* ================================================================== *)

(** ** Python builtins *)

Section Builtins.

Lemma range_empty (lo hi : Z) : hi <= lo -> range lo hi = [].
Proof.
  intros H. unfold range.
  replace (Z.to_nat (hi - lo)) with 0%nat by lia. reflexivity.
Qed.

Lemma range_snoc (lo hi : Z) :
  lo <= hi -> range lo (hi + 1) = range lo hi ++ [hi].
Proof.
  intros H. unfold range.
  replace (Z.to_nat (hi + 1 - lo)) with (Z.to_nat (hi - lo) + 1)%nat by lia.
  rewrite seq_app, map_app. cbn [seq map]. f_equal. f_equal. lia.
Qed.

Lemma In_range (lo hi x : Z) : In x (range lo hi) <-> lo <= x < hi.
Proof.
  unfold range. rewrite in_map_iff. split.
  - intros (i & <- & Hi). apply in_seq in Hi. lia.
  - intros H. exists (Z.to_nat (x - lo)). split; [lia |].
    apply in_seq. lia.
Qed.

Lemma range_length (lo hi : Z) : length (range lo hi) = Z.to_nat (hi - lo).
Proof. unfold range. now rewrite length_map, length_seq. Qed.

Lemma range_nth (lo hi : Z) (i : nat) (d : Z) :
  (i < Z.to_nat (hi - lo))%nat -> nth i (range lo hi) d = lo + Z.of_nat i.
Proof.
  intros H. unfold range.
  set (f := fun i : nat => lo + Z.of_nat i).
  transitivity (nth i (map f (seq 0 (Z.to_nat (hi - lo)))) (f 0%nat)).
  - apply nth_indep. now rewrite length_map, length_seq.
  - rewrite map_nth, seq_nth by assumption. reflexivity.
Qed.

Lemma sorted_snoc (l : list Z) (m : Z) :
  StronglySorted Z.lt l -> Forall (fun x => x < m) l ->
  StronglySorted Z.lt (l ++ [m]).
Proof.
  induction 1 as [| x l Hs IHs Hx]; intros Hb; cbn.
  - repeat constructor.
  - inversion Hb; subst. constructor.
    + apply IHs. assumption.
    + apply Forall_app. split; [assumption |]. repeat constructor. assumption.
Qed.

Lemma range_sorted (lo hi : Z) : StronglySorted Z.lt (range lo hi).
Proof.
  remember (Z.to_nat (hi - lo)) as n eqn:En.
  revert hi En. induction n as [| n IH]; intros hi En.
  - rewrite range_empty by lia. constructor.
  - replace hi with ((hi - 1) + 1) by lia.
    rewrite range_snoc by lia. apply sorted_snoc.
    + apply IH. lia.
    + apply Forall_forall. intros x Hx. apply In_range in Hx. lia.
Qed.

Lemma fold_left_max_spec (xs : list Z) (x : Z) :
  let m := fold_left Z.max xs x in
  (m = x \/ In m xs) /\ x <= m /\ Forall (fun y => y <= m) xs.
Proof.
  revert x. induction xs as [| y ys IH]; intros x; cbn.
  - repeat split; auto. lia.
  - destruct (IH (Z.max x y)) as (Hm & Hle & Hall).
    split; [| split].
    + destruct Hm as [E | Hin]; [| now right; right].
      rewrite E.
      destruct (Z.max_spec x y) as [[_ E'] | [_ E']]; rewrite E'.
      * right. left. reflexivity.
      * left. reflexivity.
    + lia.
    + constructor; [lia | assumption].
Qed.

Lemma max_spec (xs : list Z) (m : Z) :
  max xs = Ok m <-> In m xs /\ Forall (fun y => y <= m) xs.
Proof.
  destruct xs as [| x xs]; cbn.
  - split; [discriminate | intros [[] _]].
  - pose proof (fold_left_max_spec xs x) as H. cbn zeta in H.
    destruct H as (Hin & Hle & Hall). split.
    + intros E. injection E as <-. split.
      * destruct Hin as [E | Hin]; [left; symmetry; exact E | right; exact Hin].
      * constructor; assumption.
    + intros (Hm & Hb). f_equal.
      inversion Hb as [| ? ? Hxm Hb']; subst.
      assert (m <= fold_left Z.max xs x).
      { destruct Hm as [<- | Hm]; [assumption |].
        rewrite Forall_forall in Hall. auto. }
      assert (fold_left Z.max xs x <= m).
      { destruct Hin as [-> | Hin]; [assumption |].
        rewrite Forall_forall in Hb'. auto. }
      lia.
Qed.

Lemma max_range (lo hi : Z) : lo < hi -> max (range lo hi) = Ok (hi - 1).
Proof.
  intros H. apply max_spec. split.
  - apply In_range. lia.
  - apply Forall_forall. intros x Hx. apply In_range in Hx. lia.
Qed.

Lemma round_div_bounds (n d : Z) :
  0 < d -> n / d <= round_div n d <= n / d + 1.
Proof.
  intros Hd. unfold round_div.
  destruct (2 * (n mod d) <? d); [lia |].
  destruct (d <? 2 * (n mod d)); [lia |].
  destruct (Z.even (n / d)); lia.
Qed.

(** [round] is monotone: an older age never rounds to fewer years. *)
Lemma round_div_monotone (n1 n2 d : Z) :
  0 < d -> n1 <= n2 -> round_div n1 d <= round_div n2 d.
Proof.
  intros Hd Hn.
  assert (Hq : n1 / d <= n2 / d) by (apply Z.div_le_mono; lia).
  destruct (Z.eq_dec (n1 / d) (n2 / d)) as [E | E].
  - assert (Hr : n1 mod d <= n2 mod d).
    { pose proof (Z.div_mod n1 d ltac:(lia)).
      pose proof (Z.div_mod n2 d ltac:(lia)). rewrite E in *. lia. }
    unfold round_div. rewrite E.
    destruct (Z.ltb_spec (2 * (n1 mod d)) d);
      destruct (Z.ltb_spec (2 * (n2 mod d)) d);
      destruct (Z.ltb_spec d (2 * (n1 mod d)));
      destruct (Z.ltb_spec d (2 * (n2 mod d)));
      destruct (Z.even (n2 / d)); lia.
  - pose proof (round_div_bounds n1 d Hd).
    pose proof (round_div_bounds n2 d Hd). lia.
Qed.

End Builtins.

(** ** Ascending unions *)

Section AscendingUnion.

Lemma In_insert_asc (x y : Z) (l : list Z) :
  In y (insert_asc x l) <-> y = x \/ In y l.
Proof.
  induction l as [| z l IH]; cbn.
  - intuition auto.
  - destruct (Z.ltb_spec x z); [cbn; intuition auto |].
    destruct (Z.eqb_spec x z); cbn; [subst; intuition auto |].
    rewrite IH. intuition auto.
Qed.

Lemma insert_asc_sorted (x : Z) (l : list Z) :
  StronglySorted Z.lt l -> StronglySorted Z.lt (insert_asc x l).
Proof.
  induction 1 as [| z l Hs IHs Hz]; cbn.
  - repeat constructor.
  - destruct (Z.ltb_spec x z).
    + constructor; [constructor; assumption |].
      constructor; [assumption |].
      eapply Forall_impl; [| exact Hz]. cbn. intros; lia.
    + destruct (Z.eqb_spec x z); [constructor; assumption |].
      constructor; [assumption |].
      apply Forall_forall. intros y Hy. apply In_insert_asc in Hy.
      destruct Hy as [-> | Hy]; [lia |].
      rewrite Forall_forall in Hz. auto.
Qed.

Lemma ascending_union_sorted (ws : list (list Z)) :
  StronglySorted Z.lt (ascending_union ws).
Proof.
  unfold ascending_union.
  induction (concat ws) as [| x l IH]; cbn.
  - constructor.
  - apply insert_asc_sorted, IH.
Qed.

Lemma In_ascending_union (ws : list (list Z)) (x : Z) :
  In x (ascending_union ws) <-> exists w, In w ws /\ In x w.
Proof.
  unfold ascending_union.
  transitivity (In x (concat ws)).
  - induction (concat ws) as [| y l IH]; cbn; [tauto |].
    rewrite In_insert_asc, IH. intuition auto.
  - apply in_concat.
Qed.

(** Two ascending lists without repetition that hold the same years are the
    same list. *)
Lemma sorted_ext (l1 l2 : list Z) :
  StronglySorted Z.lt l1 -> StronglySorted Z.lt l2 ->
  (forall x, In x l1 <-> In x l2) -> l1 = l2.
Proof.
  intros H1. revert l2. induction H1 as [| a l1 H1 IH Ha]; intros l2 H2 Hx.
  - destruct l2 as [| b l2]; [reflexivity |].
    destruct (proj2 (Hx b)). now left.
  - destruct H2 as [| b l2 H2 Hb].
    + destruct (proj1 (Hx a)). now left.
    + rewrite Forall_forall in Ha, Hb.
      assert (a = b).
      { destruct (proj1 (Hx a) (or_introl eq_refl)) as [E | Hin]; [auto |].
        destruct (proj2 (Hx b) (or_introl eq_refl)) as [E | Hin']; [auto |].
        specialize (Ha _ Hin'). specialize (Hb _ Hin). lia. }
      subst b. f_equal. apply IH; [assumption |].
      intros x. split; intros Hin.
      * destruct (proj1 (Hx x) (or_intror Hin)) as [E | ?]; [| assumption].
        specialize (Ha _ Hin). lia.
      * destruct (proj2 (Hx x) (or_intror Hin)) as [E | ?]; [| assumption].
        specialize (Hb _ Hin). lia.
Qed.

End AscendingUnion.

(** ** Birth-year windows *)

Section BirthYearWindow.

Import FertilityProcessor.

Variable a : ages.

Let rmin := round_div (min_preschool_age a) 12.
Let rmax := round_div (max_preschool_age a) 12.

Lemma In_single_window (y x : Z) :
  In x (birth_years_for_single_forecast_year a y) <->
  y - round_div (max_preschool_age a) 12 <= x
    <= y - round_div (min_preschool_age a) 12.
Proof.
  unfold birth_years_for_single_forecast_year. cbn zeta.
  rewrite In_range. lia.
Qed.

Lemma single_window_max (y : Z) :
  min_preschool_age a <= max_preschool_age a ->
  max (birth_years_for_single_forecast_year a y)
  = Ok (y - round_div (min_preschool_age a) 12).
Proof.
  intros H. unfold birth_years_for_single_forecast_year. cbn zeta.
  pose proof (round_div_monotone _ _ 12 ltac:(lia) H).
  rewrite max_range by lia. f_equal. lia.
Qed.

Lemma multiple_loop (l : list Z) (rest : list Z) :
  min_preschool_age a <= max_preschool_age a ->
  for_each (multiple_step a) rest (Some l)
  = Ok (Some (l ++ map (fun y => y - round_div (min_preschool_age a) 12) rest)).
Proof.
  intros H. revert l. induction rest as [| y rest IH]; intros l; cbn.
  - now rewrite app_nil_r.
  - rewrite single_window_max by assumption. cbn.
    rewrite IH, <- app_assoc. reflexivity.
Qed.

Lemma last_cons (y d d' : Z) (l : list Z) :
  last (y :: l) d = last (y :: l) d'.
Proof.
  revert y. induction l as [| z l IH]; intros y; [reflexivity |].
  change (last (z :: l) d = last (z :: l) d'). apply IH.
Qed.

Lemma consecutive_last (y0 : Z) (rest : list Z) :
  consecutive (y0 :: rest) -> last rest y0 = y0 + Z.of_nat (length rest).
Proof.
  revert y0. induction rest as [| y1 rest IH]; intros y0 H.
  - cbn. lia.
  - destruct H as [-> H]. specialize (IH _ H).
    destruct rest as [| y2 rest].
    + cbn. lia.
    + change (last ((y0 + 1) :: y2 :: rest) y0) with (last (y2 :: rest) y0).
      rewrite (last_cons y2 y0 (y0 + 1)), IH. cbn [length]. lia.
Qed.

(** On consecutive forecast years the first window followed by the later
    maxima is one unbroken range of birth years. *)
Lemma consecutive_window_range (y0 lo : Z) (rest : list Z) :
  consecutive (y0 :: rest) -> lo <= y0 - rmin + 1 ->
  range lo (y0 - rmin + 1) ++ map (fun y => y - rmin) rest
  = range lo (last rest y0 - rmin + 1).
Proof.
  revert y0. induction rest as [| y1 rest IH]; intros y0 Hc Hlo.
  - cbn. now rewrite app_nil_r.
  - destruct Hc as [-> Hc]. cbn [map].
    assert (E : range lo (y0 - rmin + 1) ++
                (y0 + 1 - rmin) :: map (fun y => y - rmin) rest
                = range lo (y0 + 1 - rmin + 1) ++ map (fun y => y - rmin) rest).
    { replace (y0 + 1 - rmin + 1) with (y0 - rmin + 1 + 1) by lia.
      rewrite (range_snoc lo (y0 - rmin + 1)) by assumption. rewrite <- app_assoc.
      cbn [app]. do 2 f_equal. lia. }
    rewrite E, IH by (assumption || lia).
    f_equal. f_equal. f_equal.
    destruct rest as [| y2 rest]; [reflexivity |].
    change (last ((y0 + 1) :: y2 :: rest) y0) with (last (y2 :: rest) y0).
    apply last_cons.
Qed.

Lemma consecutive_windows_cover (y0 : Z) (rest : list Z) (x : Z) :
  consecutive (y0 :: rest) -> rmin <= rmax ->
  (exists w, In w (map (birth_years_for_single_forecast_year a) (y0 :: rest))
             /\ In x w)
  <-> y0 - rmax <= x <= last rest y0 - rmin.
Proof.
  intros Hc Hr. revert y0 Hc. induction rest as [| y1 rest IH]; intros y0 Hc.
  - cbn. split.
    + intros (w & [<- | []] & Hx). apply In_single_window in Hx. exact Hx.
    + intros Hx. eexists. split; [left; reflexivity |].
      apply In_single_window. exact Hx.
  - pose proof (consecutive_last _ _ Hc) as Hl.
    destruct Hc as [-> Hc]. specialize (IH _ Hc).
    pose proof (consecutive_last _ _ Hc) as Hl'.
    assert (El : last ((y0 + 1) :: rest) y0 = last rest (y0 + 1)).
    { rewrite Hl, Hl'. cbn [length]. lia. }
    rewrite El. split.
    + intros (w & [<- | Hw] & Hx).
      * apply In_single_window in Hx. fold rmin rmax in Hx. lia.
      * assert (E : y0 + 1 - rmax <= x <= last rest (y0 + 1) - rmin)
          by (apply IH; eauto).
        lia.
    + intros Hx. destruct (Z_le_gt_dec x (y0 - rmin)) as [Hle | Hgt].
      * eexists. split; [left; reflexivity |].
        apply In_single_window. fold rmin rmax. lia.
      * destruct (proj2 IH) as (w & Hw & Hxw); [lia |].
        exists w. split; [right; exact Hw | exact Hxw].
Qed.

Lemma consecutive_windows_union (y0 : Z) (rest : list Z) :
  consecutive (y0 :: rest) -> rmin <= rmax ->
  ascending_union (map (birth_years_for_single_forecast_year a) (y0 :: rest))
  = range (y0 - rmax) (last rest y0 - rmin + 1).
Proof.
  intros Hc Hr. apply sorted_ext.
  - apply ascending_union_sorted.
  - apply range_sorted.
  - intros x. rewrite In_ascending_union, In_range.
    rewrite consecutive_windows_cover by assumption. lia.
Qed.

Lemma multiple_on_consecutive (y0 : Z) (rest : list Z) :
  min_preschool_age a <= max_preschool_age a ->
  consecutive (y0 :: rest) ->
  birth_years_for_multiple_forecast_years a (y0 :: rest)
  = Ok (Some (ascending_union
                (map (birth_years_for_single_forecast_year a) (y0 :: rest)))).
Proof.
  intros H Hc.
  assert (Hr : rmin <= rmax)
    by (apply round_div_monotone; [lia | assumption]).
  unfold birth_years_for_multiple_forecast_years.
  cbn [for_each multiple_step bind].
  rewrite multiple_loop by assumption.
  rewrite consecutive_windows_union by assumption.
  unfold birth_years_for_single_forecast_year. cbn zeta. fold rmin rmax.
  rewrite consecutive_window_range by (assumption || lia).
  reflexivity.
Qed.

(** C2. For a non-empty list of forecast years (and age bounds with
    min <= max, so that no window is empty), the multi-year window is the
    single-year window of the first forecast year followed, for each later
    forecast year in order, by the maximum birth year of that year's window
    only; when the forecast years go up by one each, that list is the
    ascending union of all the single-year windows. *)
Theorem multi_year_window_is_first_window_then_maxima
  (y0 : Z) (rest : list Z) :
  min_preschool_age a <= max_preschool_age a ->
  birth_years_for_multiple_forecast_years a (y0 :: rest)
  = Ok (Some (birth_years_for_single_forecast_year a y0
              ++ map (fun y => y - round_div (min_preschool_age a) 12) rest))
  /\ (forall y, max (birth_years_for_single_forecast_year a y)
                = Ok (y - round_div (min_preschool_age a) 12))
  /\ (consecutive (y0 :: rest) ->
      birth_years_for_multiple_forecast_years a (y0 :: rest)
      = Ok (Some (ascending_union
                    (map (birth_years_for_single_forecast_year a)
                         (y0 :: rest))))).
Proof.
  intros H. split; [| split].
  - unfold birth_years_for_multiple_forecast_years.
    cbn [for_each multiple_step bind]. now apply multiple_loop.
  - intros y. now apply single_window_max.
  - now apply multiple_on_consecutive.
Qed.

End BirthYearWindow.

Lemma multi_year_window_witness :
  FertilityProcessor.birth_years_for_multiple_forecast_years
    FertilityProcessor.default_ages [2026; 2027; 2028]
  = Ok (Some [2020; 2021; 2022; 2023; 2024; 2025; 2026]).
Proof.
  assert (H : 18 <= 6 * 12) by lia.
  exact (proj1 (multi_year_window_is_first_window_then_maxima
                  FertilityProcessor.default_ages 2026 [2027; 2028] H)).
Defined.

(** ** Forecast years of the orchestrator *)

Section ForecastYears.

Import Forecaster.

Lemma range_cons (lo hi : Z) : lo < hi -> range lo hi = lo :: range (lo + 1) hi.
Proof.
  intros H. unfold range.
  replace (Z.to_nat (hi - lo)) with (S (Z.to_nat (hi - (lo + 1)))) by lia.
  cbn [seq map]. f_equal; [lia |].
  rewrite <- seq_shift, map_map. apply map_ext. intros i. lia.
Qed.

Lemma range_consecutive (lo hi : Z) : consecutive (range lo hi).
Proof.
  remember (Z.to_nat (hi - lo)) as n eqn:En.
  revert lo En. induction n as [| n IH]; intros lo En.
  - rewrite range_empty by lia. exact I.
  - rewrite range_cons by lia.
    specialize (IH (lo + 1) ltac:(lia)).
    destruct (Z_le_gt_dec hi (lo + 1)) as [H | H].
    + rewrite range_empty by lia. exact I.
    + rewrite range_cons in IH |- * by lia. split; [reflexivity | exact IH].
Qed.

Lemma range_last (lo hi d : Z) : lo < hi -> last (range lo hi) d = hi - 1.
Proof.
  intros H. replace hi with ((hi - 1) + 1) at 1 by lia.
  rewrite range_snoc by lia. apply last_last.
Qed.

(** C10. With a positive number of forecast years, the forecast-year list
    of the orchestrator is the ascending range of consecutive integers from
    current_year + 1 to current_year + num_forecast_years: it has that many
    elements, the i-th is current_year + 1 + i, and each year is the previous
    one plus one; hence (for age bounds with min <= max) the incremental
    multi-year birth-year window computed from it is the ascending union of
    the single-year windows. *)
Theorem forecast_years_consecutive_range (c : Config) :
  0 < num_forecast_years c ->
  length (forecast_years c) = Z.to_nat (num_forecast_years c)
  /\ (forall i, (i < Z.to_nat (num_forecast_years c))%nat ->
        nth i (forecast_years c) 0 = current_year c + 1 + Z.of_nat i)
  /\ hd_error (forecast_years c) = Some (current_year c + 1)
  /\ last (forecast_years c) 0 = current_year c + num_forecast_years c
  /\ consecutive (forecast_years c)
  /\ (min_preschool_age c <= max_preschool_age c ->
      FertilityProcessor.birth_years_for_multiple_forecast_years
        (ages_of c) (forecast_years c)
      = Ok (Some (ascending_union
                    (map (FertilityProcessor.birth_years_for_single_forecast_year
                            (ages_of c))
                         (forecast_years c))))).
Proof.
  intros Hn. unfold forecast_years.
  set (lo := current_year c + 1).
  set (hi := current_year c + 1 + num_forecast_years c).
  assert (Hlen : Z.to_nat (hi - lo) = Z.to_nat (num_forecast_years c))
    by (subst lo hi; f_equal; lia).
  repeat split.
  - now rewrite range_length.
  - intros i Hi. apply range_nth. lia.
  - rewrite range_cons by (subst lo hi; lia). reflexivity.
  - rewrite range_last by (subst lo hi; lia). subst hi. lia.
  - apply range_consecutive.
  - intros Hages. pose proof (range_consecutive lo hi) as Hc.
    rewrite range_cons in Hc |- * by (subst lo hi; lia).
    apply multiple_on_consecutive; assumption.
Qed.

Lemma forecast_years_witness :
  length (forecast_years (default_Config 2025)) = 5%nat
  /\ forecast_years (default_Config 2025) = [2026; 2027; 2028; 2029; 2030].
Proof.
  split.
  - assert (H : 0 < 5) by lia.
    exact (proj1 (forecast_years_consecutive_range (default_Config 2025) H)).
  - reflexivity.
Defined.

End ForecastYears.

(** ** Series: reading after updating *)

Section SeriesFacts.

Import Pandas.

Context {V : Type}.

Lemma existsb_eqb_In (k : string) (labels : list string) :
  existsb (String.eqb k) labels = true <-> In k labels.
Proof.
  rewrite existsb_exists. split.
  - intros (x & Hx & E). apply String.eqb_eq in E. now subst.
  - intros H. exists k. split; [assumption | apply String.eqb_refl].
Qed.

Lemma get_update (f : V -> V) (k k' : string) (s : Series V) :
  get (update f k s) k'
  = if String.eqb k k' then option_map f (get s k') else get s k'.
Proof.
  induction s as [| [l v] s IH]; cbn.
  - now destruct (String.eqb k k').
  - destruct (String.eqb_spec l k) as [-> | Hlk]; cbn.
    + destruct (String.eqb_spec k k') as [-> | Hkk']; cbn.
      * reflexivity.
      * exact IH.
    + destruct (String.eqb_spec l k') as [-> | Hlk'].
      * destruct (String.eqb_spec k k') as [-> | _]; [contradiction | reflexivity].
      * exact IH.
Qed.

Lemma index_update (f : V -> V) (k : string) (s : Series V) :
  index (update f k s) = index s.
Proof.
  unfold index, update. rewrite map_map. apply map_ext.
  intros [l v]. cbn. now destruct (String.eqb l k).
Qed.

Lemma get_full (v : V) (labels : list string) (k : string) :
  get (full v labels) k
  = if existsb (String.eqb k) labels then Some v else None.
Proof.
  induction labels as [| l labels IH]; cbn; [reflexivity |].
  rewrite (String.eqb_sym k l).
  destruct (String.eqb l k); [reflexivity | exact IH].
Qed.

Lemma index_full (v : V) (labels : list string) : index (full v labels) = labels.
Proof.
  unfold index, full. rewrite map_map. cbn. apply map_id.
Qed.

Lemma get_Some_iff (s : Series V) (k : string) :
  (exists v, get s k = Some v) <-> In k (index s).
Proof.
  induction s as [| [l v] s IH]; cbn.
  - split; [intros (? & ?); discriminate | intros []].
  - destruct (String.eqb_spec l k) as [-> | Hlk].
    + split; [now left | eauto].
    + rewrite IH. split; [now right | intros [? | ?]; [contradiction | assumption]].
Qed.

Lemma get_None_iff (s : Series V) (k : string) :
  get s k = None <-> ~ In k (index s).
Proof.
  rewrite <- get_Some_iff. destruct (get s k) as [v |].
  - split; [discriminate | intros H; destruct H; eauto].
  - split; [intros _ (? & ?); discriminate | reflexivity].
Qed.

Lemma has_label_get (s : Series V) (k : string) :
  has_label k s = true <-> exists v, get s k = Some v.
Proof. unfold has_label. now rewrite existsb_eqb_In, get_Some_iff. Qed.

(** A loop that updates the entry of each label of a duplicate-free list
    touches every entry once. *)
Lemma get_fold_update (h : string -> option (V -> V)) (labels : list string)
  (s : Series V) (k : string) :
  NoDup labels ->
  get (fold_left
         (fun s l => match h l with Some f => update f l s | None => s end)
         labels s) k
  = if existsb (String.eqb k) labels
    then match h k with Some f => option_map f (get s k) | None => get s k end
    else get s k.
Proof.
  intros Hnd. revert s. induction Hnd as [| l labels Hl Hnd IH]; intros s.
  - reflexivity.
  - cbn [fold_left existsb]. rewrite IH.
    destruct (String.eqb_spec k l) as [-> | Hkl]; cbn [orb].
    + assert (E : existsb (String.eqb l) labels = false).
      { destruct (existsb (String.eqb l) labels) eqn:E; [| reflexivity].
        apply existsb_eqb_In in E. contradiction. }
      rewrite E. destruct (h l) as [f |]; [| reflexivity].
      now rewrite get_update, String.eqb_refl.
    + assert (E : get (match h l with Some f => update f l s | None => s end) k
                  = get s k).
      { destruct (h l) as [f |]; [| reflexivity].
        rewrite get_update.
        destruct (String.eqb_spec l k) as [-> | _]; [contradiction | reflexivity]. }
      now rewrite E.
Qed.

Lemma index_fold_update (h : string -> option (V -> V)) (labels : list string)
  (s : Series V) :
  index (fold_left
           (fun s l => match h l with Some f => update f l s | None => s end)
           labels s)
  = index s.
Proof.
  revert s. induction labels as [| l labels IH]; intros s; [reflexivity |].
  cbn [fold_left]. rewrite IH.
  destruct (h l); [apply index_update | reflexivity].
Qed.

Lemma unique_NoDup (labels : list string) : NoDup (unique labels).
Proof. apply NoDup_nodup. Qed.

Lemma In_unique (labels : list string) (k : string) :
  In k (unique labels) <-> In k labels.
Proof. apply nodup_In. Qed.

Lemma existsb_unique (labels : list string) (k : string) :
  existsb (String.eqb k) (unique labels) = existsb (String.eqb k) labels.
Proof.
  apply eq_true_iff_eq. now rewrite !existsb_eqb_In, In_unique.
Qed.

Lemma duplicated_any_NoDup (labels : list string) :
  NoDup labels -> duplicated_any labels = false.
Proof.
  induction 1 as [| l labels Hl Hnd IH]; cbn; [reflexivity |].
  rewrite IH, orb_false_r.
  destruct (existsb (String.eqb l) labels) eqn:E; [| reflexivity].
  apply existsb_eqb_In in E. contradiction.
Qed.

End SeriesFacts.

(** ** The existing-resident estimator *)

Section ExistingResidents.

Import Pandas Forecaster ExistingResidentsProcessor.

Lemma fold_left_ext_In {A B : Type} (f g : A -> B -> A) (l : list B) (a : A) :
  (forall acc x, In x l -> f acc x = g acc x) ->
  fold_left f l a = fold_left g l a.
Proof.
  revert a. induction l as [| x l IH]; intros a H; cbn; [reflexivity |].
  rewrite H by now left. apply IH. intros acc z Hz. apply H. now right.
Qed.

(** Inside the loop over the window, the most recent birth year is the
    forecast year minus the rounded minimum age. *)
Lemma is_latest_in_window (a : FertilityProcessor.ages) (y birth_year : Z) :
  In birth_year (FertilityProcessor.birth_years_for_single_forecast_year a y) ->
  is_latest (FertilityProcessor.birth_years_for_single_forecast_year a y)
    birth_year
  = (birth_year =? y - round_div (FertilityProcessor.min_preschool_age a) 12).
Proof.
  unfold FertilityProcessor.birth_years_for_single_forecast_year, is_latest.
  cbn zeta. intros H. apply In_range in H.
  rewrite max_range by lia. f_equal. lia.
Qed.

Variable F : Frame.
Variable W : list women.
Variable window : list Z.

Let T (column : Series Float64.t) (birth_year : Z) (subzone : string) :=
  total_births_in_subzone window (rates_per_woman column) W birth_year subzone.

Let year_step (labels : list string) (sp : Series Float64.t) (birth_year : Z) :=
  match column F (str birth_year) with
  | Some col =>
      fold_left
        (fun sp subzone => update (fun v => Float64.add v (T col birth_year subzone))
                             subzone sp)
        labels sp
  | None => sp
  end.

Lemma get_year_step (labels : list string) (sp : Series Float64.t)
  (birth_year : Z) (k : string) :
  NoDup labels ->
  get (year_step labels sp birth_year) k
  = if existsb (String.eqb k) labels
    then option_map
           (fun v => match column F (str birth_year) with
                     | Some col => Float64.add v (T col birth_year k)
                     | None => v
                     end)
           (get sp k)
    else get sp k.
Proof.
  intros Hnd. unfold year_step.
  destruct (column F (str birth_year)) as [col |].
  - pose proof (get_fold_update
                  (fun l => Some (fun v => Float64.add v (T col birth_year l)))
                  labels sp k Hnd) as H.
    cbn beta iota in H. exact H.
  - destruct (existsb (String.eqb k) labels); [| reflexivity].
    now destruct (get sp k).
Qed.

Lemma get_year_loop (labels : list string) (years : list Z)
  (sp : Series Float64.t) (k : string) :
  NoDup labels ->
  get (fold_left (year_step labels) years sp) k
  = if existsb (String.eqb k) labels
    then option_map
           (fun v =>
              fold_left
                (fun acc birth_year =>
                   match column F (str birth_year) with
                   | Some col => Float64.add acc (T col birth_year k)
                   | None => acc
                   end)
                years v)
           (get sp k)
    else get sp k.
Proof.
  intros Hnd. revert sp. induction years as [| y years IH]; intros sp.
  - cbn. destruct (existsb (String.eqb k) labels); [| reflexivity].
    now destruct (get sp k).
  - cbn [fold_left]. rewrite IH, get_year_step by assumption.
    destruct (existsb (String.eqb k) labels); [| reflexivity].
    now destruct (get sp k).
Qed.

End ExistingResidents.

(** C3. In the existing-resident sub-calculation the value accumulated for a
    subzone is the sum, over the birth years of the window that have a
    column in the fertility table, of the births summed over the 7 maternal
    age bins; that sum over the bins is multiplied by 0.5, once, for the
    maximum birth year of the window (the forecast year minus the rounded
    minimum age) and is added as it is for every other birth year.  With one
    subzone, 1000 women, 50 births per 1000 women and the window's maximum
    as the only birth year, the result is 25. *)
Theorem existing_births_halve_the_latest_birth_year
  (a : FertilityProcessor.ages) (y : Z) (F : Pandas.Frame)
  (W : list ExistingResidentsProcessor.women) (s : string) :
  Pandas.get (Forecaster.existing_births a y F W) s
  = (if existsb (String.eqb s) (map ExistingResidentsProcessor.Subzone W)
     then
       Some
         (fold_left
            (fun acc birth_year =>
               match Pandas.column F (str birth_year) with
               | Some column =>
                   let births :=
                     fold_left
                       (Forecaster.add_age_group
                          (Forecaster.rates_per_woman column) W s)
                       ExistingResidentsProcessor.all_mother_ages
                       Float64.zero in
                   Float64.add acc
                     (if birth_year
                         =? y - round_div
                                  (FertilityProcessor.min_preschool_age a) 12
                      then Float64.mul births Float64.half
                      else births)
               | None => acc
               end)
            (FertilityProcessor.birth_years_for_single_forecast_year a y)
            Float64.zero)
     else None)
  /\ length ExistingResidentsProcessor.all_mother_ages = 7%nat
  /\ Forecaster.calculate_existing_preschoolers_for_year a y F W
     = Forecaster.clean_up (Forecaster.existing_births a y F W)
  /\ Forecaster.existing_births FertilityProcessor.default_ages 2026
       Examples.rates_2024 Examples.women_A
     = [("A"%string, Float64.Finite (50000 # 2000))]
  /\ Forecaster.calculate_existing_preschoolers_for_year
       FertilityProcessor.default_ages 2026
       Examples.rates_2024 Examples.women_A
     = Ok [("A"%string, 25)].
Proof.
  split; [| repeat split].
  unfold Forecaster.existing_births. cbn zeta.
  set (window := FertilityProcessor.birth_years_for_single_forecast_year a y).
  set (labels := Pandas.unique (map ExistingResidentsProcessor.Subzone W)).
  pose proof (get_year_loop F W window labels window
                (Pandas.full Float64.zero labels) s (unique_NoDup _)) as H.
  cbn beta zeta in H. rewrite H. clear H.
  rewrite get_full. subst labels. rewrite existsb_unique.
  destruct (existsb (String.eqb s) (map ExistingResidentsProcessor.Subzone W));
    [| reflexivity].
  cbn [option_map]. f_equal.
  apply fold_left_ext_In. intros acc birth_year Hin.
  destruct (Pandas.column F (str birth_year)) as [col |]; [| reflexivity].
  unfold Forecaster.total_births_in_subzone, Forecaster.births_over_age_bins.
  cbn zeta. subst window. rewrite is_latest_in_window by assumption.
  reflexivity.
Qed.

(** ** The new-housing estimator *)

Section NewHousing.

Import Pandas Forecaster.

Lemma get_add_children (children : Series Float64.t) (labels : list string)
  (sp : Series Float64.t) (k : string) :
  NoDup labels ->
  get (add_children children labels sp) k
  = if existsb (String.eqb k) labels
    then match get children k with
         | Some x => option_map (fun v => Float64.add v x) (get sp k)
         | None => get sp k
         end
    else get sp k.
Proof.
  intros Hnd. unfold add_children.
  set (h := fun l => match get children l with
                     | Some x => Some (fun v => Float64.add v x)
                     | None => None
                     end).
  rewrite fold_left_ext_In with
    (g := fun s l => match h l with Some f => update f l s | None => s end).
  - rewrite get_fold_update by assumption. subst h. cbn beta.
    destruct (existsb (String.eqb k) labels); [| reflexivity].
    now destruct (get children k).
  - intros acc l _. subst h. cbn beta. now destruct (get children l).
Qed.

Variable c : Config.
Variable birth_rates : Series Float64.t.
Variable bto_units_by_subzone : Table string.
Variable window : list Z.

Lemma bto_loop (labels : list string) (years : list Z) (sp : Series Float64.t) :
  NoDup labels ->
  rates_available birth_rates bto_units_by_subzone years = true ->
  exists series,
    for_each (bto_step c window birth_rates bto_units_by_subzone labels)
      years sp = Ok series
    /\ forall k,
        get series k
        = if existsb (String.eqb k) labels
          then option_map
                 (fun v =>
                    fold_left
                      (fun acc birth_year =>
                         match loc_row bto_units_by_subzone (str birth_year),
                               get birth_rates (str birth_year) with
                         | Some bto_units, Some fertility_rate =>
                             match get (children_from_birth_year c window
                                          bto_units fertility_rate birth_year) k
                             with
                             | Some x => Float64.add acc x
                             | None => acc
                             end
                         | _, _ => acc
                         end)
                      years v)
                 (get sp k)
          else get sp k.
Proof.
  intros Hnd. revert sp. induction years as [| y years IH]; intros sp Hav.
  - exists sp. split; [reflexivity |]. intros k. cbn.
    destruct (existsb (String.eqb k) labels); [| reflexivity].
    now destruct (get sp k).
  - cbn [rates_available forallb] in Hav. apply andb_true_iff in Hav.
    destruct Hav as [Hy Hav]. cbn [for_each]. unfold bto_step at 1.
    destruct (loc_row bto_units_by_subzone (str y)) as [units |] eqn:Erow.
    + apply has_label_get in Hy. destruct Hy as [rate Hrate].
      unfold getitem. rewrite Hrate. cbn [bind].
      destruct (IH (add_children
                      (children_from_birth_year c window units rate y)
                      labels sp) Hav) as (series & Hs & Hget).
      exists series. split; [exact Hs |]. intros k. rewrite Hget.
      rewrite get_add_children by assumption. cbn [fold_left].
      rewrite Erow, Hrate.
      destruct (existsb (String.eqb k) labels); [| reflexivity].
      destruct (get (children_from_birth_year c window units rate y) k);
        now destruct (get sp k).
    + cbn [bind]. destruct (IH sp Hav) as (series & Hs & Hget).
      exists series. split; [exact Hs |]. intros k. rewrite Hget.
      cbn [fold_left]. rewrite Erow. reflexivity.
Qed.

End NewHousing.

(** C4. In the new-housing sub-calculation, the value accumulated for a
    subzone is the sum, over the birth years of the window that have a row
    in the housing table, of cumulative units times the averaged birth rate
    of that birth year; the product is additionally multiplied by
    (12 - min_preschool_age % 12) / 12 exactly when the birth year is the
    maximum of the window and min_preschool_age % 12 is not 0.  (Columns
    with the same label are summed.)  With 200 units at the window's
    maximum, a rate of 0.02 and a minimum age of 18 months, the result is
    200 * 0.02 * 0.5 = 2. *)
Theorem bto_births_discount_the_latest_birth_year
  (c : Forecaster.Config) (y : Z) (birth_rates : Pandas.Series Float64.t)
  (bto_units_by_subzone : Pandas.Table string) :
  let window :=
    FertilityProcessor.birth_years_for_single_forecast_year
      (Forecaster.ages_of c) y in
  let m := Forecaster.min_preschool_age c in
  let contribution (birth_year : Z) (fertility_rate : Float64.t) (units : Z) :=
    let children := Float64.mul (Float64.of_int units) fertility_rate in
    if (birth_year =? y - round_div m 12) && negb (m mod 12 =? 0)
    then Float64.div (Float64.mul children (Float64.of_int (12 - m mod 12)))
                     (Float64.of_int 12)
    else children in
  let per_label (s : Pandas.Series Float64.t) :=
    if Pandas.duplicated_any (Pandas.index s)
    then Pandas.groupby_sum Float64.nansum s
    else s in
  Forecaster.rates_available birth_rates bto_units_by_subzone window = true ->
  (exists series,
     Forecaster.bto_births c y birth_rates bto_units_by_subzone = Ok series
     /\ forall s,
         Pandas.get series s
         = if existsb (String.eqb s) (Pandas.table_columns bto_units_by_subzone)
           then
             Some
               (fold_left
                  (fun acc birth_year =>
                     match Forecaster.loc_row bto_units_by_subzone
                             (str birth_year),
                           Pandas.get birth_rates (str birth_year) with
                     | Some bto_units, Some fertility_rate =>
                         match Pandas.get
                                 (per_label
                                    (map (fun kv =>
                                            (fst kv,
                                             contribution birth_year
                                               fertility_rate (snd kv)))
                                         bto_units)) s
                         with
                         | Some x => Float64.add acc x
                         | None => acc
                         end
                     | _, _ => acc
                     end)
                  window Float64.zero)
           else None)
  /\ Forecaster.bto_births (Forecaster.default_Config 2025) 2026
       Examples.birth_rates_2024 Examples.units_2024
     = Ok [("A"%string, Float64.Finite (2400 # 1200))]
  /\ Forecaster.calculate_bto_preschoolers_for_year
       (Forecaster.default_Config 2025) 2026
       Examples.birth_rates_2024 Examples.units_2024
     = Ok [("A"%string, 2)].
Proof.
  intros window m contribution per_label Hav.
  split; [| split; reflexivity].
  unfold Forecaster.bto_births. cbn zeta. fold window.
  set (labels := Pandas.unique (Pandas.table_columns bto_units_by_subzone)).
  destruct (bto_loop c birth_rates bto_units_by_subzone window labels window
              (Pandas.full Float64.zero labels) (unique_NoDup _) Hav)
    as (series & Hs & Hget).
  exists series. split; [exact Hs |]. intros s. rewrite Hget, get_full.
  subst labels. rewrite existsb_unique.
  destruct (existsb (String.eqb s) (Pandas.table_columns bto_units_by_subzone));
    [| reflexivity].
  cbn [option_map]. f_equal.
  apply fold_left_ext_In. intros acc birth_year Hin.
  destruct (Forecaster.loc_row bto_units_by_subzone (str birth_year))
    as [units |]; [| reflexivity].
  destruct (Pandas.get birth_rates (str birth_year)) as [rate |];
    [| reflexivity].
  assert (E : Forecaster.children_from_birth_year c window units rate birth_year
              = per_label
                  (map (fun kv => (fst kv, contribution birth_year rate (snd kv)))
                       units)).
  { unfold Forecaster.children_from_birth_year. cbn zeta.
    subst window. rewrite is_latest_in_window by assumption.
    subst per_label contribution m. cbn beta zeta.
    cbn [Forecaster.ages_of FertilityProcessor.min_preschool_age].
    destruct ((birth_year
               =? y - round_div (Forecaster.min_preschool_age c) 12)
              && negb (Forecaster.min_preschool_age c mod 12 =? 0)).
    - rewrite map_map. cbn [fst snd]. reflexivity.
    - reflexivity. }
  rewrite E. reflexivity.
Qed.

Lemma bto_births_witness :
  exists series,
    Forecaster.bto_births (Forecaster.default_Config 2025) 2026
      Examples.birth_rates_2024 Examples.units_2024 = Ok series
    /\ Pandas.get series "A"%string = Some (Float64.Finite (2400 # 1200)).
Proof.
  assert (H : Forecaster.rates_available Examples.birth_rates_2024 Examples.units_2024
                (FertilityProcessor.birth_years_for_single_forecast_year
                   (Forecaster.ages_of (Forecaster.default_Config 2025)) 2026)
              = true) by reflexivity.
  destruct (proj1 (bto_births_discount_the_latest_birth_year
                     (Forecaster.default_Config 2025) 2026
                     Examples.birth_rates_2024 Examples.units_2024 H))
    as (series & Hs & Hget).
  exists series. split; [exact Hs |].
  rewrite Hget. reflexivity.
Defined.

(** ** Combining the two estimators *)

Section Combine.

Import Pandas Forecaster.

Lemma index_existing_births (a : FertilityProcessor.ages) (y : Z) (F : Frame)
  (W : list ExistingResidentsProcessor.women) :
  index (existing_births a y F W)
  = unique (map ExistingResidentsProcessor.Subzone W).
Proof.
  unfold existing_births. cbn zeta.
  set (labels := unique (map ExistingResidentsProcessor.Subzone W)).
  set (window := FertilityProcessor.birth_years_for_single_forecast_year a y).
  assert (Hgen : forall years sp,
             index
               (fold_left
                  (fun sp b =>
                     match column F (str b) with
                     | Some col =>
                         fold_left
                           (fun sp l =>
                              update
                                (fun v =>
                                   Float64.add v
                                     (total_births_in_subzone window
                                        (rates_per_woman col) W b l))
                                l sp)
                           labels sp
                     | None => sp
                     end)
                  years sp)
             = index sp).
  { induction years as [| b years IH]; intros sp; [reflexivity |].
    cbn [fold_left]. rewrite IH.
    destruct (column F (str b)) as [col |]; [| reflexivity].
    exact (index_fold_update
             (fun l => Some (fun v => Float64.add v
                (total_births_in_subzone window (rates_per_woman col) W b l)))
             labels sp). }
  rewrite Hgen. apply index_full.
Qed.

Lemma index_add_children (children : Series Float64.t) (labels : list string)
  (sp : Series Float64.t) :
  index (add_children children labels sp) = index sp.
Proof.
  unfold add_children. revert sp.
  induction labels as [| l labels IH]; intros sp; [reflexivity |].
  cbn [fold_left]. rewrite IH.
  destruct (get children l); [apply index_update | reflexivity].
Qed.

Lemma index_bto_loop (c : Config) (window : list Z)
  (birth_rates : Series Float64.t) (bto_units_by_subzone : Table string)
  (labels : list string) (years : list Z) (sp series : Series Float64.t) :
  for_each (bto_step c window birth_rates bto_units_by_subzone labels) years sp
  = Ok series ->
  index series = index sp.
Proof.
  revert sp. induction years as [| b years IH]; intros sp H.
  - cbn in H. injection H as H. now subst.
  - cbn [for_each] in H. unfold bto_step at 1 in H.
    destruct (loc_row bto_units_by_subzone (str b)) as [units |].
    + destruct (getitem birth_rates (str b)) as [rate | e]; [| discriminate].
      cbn [bind] in H. apply IH in H. rewrite H. apply index_add_children.
    + cbn [bind] in H. now apply IH in H.
Qed.

Lemma index_bto_births (c : Config) (y : Z) (birth_rates : Series Float64.t)
  (bto_units_by_subzone : Table string) (series : Series Float64.t) :
  bto_births c y birth_rates bto_units_by_subzone = Ok series ->
  index series = unique (table_columns bto_units_by_subzone).
Proof.
  unfold bto_births. cbn zeta. intros H.
  apply index_bto_loop in H. rewrite H. apply index_full.
Qed.

Lemma astype_int_spec (s : Series Float64.t) (r : Series Z) :
  astype_int s = Ok r ->
  index r = index s
  /\ forall k, get r k
               = match get s k with
                 | Some (Float64.Finite q) => Some (Float64.truncate q)
                 | _ => None
                 end.
Proof.
  revert r. induction s as [| [l v] s IH]; intros r H; cbn in H.
  - injection H as <-. split; [reflexivity | intros k; reflexivity].
  - destruct v as [q | | |]; cbn in H; try discriminate.
    destruct (astype_int s) as [r' | e]; [| discriminate].
    cbn in H. injection H as <-.
    destruct (IH r' eq_refl) as [Hi Hg]. split.
    + cbn. f_equal. exact Hi.
    + intros k. cbn. destruct (String.eqb l k); [reflexivity | apply Hg].
Qed.

Lemma get_fillna0 (s : Series Float64.t) (k : string) :
  get (fillna0 s) k = option_map Float64.fillna0 (get s k).
Proof.
  induction s as [| [l v] s IH]; cbn; [reflexivity |].
  destruct (String.eqb l k); [reflexivity | exact IH].
Qed.

Lemma index_fillna0 (s : Series Float64.t) : index (fillna0 s) = index s.
Proof. unfold index, fillna0. rewrite map_map. now apply map_ext. Qed.

(** The clean-up of an estimator series with distinct labels keeps the
    labels and truncates each value. *)
Lemma clean_up_spec (raw : Series Float64.t) (ints : Series Z) :
  NoDup (index raw) -> clean_up raw = Ok ints ->
  index ints = index raw
  /\ forall k, get ints k = option_map truncated (get raw k).
Proof.
  intros Hnd H. unfold clean_up in H.
  destruct (astype_int (fillna0 raw)) as [r | e] eqn:E; [| discriminate].
  cbn [bind] in H. destruct (astype_int_spec _ _ E) as [Hi Hg].
  rewrite index_fillna0 in Hi.
  rewrite Hi, duplicated_any_NoDup in H by assumption.
  injection H as <-. split; [exact Hi |].
  intros k. pose proof (Hg k) as Hk. rewrite get_fillna0 in Hk.
  destruct (get raw k) as [v |] eqn:Ek; cbn [option_map] in Hk |- *;
    [| exact Hk].
  unfold truncated.
  destruct (Float64.fillna0 v) as [q | | |]; try exact Hk.
  all: exfalso; apply get_None_iff in Hk; apply Hk.
  all: rewrite Hi; apply get_Some_iff; eauto.
Qed.

Lemma get_add_side (side total : Series Z) (k : string) :
  NoDup (index side) ->
  get (add_side side total) k
  = match get total k with
    | Some t => Some (match get side k with Some v => t + v | None => t end)
    | None => None
    end.
Proof.
  intros Hnd. unfold add_side.
  assert (Hgen : forall labels total,
             NoDup labels ->
             get (fold_left
                    (fun total subzone =>
                       if has_label subzone total then
                         match get side subzone with
                         | Some v => update (fun t => t + v) subzone total
                         | None => total
                         end
                       else total)
                    labels total) k
             = match get total k with
               | Some t =>
                   Some (if existsb (String.eqb k) labels
                         then match get side k with
                              | Some v => t + v
                              | None => t
                              end
                         else t)
               | None => None
               end).
  { clear. intros labels total Hnd. revert total.
    induction Hnd as [| l labels Hl Hnd IH]; intros total.
    - cbn. now destruct (get total k).
    - cbn [fold_left existsb]. rewrite IH.
      destruct (String.eqb_spec k l) as [-> | Hkl]; cbn [orb].
      + assert (E : existsb (String.eqb l) labels = false).
        { destruct (existsb (String.eqb l) labels) eqn:E; [| reflexivity].
          apply existsb_eqb_In in E. contradiction. }
        rewrite E. destruct (has_label l total) eqn:Eh.
        * destruct (get side l) as [v |]; [| reflexivity].
          rewrite get_update, String.eqb_refl. now destruct (get total l).
        * destruct (get total l) as [t |] eqn:Et; [| reflexivity].
          assert (has_label l total = true) by (apply has_label_get; eauto).
          congruence.
      + assert (E : get (if has_label l total then
                           match get side l with
                           | Some v => update (fun t => t + v) l total
                           | None => total
                           end
                         else total) k = get total k).
        { destruct (has_label l total); [| reflexivity].
          destruct (get side l); [| reflexivity].
          rewrite get_update.
          destruct (String.eqb_spec l k) as [-> | _];
            [contradiction | reflexivity]. }
        now rewrite E. }
  rewrite Hgen by assumption.
  destruct (get total k) as [t |]; [| reflexivity]. f_equal.
  destruct (existsb (String.eqb k) (index side)) eqn:E; [reflexivity |].
  destruct (get side k) as [v |] eqn:Ev; [| reflexivity].
  assert (existsb (String.eqb k) (index side) = true)
    by (apply existsb_eqb_In, get_Some_iff; eauto).
  congruence.
Qed.

Lemma index_add_side (side total : Series Z) :
  index (add_side side total) = index total.
Proof.
  unfold add_side. generalize (index side) as labels. intros labels.
  revert total. induction labels as [| l labels IH]; intros total;
    [reflexivity |].
  cbn [fold_left]. rewrite IH.
  destruct (has_label l total); [| reflexivity].
  destruct (get side l); [apply index_update | reflexivity].
Qed.

Lemma without_duplicates_NoDup (s : Series Z) :
  NoDup (index s) -> without_duplicates s = s.
Proof.
  intros H. unfold without_duplicates. now rewrite duplicated_any_NoDup.
Qed.

Lemma combine_sides_spec (e b : Series Z) :
  NoDup (index e) -> NoDup (index b) ->
  index (combine_sides e b) = unique (index e ++ index b)
  /\ forall k, get (combine_sides e b) k = sum_sides (get e k) (get b k).
Proof.
  intros He Hb. unfold combine_sides.
  rewrite !without_duplicates_NoDup by assumption. cbn zeta. split.
  - now rewrite !index_add_side, index_full.
  - intros k. rewrite !get_add_side, get_full, existsb_unique by assumption.
    assert (Hin : existsb (String.eqb k) (index e ++ index b)
                  = match get e k, get b k with
                    | None, None => false
                    | _, _ => true
                    end).
    { destruct (get e k) as [x |] eqn:Ee.
      - apply existsb_eqb_In, in_or_app. left. apply get_Some_iff. eauto.
      - destruct (get b k) as [z |] eqn:Eb.
        + apply existsb_eqb_In, in_or_app. right. apply get_Some_iff. eauto.
        + apply get_None_iff in Ee. apply get_None_iff in Eb.
          destruct (existsb (String.eqb k) (index e ++ index b)) eqn:E;
            [| reflexivity].
          apply existsb_eqb_In, in_app_or in E. tauto. }
    rewrite Hin.
    destruct (get e k) as [x |]; destruct (get b k) as [z |]; cbn;
      try reflexivity; f_equal; lia.
Qed.

End Combine.

(** C5, as the code has it.  For a target year on which both
    sub-calculations succeed, the combined series has each subzone of either
    sub-calculation exactly once, and the count of a subzone is the sum of
    the sides that have it, each side truncated toward zero to an integer on
    its own before the sum (a missing value counts as 0); nothing is clamped,
    so a negative contribution stays negative. *)
Theorem combined_count_sums_truncated_sides
  (c : Forecaster.Config) (y : Z) (bto_birth_rates : Pandas.Series Float64.t)
  (bto_units_by_subzone : Pandas.Table string) (F : Pandas.Frame)
  (W : list ExistingResidentsProcessor.women)
  (bto_raw : Pandas.Series Float64.t) (e b : Pandas.Series Z) :
  let existing_raw := Forecaster.existing_births (Forecaster.ages_of c) y F W in
  Forecaster.bto_births c y bto_birth_rates bto_units_by_subzone = Ok bto_raw ->
  Forecaster.clean_up existing_raw = Ok e ->
  Forecaster.clean_up bto_raw = Ok b ->
  Forecaster.calculate_preschoolers_for_year c y bto_birth_rates
    bto_units_by_subzone F W = Ok (Forecaster.combine_sides e b)
  /\ NoDup (Pandas.index (Forecaster.combine_sides e b))
  /\ (forall s, In s (Pandas.index (Forecaster.combine_sides e b))
                <-> In s (Pandas.index existing_raw)
                    \/ In s (Pandas.index bto_raw))
  /\ (forall s, Pandas.get (Forecaster.combine_sides e b) s
                = sum_sides (option_map truncated (Pandas.get existing_raw s))
                            (option_map truncated (Pandas.get bto_raw s))).
Proof.
  intros existing_raw Hb He Hb'.
  assert (Hnde : NoDup (Pandas.index existing_raw)).
  { subst existing_raw. rewrite index_existing_births. apply unique_NoDup. }
  assert (Hndb : NoDup (Pandas.index bto_raw)).
  { rewrite (index_bto_births _ _ _ _ _ Hb). apply unique_NoDup. }
  destruct (clean_up_spec _ _ Hnde He) as [Hie Hge].
  destruct (clean_up_spec _ _ Hndb Hb') as [Hib Hgb].
  rewrite <- Hie in Hnde. rewrite <- Hib in Hndb.
  destruct (combine_sides_spec e b Hnde Hndb) as [Hi Hg].
  repeat split.
  - unfold Forecaster.calculate_preschoolers_for_year,
      Forecaster.calculate_existing_preschoolers_for_year,
      Forecaster.calculate_bto_preschoolers_for_year.
    fold existing_raw. rewrite He, Hb. cbn [bind]. rewrite Hb'. reflexivity.
  - rewrite Hi. apply unique_NoDup.
  - rewrite Hi, In_unique, <- Hie, <- Hib. apply in_app_or.
  - rewrite Hi, In_unique, <- Hie, <- Hib. apply in_or_app.
  - intros s. now rewrite Hg, Hge, Hgb.
Qed.

Lemma combined_count_witness :
  Forecaster.calculate_preschoolers_for_year (Forecaster.default_Config 2025)
    2026 Examples.birth_rates_2024 Examples.units_2024
    Examples.rates_2023 Examples.women_3
  = Ok [("A"%string, 2)].
Proof.
  exact (proj1 (combined_count_sums_truncated_sides
                  (Forecaster.default_Config 2025) 2026
                  Examples.birth_rates_2024 Examples.units_2024
                  Examples.rates_2023 Examples.women_3
                  [("A"%string, Float64.Finite (2400 # 1200))]
                  [("A"%string, 0)] [("A"%string, 2)]
                  eq_refl eq_refl eq_refl)).
Defined.

(** C5 as stated fails: with 0.75 expected children of existing residents
    and 2 of the new housing in subzone A, the sum 2.75 rounds to 3, and the
    code returns 0 + 2 = 2. *)
Lemma combined_count_is_not_the_rounded_sum :
  Forecaster.existing_births
    (Forecaster.ages_of (Forecaster.default_Config 2025)) 2026
    Examples.rates_2023 Examples.women_3
  = [("A"%string, Float64.Finite (750 # 1000))]
  /\ Forecaster.bto_births (Forecaster.default_Config 2025) 2026
       Examples.birth_rates_2024 Examples.units_2024
     = Ok [("A"%string, Float64.Finite (2400 # 1200))]
  /\ rounded_sum (Some (Float64.Finite (750 # 1000)))
                 (Some (Float64.Finite (2400 # 1200)))
     = Some (Float64.of_int 3)
  /\ Forecaster.calculate_preschoolers_for_year
       (Forecaster.default_Config 2025) 2026
       Examples.birth_rates_2024 Examples.units_2024
       Examples.rates_2023 Examples.women_3
     = Ok [("A"%string, 2)].
Proof. repeat split. Qed.

(** ** The conversion to preschools needed *)

Section PreschoolsNeeded.

Import Forecaster.

Lemma to_int_of_int (z : Z) : Float64.to_int (Float64.of_int z) = Ok z.
Proof.
  unfold Float64.to_int, Float64.of_int, Float64.truncate. cbn.
  now rewrite Z.quot_1_r.
Qed.

Lemma preschools_needed_cell_pos (capacity n : Z) :
  0 < capacity ->
  preschools_needed_cell capacity n = Float64.of_int (round_div n capacity).
Proof.
  intros H. destruct capacity as [| p | p]; try lia.
  unfold preschools_needed_cell. cbn. now rewrite Z.mul_1_r.
Qed.

Lemma round_div_nearest (n d : Z) :
  0 < d ->
  2 * Z.abs (round_div n d * d - n) <= d
  /\ (2 * Z.abs (round_div n d * d - n) = d -> Z.even (round_div n d) = true).
Proof.
  intros Hd. unfold round_div.
  pose proof (Z.div_mod n d ltac:(lia)) as E.
  pose proof (Z.mod_pos_bound n d Hd) as Hr.
  set (q := n / d) in *. set (r := n mod d) in *.
  destruct (Z.ltb_spec (2 * r) d); [split; [lia | intros; lia] |].
  destruct (Z.ltb_spec d (2 * r)); [split; [lia | intros; lia] |].
  destruct (Z.even q) eqn:Eq.
  - split; [lia | auto].
  - split; [lia | intros _].
    rewrite Z.even_add, Eq. reflexivity.
Qed.

Lemma round_half_away_nonneg (n d : Z) :
  0 < d -> 0 <= n ->
  round_half_away n d = if 2 * (n mod d) <? d then n / d else n / d + 1.
Proof.
  intros Hd Hn. unfold round_half_away.
  pose proof (Z.div_mod n d ltac:(lia)) as E.
  pose proof (Z.mod_pos_bound n d Hd) as Hr.
  set (q := n / d) in *. set (r := n mod d) in *.
  assert (Hq : 0 <= q) by (subst q; apply Z.div_pos; lia).
  rewrite Z.abs_eq by lia.
  destruct (Z.eq_dec n 0) as [-> | Hn0].
  - assert (q = 0 /\ r = 0) as [-> ->] by (subst q r; now rewrite Z.div_0_l, Z.mod_0_l by lia).
    cbn. destruct (Z.ltb_spec 0 d); lia.
  - rewrite Z.sgn_pos, Z.mul_1_l by lia.
    destruct (Z.ltb_spec (2 * r) d).
    + symmetry. apply Z.div_unique with (r := 2 * r + d); lia.
    + symmetry. apply Z.div_unique with (r := 2 * r - d); lia.
Qed.

(** Away from a tie the two rounding rules agree. *)
Lemma round_div_half_away (n d : Z) :
  0 < d -> 2 * Z.abs (round_div n d * d - n) <> d ->
  round_div n d = round_half_away n d.
Proof.
  intros Hd Htie.
  pose proof (Z.div_mod n d ltac:(lia)) as E.
  pose proof (Z.mod_pos_bound n d Hd) as Hr.
  destruct (Z_le_gt_dec 0 n) as [Hn | Hn].
  - rewrite round_half_away_nonneg by assumption.
    unfold round_div in *.
    set (q := n / d) in *. set (r := n mod d) in *.
    destruct (Z.ltb_spec (2 * r) d); [reflexivity |].
    destruct (Z.ltb_spec d (2 * r)); [reflexivity |].
    destruct (Z.even q); lia.
  - unfold round_half_away. rewrite Z.sgn_neg by lia.
    rewrite Z.abs_neq by lia.
    pose proof (round_half_away_nonneg (- n) d Hd ltac:(lia)) as Ha.
    unfold round_half_away in Ha.
    rewrite Z.sgn_pos, Z.mul_1_l, Z.abs_eq in Ha by lia.
    rewrite Ha. clear Ha.
    pose proof (Z.div_mod (- n) d ltac:(lia)) as E'.
    pose proof (Z.mod_pos_bound (- n) d Hd) as Hr'.
    unfold round_div in *.
    set (q := n / d) in *. set (r := n mod d) in *.
    set (q' := - n / d) in *. set (r' := - n mod d) in *.
    assert (Hk : d * (q + q') = - (r + r')) by lia.
    assert (Hlo : -2 < q + q') by nia.
    assert (Hhi : q + q' <= 0) by nia.
    assert (Hqq : (r = 0 /\ r' = 0 /\ q' = - q)
                  \/ (0 < r /\ r' = d - r /\ q' = - q - 1)).
    { destruct (Z.eq_dec (q + q') 0) as [E0 | E0].
      - left. rewrite E0 in Hk. lia.
      - right. assert (E1 : q + q' = -1) by lia. rewrite E1 in Hk. lia. }
    destruct (Z.ltb_spec (2 * r) d);
      destruct (Z.ltb_spec (2 * r') d);
      try destruct (Z.ltb_spec d (2 * r));
      try destruct (Z.even q); lia.
Qed.

End PreschoolsNeeded.

(** C6, as the code has it.  For every preschooler count and every positive
    capacity, the number of preschools needed is count / capacity rounded to
    the nearest integer, with a tie sent to the even neighbour: it is within
    one half of the quotient, it is even when the quotient lies half-way
    between two integers, and away from such a tie it is the value of
    rounding half away from zero.  It is neither a truncation nor a ceiling:
    149 children at capacity 100 need 1 preschool and 150 need 2; 250 need
    2 as well. *)
Theorem preschools_needed_rounds_half_to_even (count capacity : Z) :
  0 < capacity ->
  let needed := round_div count capacity in
  Float64.to_int (Forecaster.preschools_needed_cell capacity count) = Ok needed
  /\ 2 * Z.abs (needed * capacity - count) <= capacity
  /\ (2 * Z.abs (needed * capacity - count) = capacity ->
      Z.even needed = true)
  /\ (2 * Z.abs (needed * capacity - count) <> capacity ->
      needed = round_half_away count capacity)
  /\ Float64.to_int (Forecaster.preschools_needed_cell 100 149) = Ok 1
  /\ Float64.to_int (Forecaster.preschools_needed_cell 100 150) = Ok 2
  /\ Float64.to_int (Forecaster.preschools_needed_cell 100 250) = Ok 2.
Proof.
  intros H needed. subst needed.
  destruct (round_div_nearest count capacity H) as [Hn He].
  repeat split; try assumption.
  - rewrite preschools_needed_cell_pos by assumption. apply to_int_of_int.
  - now apply round_div_half_away.
Qed.

Lemma preschools_needed_witness :
  Float64.to_int (Forecaster.preschools_needed_cell 100 350) = Ok 4.
Proof.
  assert (H : 0 < 100) by lia.
  exact (proj1 (preschools_needed_rounds_half_to_even 350 100 H)).
Defined.

(** C6 as stated fails: 250 children at capacity 100 give the quotient 2.5,
    which rounding half away from zero sends to 3; the code returns 2. *)
Lemma preschools_needed_is_not_half_away :
  round_half_away 250 100 = 3
  /\ Float64.to_int (Forecaster.preschools_needed_cell 100 250) = Ok 2.
Proof. split; reflexivity. Qed.

(** ** Extrapolation of the fertility table *)

Section Extrapolation.

Import Pandas FertilityProcessor.

(** [int] reads back what [str] prints. *)
Variable int : string -> result Z.
Hypothesis int_str : forall z, int (str z) = Ok z.

Lemma str_injective (x y : Z) : str x = str y -> x = y.
Proof.
  intros E. pose proof (int_str x) as Hx. rewrite E, int_str in Hx.
  now injection Hx.
Qed.

Lemma years_of_app (l1 l2 : list string) (a1 a2 : list Z) :
  years_of int l1 = Ok a1 -> years_of int l2 = Ok a2 ->
  years_of int (l1 ++ l2) = Ok (a1 ++ a2).
Proof.
  revert a1. induction l1 as [| l l1 IH]; intros a1 H1 H2; cbn in *.
  - injection H1 as <-. exact H2.
  - destruct (int l) as [z | e]; [| discriminate]. cbn [bind] in *.
    destruct (years_of int l1) as [zs | e]; [| discriminate].
    cbn [bind] in *. injection H1 as <-.
    now rewrite (IH zs eq_refl H2).
Qed.

Lemma years_of_str (ys : list Z) : years_of int (map str ys) = Ok ys.
Proof.
  induction ys as [| y ys IH]; cbn; [reflexivity |].
  now rewrite int_str, IH.
Qed.

Lemma years_of_In (labels : list string) (avail : list Z) (l : string) :
  years_of int labels = Ok avail -> In l labels ->
  exists z, int l = Ok z /\ In z avail.
Proof.
  revert avail. induction labels as [| l' labels IH]; intros avail H Hin;
    [destruct Hin |].
  cbn in H. destruct (int l') as [z | e] eqn:Ez; [| discriminate].
  cbn [bind] in H.
  destruct (years_of int labels) as [zs | e]; [| discriminate].
  cbn [bind] in H. injection H as <-.
  destruct Hin as [-> | Hin].
  - exists z. split; [assumption | now left].
  - destruct (IH zs eq_refl Hin) as (z' & Hz' & Hin').
    exists z'. split; [assumption | now right].
Qed.

Lemma read_column_app (idx : list string)
  (cols added : list (string * list Float64.t)) (label : string) :
  ~ In label (map fst added) ->
  read_column (mk_Frame idx (cols ++ added)) label
  = read_column (mk_Frame idx cols) label.
Proof.
  intros H. unfold read_column. cbn [frame_columns].
  rewrite filter_app.
  assert (E : filter (fun kv => String.eqb (fst kv) label) added = []).
  { induction added as [| [l v] added IH]; [reflexivity |].
    cbn in *. destruct (String.eqb_spec l label) as [-> | _].
    - exfalso. apply H. now left.
    - apply IH. intros Hin. apply H. now right. }
  now rewrite E, app_nil_r.
Qed.

Lemma write_column_fresh (g : Frame) (label : string)
  (values : list Float64.t) :
  ~ In label (columns g) ->
  write_column g label values
  = mk_Frame (frame_index g) (frame_columns g ++ [(label, values)]).
Proof.
  intros H. unfold write_column.
  destruct (existsb (String.eqb label) (columns g)) eqn:E; [| reflexivity].
  apply existsb_eqb_In in E. contradiction.
Qed.

Variable f : Frame.
Variable avail : list Z.
Variable latest : Z.

Hypothesis avail_f : years_of int (columns f) = Ok avail.
Hypothesis latest_max : max avail = Ok latest.

Lemma later_not_available (y : Z) :
  latest < y -> existsb (Z.eqb y) avail = false.
Proof.
  intros Hy. destruct (existsb (Z.eqb y) avail) eqn:E; [| reflexivity].
  apply existsb_exists in E. destruct E as (z & Hz & E).
  apply Z.eqb_eq in E. subst z.
  apply max_spec in latest_max. destruct latest_max as [_ Hall].
  rewrite Forall_forall in Hall. specialize (Hall _ Hz). lia.
Qed.

Lemma later_not_a_column (y : Z) : latest < y -> ~ In (str y) (columns f).
Proof.
  intros Hy Hin.
  destruct (years_of_In _ _ _ avail_f Hin) as (z & Hz & Hzin).
  rewrite int_str in Hz. injection Hz as <-.
  pose proof (later_not_available y Hy) as E.
  assert (existsb (Z.eqb y) avail = true).
  { apply existsb_exists. exists y. split; [assumption | apply Z.eqb_refl]. }
  congruence.
Qed.

(** The loop appends one copy of the latest column per missing year and
    changes nothing else. *)
Lemma extrapolate_loop (v0 : list Float64.t) (todo done : list Z) (g' : Frame) :
  read_column f (str latest) = Ok v0 ->
  (forall y, In y (done ++ todo) -> latest < y) ->
  NoDup (done ++ todo) ->
  for_each (extrapolate_step avail latest) todo
    (mk_Frame (frame_index f)
       (frame_columns f ++ map (fun y => (str y, v0)) done))
  = Ok g' ->
  g' = mk_Frame (frame_index f)
         (frame_columns f ++ map (fun y => (str y, v0)) (done ++ todo)).
Proof.
  intros Hv0. revert done.
  induction todo as [| y todo IH]; intros done Hlater Hnd H.
  - cbn in H. injection H as <-. now rewrite app_nil_r.
  - cbn [for_each] in H. unfold extrapolate_step at 1 in H.
    assert (Hy : latest < y) by (apply Hlater, in_or_app; right; now left).
    rewrite later_not_available in H by assumption. cbn [negb] in H.
    assert (Hread : read_column
                      (mk_Frame (frame_index f)
                         (frame_columns f ++ map (fun y => (str y, v0)) done))
                      (str latest) = Ok v0).
    { rewrite read_column_app.
      - destruct f as [idx cols]. exact Hv0.
      - rewrite map_map. cbn [fst]. intros Hin. apply in_map_iff in Hin.
        destruct Hin as (z & Ez & Hz). apply str_injective in Ez. subst z.
        assert (latest < latest) by (apply Hlater, in_or_app; now left). lia. }
    rewrite Hread in H. cbn [bind] in H.
    rewrite write_column_fresh in H.
    + cbn [frame_index frame_columns] in H. rewrite <- app_assoc in H.
      change (map (fun y => (str y, v0)) done ++ [(str y, v0)])
        with (map (fun y => (str y, v0)) done
              ++ map (fun y => (str y, v0)) [y]) in H.
      rewrite <- map_app in H.
      replace (done ++ y :: todo) with ((done ++ [y]) ++ todo)
        by now rewrite <- app_assoc.
      apply IH.
      * intros z Hz. apply Hlater. now rewrite <- app_assoc in Hz.
      * now rewrite <- app_assoc.
      * exact H.
    + unfold columns. cbn [frame_columns]. rewrite map_app, map_map. cbn [fst].
      intros Hin. apply in_app_or in Hin. destruct Hin as [Hin | Hin].
      * now apply (later_not_a_column y Hy).
      * apply in_map_iff in Hin. destruct Hin as (z & Ez & Hz).
        apply str_injective in Ez. subst z.
        apply NoDup_remove_2 in Hnd. apply Hnd, in_or_app. now left.
Qed.

End Extrapolation.

Lemma int_of_decimal_str (z : Z) : int_of_decimal (str z) = Ok z.
Proof.
  unfold int_of_decimal, str.
  rewrite NilZero.isi.
  - now rewrite DecimalZ.of_to.
  - destruct z; cbn; try discriminate.
    intros [= E]. now apply DecimalPos.Unsigned.to_uint_nonnil in E.
  - destruct z; cbn; try discriminate.
    intros [= E]. now apply DecimalPos.Unsigned.to_uint_nonnil in E.
Qed.

(** C8. Extrapolation is idempotent: when a call of extrapolate for a set of
    birth years succeeds, a second call for the same set returns the table of
    the first call unchanged.  The first call itself keeps the row labels and
    every column of the table it was given, and only adds, after them,
    columns whose labels were not present, each a copy of the column of the
    latest available year. *)
Theorem extrapolate_births_idempotent
  (int : string -> result Z) (f f' : Pandas.Frame) (birth_years : list Z) :
  (forall z, int (str z) = Ok z) ->
  FertilityProcessor.extrapolate_births int f birth_years = Ok f' ->
  FertilityProcessor.extrapolate_births int f' birth_years = Ok f'
  /\ Pandas.frame_index f' = Pandas.frame_index f
  /\ exists avail latest added,
       FertilityProcessor.years_of int (Pandas.columns f) = Ok avail
       /\ max avail = Ok latest
       /\ Pandas.frame_columns f' = Pandas.frame_columns f ++ added
       /\ forall label values,
            In (label, values) added ->
            ~ In label (Pandas.columns f)
            /\ FertilityProcessor.read_column f (str latest) = Ok values.
Proof.
  intros Hint H. unfold FertilityProcessor.extrapolate_births in H.
  destruct (FertilityProcessor.years_of int (Pandas.columns f))
    as [avail | e] eqn:Eav; [| discriminate].
  cbn [bind] in H.
  destruct (max avail) as [latest | e] eqn:El; [| discriminate].
  cbn [bind] in H.
  destruct (max birth_years) as [M | e] eqn:EM; [| discriminate].
  cbn [bind] in H.
  destruct (Z.ltb_spec latest M) as [Hlt | Hge].
  - set (todo := range (latest + 1) (M + 1)) in *.
    assert (Hv : exists v0,
               FertilityProcessor.read_column f (str latest) = Ok v0).
    { subst todo. rewrite range_cons in H by lia.
      cbn [for_each] in H. unfold FertilityProcessor.extrapolate_step at 1 in H.
      rewrite (later_not_available avail latest El) in H by lia.
      cbn [negb] in H.
      destruct (FertilityProcessor.read_column f (str latest)) as [v0 | e];
        [eauto | discriminate]. }
    destruct Hv as [v0 Hv0].
    assert (Hlater : forall y, In y ([] ++ todo) -> latest < y).
    { intros y Hy. apply In_range in Hy. lia. }
    assert (Hnd : NoDup ([] ++ todo)).
    { cbn. subst todo. clear.
      generalize (range_sorted (latest + 1) (M + 1)).
      induction 1 as [| x l Hs IH Hx]; constructor; [| assumption].
      intros Hin. rewrite Forall_forall in Hx. specialize (Hx _ Hin). lia. }
    assert (Ef : f' = Pandas.mk_Frame (Pandas.frame_index f)
                        (Pandas.frame_columns f
                         ++ map (fun y => (str y, v0)) todo)).
    { apply (extrapolate_loop int Hint f avail latest Eav El v0 todo [] f'
               Hv0 Hlater Hnd).
      cbn [map]. rewrite app_nil_r. destruct f as [idx cols]. exact H. }
    split; [| split].
    + unfold FertilityProcessor.extrapolate_births.
      assert (Ecols : Pandas.columns f' = Pandas.columns f ++ map str todo).
      { rewrite Ef. unfold Pandas.columns. cbn [Pandas.frame_columns].
        now rewrite map_app, map_map. }
      rewrite Ecols.
      rewrite (years_of_app int _ _ _ _ Eav (years_of_str int Hint todo)).
      cbn [bind].
      assert (Emax : max (avail ++ todo) = Ok M).
      { apply max_spec. split.
        - apply in_or_app. right. apply In_range. lia.
        - apply Forall_app. split.
          + apply max_spec in El. destruct El as [_ Hall].
            eapply Forall_impl; [| exact Hall]. cbn. intros; lia.
          + apply Forall_forall. intros y Hy. apply In_range in Hy. lia. }
      rewrite Emax. cbn [bind]. rewrite EM. cbn [bind].
      now rewrite Z.ltb_irrefl.
    + now rewrite Ef.
    + exists avail, latest, (map (fun y => (str y, v0)) todo).
      repeat split; try assumption.
      * now rewrite Ef.
      * apply in_map_iff in H0. destruct H0 as (y & [= <- <-] & Hy).
        apply (later_not_a_column int Hint f avail latest Eav El).
        apply In_range in Hy. lia.
      * apply in_map_iff in H0. destruct H0 as (y & [= <- <-] & Hy).
        exact Hv0.
  - injection H as <-. split; [| split].
    + unfold FertilityProcessor.extrapolate_births.
      rewrite Eav. cbn [bind]. rewrite El. cbn [bind]. rewrite EM. cbn [bind].
      destruct (Z.ltb_spec latest M); [lia | reflexivity].
    + reflexivity.
    + exists avail, latest, []. rewrite app_nil_r.
      repeat split; try assumption; destruct H.
Qed.

Lemma extrapolate_births_witness :
  FertilityProcessor.extrapolate_births int_of_decimal
    (Pandas.mk_Frame ["20 - 24 Years"%string; "25 - 29 Years"%string]
       [("2022"%string, [Float64.of_int 12; Float64.of_int 50]);
        ("2023"%string, [Float64.of_int 11; Float64.of_int 48]);
        ("2024"%string, [Float64.of_int 11; Float64.of_int 48]);
        ("2025"%string, [Float64.of_int 11; Float64.of_int 48])])
    [2021; 2022; 2023; 2024; 2025]
  = Ok (Pandas.mk_Frame ["20 - 24 Years"%string; "25 - 29 Years"%string]
          [("2022"%string, [Float64.of_int 12; Float64.of_int 50]);
           ("2023"%string, [Float64.of_int 11; Float64.of_int 48]);
           ("2024"%string, [Float64.of_int 11; Float64.of_int 48]);
           ("2025"%string, [Float64.of_int 11; Float64.of_int 48])]).
Proof.
  assert (H : FertilityProcessor.extrapolate_births int_of_decimal
                Examples.fertility_2023 [2021; 2022; 2023; 2024; 2025]
              = Ok (Pandas.mk_Frame
                      ["20 - 24 Years"%string; "25 - 29 Years"%string]
                      [("2022"%string, [Float64.of_int 12; Float64.of_int 50]);
                       ("2023"%string, [Float64.of_int 11; Float64.of_int 48]);
                       ("2024"%string, [Float64.of_int 11; Float64.of_int 48]);
                       ("2025"%string, [Float64.of_int 11; Float64.of_int 48])]))
    by reflexivity.
  exact (proj1 (extrapolate_births_idempotent int_of_decimal _ _ _
                  int_of_decimal_str H)).
Defined.

(** ** A preschool capacity of zero *)

Section ZeroCapacity.

Import Pandas Forecaster.

(** No quotient by a capacity of zero is finite. *)
Lemma preschools_needed_cell_zero (n : Z) :
  Float64.to_int (preschools_needed_cell 0 n) = Raise IntCastingNaNError.
Proof. destruct n; reflexivity. Qed.

Lemma cast_cells_zero (cells : list Z) :
  map_result (fun n => Float64.to_int (preschools_needed_cell 0 n)) cells
  = match cells with
    | [] => Ok []
    | _ :: _ => Raise IntCastingNaNError
    end.
Proof.
  destruct cells as [| n cells]; [reflexivity |].
  cbn [map_result]. now rewrite preschools_needed_cell_zero.
Qed.

Lemma cast_rows_zero (rows : list (Z * list Z)) :
  map_result
    (fun row =>
       cells <-
         map_result
           (fun n => Float64.to_int (preschools_needed_cell 0 n)) (snd row) ;;
       Ok (fst row, cells))
    rows
  = if forallb (fun row => match snd row with [] => true | _ => false end) rows
    then Ok rows
    else Raise IntCastingNaNError.
Proof.
  induction rows as [| [year cells] rows IH]; [reflexivity |].
  cbn [map_result forallb fst snd]. rewrite cast_cells_zero.
  destruct cells as [| n cells]; [| reflexivity].
  cbn [bind andb]. rewrite IH.
  now destruct (forallb _ rows).
Qed.

End ZeroCapacity.

(** C9, as the code has it.  No check of the configuration is made where
    the capacity is used.  With a capacity of zero every quotient is an
    infinity or NaN, and the cast to integers of the table of preschools
    needed raises the error of that cast as soon as the forecast table has a
    cell, so that no infinity or NaN reaches the table of preschools needed
    or the gap; a forecast table without any cell is converted without an
    error. *)
Theorem zero_capacity_fails_in_the_integer_cast
  (forecasted_num_preschoolers : Pandas.Table Z) :
  ((exists row, In row (Pandas.table_rows forecasted_num_preschoolers)
                /\ snd row <> []) ->
   Forecaster.preschools_needed 0 forecasted_num_preschoolers
   = Raise IntCastingNaNError)
  /\ ((forall row, In row (Pandas.table_rows forecasted_num_preschoolers) ->
                   snd row = []) ->
      Forecaster.preschools_needed 0 forecasted_num_preschoolers
      = Ok forecasted_num_preschoolers).
Proof.
  unfold Forecaster.preschools_needed. rewrite cast_rows_zero.
  destruct forecasted_num_preschoolers as [columns rows].
  cbn [Pandas.table_rows Pandas.table_columns].
  split.
  - intros (row & Hin & Hne).
    assert (E : forallb
                  (fun row => match snd row with [] => true | _ => false end)
                  rows = false).
    { destruct (forallb _ rows) eqn:E; [| reflexivity].
      rewrite forallb_forall in E. specialize (E _ Hin).
      destruct (snd row); [contradiction | discriminate]. }
    now rewrite E.
  - intros Hall.
    assert (E : forallb
                  (fun row => match snd row with [] => true | _ => false end)
                  rows = true).
    { apply forallb_forall. intros row Hin. now rewrite (Hall row Hin). }
    now rewrite E.
Qed.

Lemma zero_capacity_witness :
  Forecaster.preschools_needed 0
    (Pandas.mk_Table ["A"%string; "B"%string] [(2026, [149; 0])])
  = Raise IntCastingNaNError.
Proof.
  apply (proj1 (zero_capacity_fails_in_the_integer_cast
                  (Pandas.mk_Table ["A"%string; "B"%string]
                     [(2026, [149; 0])]))).
  exists (2026, [149; 0]). split; [now left | discriminate].
Defined.

(** C9 as stated fails: with a capacity of zero and a forecast table that
    has a year but no subzone, the conversion returns without any error. *)
Lemma zero_capacity_can_pass_silently :
  Forecaster.preschools_needed 0 (Pandas.mk_Table [] [(2026, [])])
  = Ok (Pandas.mk_Table [] [(2026, [])]).
Proof. reflexivity. Qed.

(** ** The gap between supply and need *)

Section Gap.

Import Pandas Forecaster.

Lemma nth_error_set_gap (columns : list string) (cells : list Z)
  (subzone : string) (supply : Z) (j : nat) :
  nth_error (set_gap columns cells subzone supply) j
  = match nth_error cells j with
    | Some cell =>
        match nth_error columns j with
        | Some column =>
            Some (if String.eqb column subzone then supply - cell else cell)
        | None => Some cell
        end
    | None => None
    end.
Proof.
  revert cells j. induction columns as [| column columns IH]; intros cells j.
  - destruct cells; cbn.
    + now destruct j.
    + destruct (nth_error (z :: cells) j); [now destruct j |  reflexivity].
  - destruct cells as [| cell cells]; [now destruct j |].
    destruct j as [| j]; [reflexivity |]. cbn. apply IH.
Qed.

(** The loop over the common subzones replaces the cell under each of them
    once and leaves every other cell as it was. *)
Lemma nth_error_gap_loop (existing_preschools : Series Z)
  (columns common : list string) (cells : list Z) (j : nat) :
  NoDup common ->
  nth_error
    (fold_left
       (fun cells subzone =>
          match get existing_preschools subzone with
          | Some supply => set_gap columns cells subzone supply
          | None => cells
          end)
       common cells) j
  = match nth_error cells j with
    | Some cell =>
        match nth_error columns j with
        | Some column =>
            Some (if existsb (String.eqb column) common
                  then match get existing_preschools column with
                       | Some supply => supply - cell
                       | None => cell
                       end
                  else cell)
        | None => Some cell
        end
    | None => None
    end.
Proof.
  intros Hnd. revert cells.
  induction Hnd as [| a common Ha Hnd IH]; intros cells.
  - cbn. destruct (nth_error cells j); [| reflexivity].
    now destruct (nth_error columns j).
  - cbn [fold_left existsb]. rewrite IH.
    assert (E : nth_error
                  (match get existing_preschools a with
                   | Some supply => set_gap columns cells a supply
                   | None => cells
                   end) j
                = match nth_error cells j with
                  | Some cell =>
                      match nth_error columns j with
                      | Some column =>
                          Some (if String.eqb column a
                                then match get existing_preschools a with
                                     | Some supply => supply - cell
                                     | None => cell
                                     end
                                else cell)
                      | None => Some cell
                      end
                  | None => None
                  end).
    { destruct (get existing_preschools a) as [supply |].
      - apply nth_error_set_gap.
      - destruct (nth_error cells j); [| reflexivity].
        destruct (nth_error columns j) as [column |]; [| reflexivity].
        now destruct (String.eqb column a). }
    rewrite E. destruct (nth_error cells j) as [cell |]; [| reflexivity].
    destruct (nth_error columns j) as [column |]; [| reflexivity].
    destruct (String.eqb_spec column a) as [-> | Hne]; cbn [orb].
    + assert (En : existsb (String.eqb a) common = false).
      { destruct (existsb (String.eqb a) common) eqn:En; [| reflexivity].
        apply existsb_eqb_In in En. contradiction. }
      now rewrite En.
    + reflexivity.
Qed.

(** What [calculate_preschool_gap] returns, cell by cell: the columns are
    those of the table of preschools needed; the cell of a subzone with a
    supply is supply minus need; the cell of a subzone without a supply is
    the need itself. *)
Lemma preschool_gap_cells (existing_preschools : Series Z)
  (forecasted_preschools_needed : Table Z) :
  let gap :=
    calculate_preschool_gap existing_preschools forecasted_preschools_needed in
  table_columns gap = table_columns forecasted_preschools_needed
  /\ map fst (table_rows gap)
     = map fst (table_rows forecasted_preschools_needed)
  /\ forall i year cells j column need,
       nth_error (table_rows forecasted_preschools_needed) i
       = Some (year, cells) ->
       nth_error (table_columns forecasted_preschools_needed) j
       = Some column ->
       nth_error cells j = Some need ->
       exists cells',
         nth_error (table_rows gap) i = Some (year, cells')
         /\ nth_error cells' j
            = Some (match get existing_preschools column with
                    | Some supply => supply - need
                    | None => need
                    end).
Proof.
  cbn zeta. unfold calculate_preschool_gap. cbn [table_columns table_rows].
  split; [reflexivity |]. split.
  - rewrite map_map. reflexivity.
  - intros i year cells j column need Hrow Hcol Hcell.
    eexists. split.
    + rewrite nth_error_map, Hrow. cbn. reflexivity.
    + rewrite nth_error_gap_loop by apply unique_NoDup.
      rewrite Hcell, Hcol. f_equal.
      rewrite existsb_unique.
      destruct (get existing_preschools column) as [supply |] eqn:Eg.
      * assert (E : existsb (String.eqb column)
                      (filter (fun s => has_label s existing_preschools)
                         (table_columns forecasted_preschools_needed))
                    = true).
        { apply existsb_eqb_In, filter_In. split.
          - eapply nth_error_In; eassumption.
          - apply has_label_get. eauto. }
        now rewrite E.
      * now destruct (existsb _ _).
Qed.

End Gap.

(** C1, as the code has it.  The gap table has the years and the subzone
    columns of the table of preschools needed, in the same order, and every
    cell of a subzone that also has an entry in the existing supply equals
    supply minus need. *)
Theorem preschool_gap_on_common_subzones
  (existing_preschools : Pandas.Series Z)
  (forecasted_preschools_needed : Pandas.Table Z) :
  let gap :=
    Forecaster.calculate_preschool_gap existing_preschools
      forecasted_preschools_needed in
  Pandas.table_columns gap = Pandas.table_columns forecasted_preschools_needed
  /\ map fst (Pandas.table_rows gap)
     = map fst (Pandas.table_rows forecasted_preschools_needed)
  /\ forall i year cells j subzone need supply,
       nth_error (Pandas.table_rows forecasted_preschools_needed) i
       = Some (year, cells) ->
       nth_error (Pandas.table_columns forecasted_preschools_needed) j
       = Some subzone ->
       nth_error cells j = Some need ->
       Pandas.get existing_preschools subzone = Some supply ->
       exists cells',
         nth_error (Pandas.table_rows gap) i = Some (year, cells')
         /\ nth_error cells' j = Some (supply - need).
Proof.
  cbn zeta.
  destruct (preschool_gap_cells existing_preschools
              forecasted_preschools_needed) as (Hc & Hy & Hcell).
  split; [exact Hc |]. split; [exact Hy |].
  intros i year cells j subzone need supply Hrow Hcol Hneed Hsupply.
  destruct (Hcell i year cells j subzone need Hrow Hcol Hneed)
    as (cells' & Hrow' & Hcell').
  exists cells'. split; [exact Hrow' |].
  now rewrite Hsupply in Hcell'.
Qed.

Lemma preschool_gap_witness :
  exists cells',
    nth_error
      (Pandas.table_rows
         (Forecaster.calculate_preschool_gap [("A"%string, 3)]
            (Pandas.mk_Table ["A"%string; "B"%string] [(2026, [5; 2])])))
      0
    = Some (2026, cells')
    /\ nth_error cells' 0 = Some (3 - 5).
Proof.
  exact (proj2 (proj2 (preschool_gap_on_common_subzones [("A"%string, 3)]
                         (Pandas.mk_Table ["A"%string; "B"%string]
                            [(2026, [5; 2])])))
           0%nat 2026 [5; 2] 0%nat "A"%string 5 3
           eq_refl eq_refl eq_refl eq_refl).
Defined.

(** C1 as stated fails on the example of the design document: with a supply
    of 3 in subzone A and none recorded for subzone B, and a need of 5 in A
    and 2 in B, subzone B is not left out of the result; it keeps its column
    next to the gap 3 - 5 = -2 of A. *)
Lemma preschool_gap_keeps_subzones_without_supply :
  Forecaster.calculate_preschool_gap [("A"%string, 3)]
    (Pandas.mk_Table ["A"%string; "B"%string] [(2026, [5; 2])])
  = Pandas.mk_Table ["A"%string; "B"%string] [(2026, [-2; 2])].
Proof. reflexivity. Qed.

(** ** Subzone names that differ by whitespace *)

(** C7, on residents and housing projects of one subzone written as
    ["Bedok "] and as ["Bedok"].  The residents table is aggregated with the
    names as they are: it keeps one entry per spelling, 8 and 4 women, not
    one entry of 12.  The housing table sums per spelling first and removes
    the whitespace afterwards, which leaves two columns labelled ["Bedok"];
    the new-housing estimator adds the two.  The combined series of 2026 has
    two subzones: ["Bedok "] with 2 children and ["Bedok"] with 3. *)
Theorem whitespace_variants_stay_two_subzones :
  let women :=
    ExistingResidentsProcessor.aggregate_women_by_age_bin
      ExistingResidentsProcessor.get_age_bins Examples.residents_Bedok in
  length women = 2%nat
  /\ In (ExistingResidentsProcessor.mk_women "Bedok " "25 - 29 Years"
           (Float64.of_int 8)) women
  /\ In (ExistingResidentsProcessor.mk_women "Bedok" "25 - 29 Years"
           (Float64.of_int 4)) women
  /\ exists units total,
       BTOProcessor.get_cumulative_bto_units_by_subzone
         Examples.projects_Bedok [2026] = Ok units
       /\ Pandas.table_columns units = ["Bedok"%string; "Bedok"%string]
       /\ Forecaster.calculate_bto_preschoolers_for_year
            (Forecaster.default_Config 2025) 2026
            Examples.birth_rates_2024 units
          = Ok [("Bedok"%string, 2)]
       /\ Forecaster.calculate_preschoolers_for_year
            (Forecaster.default_Config 2025) 2026
            Examples.birth_rates_2024 units Examples.rates_2023 women
          = Ok total
       /\ length total = 2%nat
       /\ Pandas.get total "Bedok "%string = Some 2
       /\ Pandas.get total "Bedok"%string = Some 3.
Proof.
  cbn zeta. split; [reflexivity |].
  split; [left; reflexivity |].
  split; [right; left; reflexivity |].
  eexists. eexists.
  split; [reflexivity |].
  split; [reflexivity |].
  split; [reflexivity |].
  split; [reflexivity |].
  repeat split.
Qed.

(* ================================================================== *)
(** * Further properties of the engine *)
(* ================================================================== *)

(** ** More on the birth-year windows *)

(** X1.  The window of one forecast year is the run of consecutive years from
    the forecast year minus the rounded maximum age to the forecast year
    minus the rounded minimum age, in increasing order. *)
Theorem single_window_is_an_ascending_interval
  (a : FertilityProcessor.ages) (y : Z) :
  let w := FertilityProcessor.birth_years_for_single_forecast_year a y in
  let oldest := y - round_div (FertilityProcessor.max_preschool_age a) 12 in
  let youngest := y - round_div (FertilityProcessor.min_preschool_age a) 12 in
  StronglySorted Z.lt w
  /\ consecutive w
  /\ (forall x, In x w <-> oldest <= x <= youngest)
  /\ length w = Z.to_nat (youngest - oldest + 1).
Proof.
  cbn zeta. unfold FertilityProcessor.birth_years_for_single_forecast_year.
  cbn zeta. split; [| split; [| split]].
  - apply range_sorted.
  - apply range_consecutive.
  - intros x. rewrite In_range. lia.
  - rewrite range_length. f_equal. lia.
Qed.

(** X2.  When the maximum age rounds to fewer years than the minimum age, every
    window is empty: a single forecast year gives the empty list, and with a
    second forecast year the maximum of an empty window is asked for, a
    [ValueError]. *)
Theorem multi_year_window_of_empty_windows
  (a : FertilityProcessor.ages) (y0 y1 : Z) (rest : list Z) :
  round_div (FertilityProcessor.max_preschool_age a) 12
  < round_div (FertilityProcessor.min_preschool_age a) 12 ->
  FertilityProcessor.birth_years_for_multiple_forecast_years a [y0]
  = Ok (Some [])
  /\ FertilityProcessor.birth_years_for_multiple_forecast_years a
       (y0 :: y1 :: rest)
     = Raise ValueError.
Proof.
  intros H.
  assert (E : forall y,
             FertilityProcessor.birth_years_for_single_forecast_year a y = []).
  { intros y. unfold FertilityProcessor.birth_years_for_single_forecast_year.
    cbn zeta. apply range_empty. lia. }
  unfold FertilityProcessor.birth_years_for_multiple_forecast_years.
  cbn [for_each FertilityProcessor.multiple_step bind].
  rewrite !E. split; reflexivity.
Qed.

Lemma multi_year_window_of_empty_windows_witness :
  FertilityProcessor.birth_years_for_multiple_forecast_years
    (FertilityProcessor.mk_ages 30 0) [2026; 2027]
  = Raise ValueError.
Proof.
  assert (H : round_div 0 12 < round_div 30 12) by (cbn; lia).
  exact (proj2 (multi_year_window_of_empty_windows
                  (FertilityProcessor.mk_ages 30 0) 2026 2027 [] H)).
Defined.

(** X3.  The incremental window loses birth years when the forecast years skip a
    year: if the second forecast year is at least two after the first, the
    windows span more than one year, and no other forecast year is the year
    before the second, then the birth year just below the maximum of the
    second window is in that window and is not in the list returned. *)
Theorem multi_year_window_skips_years_after_a_gap
  (a : FertilityProcessor.ages) (y0 y1 : Z) (rest : list Z) :
  round_div (FertilityProcessor.min_preschool_age a) 12
  < round_div (FertilityProcessor.max_preschool_age a) 12 ->
  y0 + 2 <= y1 ->
  ~ In (y1 - 1) rest ->
  let missed := y1 - round_div (FertilityProcessor.min_preschool_age a) 12 - 1 in
  In missed (FertilityProcessor.birth_years_for_single_forecast_year a y1)
  /\ exists l,
       FertilityProcessor.birth_years_for_multiple_forecast_years a
         (y0 :: y1 :: rest) = Ok (Some l)
       /\ ~ In missed l.
Proof.
  intros Hr Hgap Hrest missed.
  assert (Hages : FertilityProcessor.min_preschool_age a
                  <= FertilityProcessor.max_preschool_age a).
  { destruct (Z_le_gt_dec (FertilityProcessor.min_preschool_age a)
                (FertilityProcessor.max_preschool_age a)) as [H | H];
      [exact H |].
    pose proof (round_div_monotone
                  (FertilityProcessor.max_preschool_age a)
                  (FertilityProcessor.min_preschool_age a) 12).
    lia. }
  split.
  - apply In_single_window. subst missed. lia.
  - eexists. split.
    + exact (multiple_loop a
               (FertilityProcessor.birth_years_for_single_forecast_year a y0)
               (y1 :: rest) Hages).
    + intros Hin. apply in_app_or in Hin. destruct Hin as [Hin | Hin].
      * apply In_single_window in Hin. subst missed. lia.
      * apply in_map_iff in Hin. destruct Hin as (y & Ey & Hy).
        subst missed. destruct Hy as [<- | Hy]; [lia |].
        apply Hrest. replace (y1 - 1) with y by lia. exact Hy.
Qed.

Lemma multi_year_window_skips_years_witness :
  exists l,
    FertilityProcessor.birth_years_for_multiple_forecast_years
      FertilityProcessor.default_ages [2026; 2028] = Ok (Some l)
    /\ ~ In 2025 l.
Proof.
  assert (H1 : round_div 18 12 < round_div (6 * 12) 12) by (cbn; lia).
  assert (H2 : 2026 + 2 <= 2028) by lia.
  assert (H3 : ~ In (2028 - 1) []) by (intros []).
  exact (proj2 (multi_year_window_skips_years_after_a_gap
                  FertilityProcessor.default_ages 2026 2028 [] H1 H2 H3)).
Defined.

(** X4.  On an orchestrated run (a positive number of forecast years, minimum age
    at most the maximum age) the multi-year list of birth years holds every
    birth year of the window of every forecast year, so that no year an
    estimator asks for is left out of the tables prepared from that list. *)
Theorem orchestrated_birth_years_cover_every_window (c : Forecaster.Config) :
  0 < Forecaster.num_forecast_years c ->
  Forecaster.min_preschool_age c <= Forecaster.max_preschool_age c ->
  exists birth_years,
    FertilityProcessor.birth_years_for_multiple_forecast_years
      (Forecaster.ages_of c) (Forecaster.forecast_years c)
    = Ok (Some birth_years)
    /\ forall forecast_year birth_year,
         In forecast_year (Forecaster.forecast_years c) ->
         In birth_year
           (FertilityProcessor.birth_years_for_single_forecast_year
              (Forecaster.ages_of c) forecast_year) ->
         In birth_year birth_years.
Proof.
  intros Hn Hages. unfold Forecaster.forecast_years.
  set (lo := Forecaster.current_year c + 1).
  set (hi := Forecaster.current_year c + 1 + Forecaster.num_forecast_years c).
  pose proof (range_consecutive lo hi) as Hc.
  rewrite range_cons in Hc |- * by (subst lo hi; lia).
  eexists. split.
  - apply multiple_on_consecutive; assumption.
  - intros y b Hy Hb. apply In_ascending_union.
    eexists. split; [| exact Hb]. now apply in_map.
Qed.

Lemma orchestrated_birth_years_witness :
  exists birth_years,
    FertilityProcessor.birth_years_for_multiple_forecast_years
      (Forecaster.ages_of (Forecaster.default_Config 2025))
      (Forecaster.forecast_years (Forecaster.default_Config 2025))
    = Ok (Some birth_years)
    /\ forall forecast_year birth_year,
         In forecast_year
            (Forecaster.forecast_years (Forecaster.default_Config 2025)) ->
         In birth_year
           (FertilityProcessor.birth_years_for_single_forecast_year
              (Forecaster.ages_of (Forecaster.default_Config 2025))
              forecast_year) ->
         In birth_year birth_years.
Proof.
  assert (H1 : 0 < 5) by lia.
  assert (H2 : 18 <= 6 * 12) by lia.
  exact (orchestrated_birth_years_cover_every_window
           (Forecaster.default_Config 2025) H1 H2).
Defined.

(** ** More on the extrapolation of the fertility table *)

Section ExtrapolationResult.

Import Pandas FertilityProcessor.

Variable int : string -> result Z.
Hypothesis int_str : forall z, int (str z) = Ok z.

Variable f : Frame.
Variable avail : list Z.
Variable latest : Z.

Hypothesis avail_f : years_of int (columns f) = Ok avail.
Hypothesis latest_max : max avail = Ok latest.

Lemma extrapolate_loop_runs (v0 : list Float64.t) (todo done : list Z) :
  read_column f (str latest) = Ok v0 ->
  (forall y, In y (done ++ todo) -> latest < y) ->
  NoDup (done ++ todo) ->
  for_each (extrapolate_step avail latest) todo
    (mk_Frame (frame_index f)
       (frame_columns f ++ map (fun y => (str y, v0)) done))
  = Ok (mk_Frame (frame_index f)
          (frame_columns f ++ map (fun y => (str y, v0)) (done ++ todo))).
Proof.
  intros Hv0. revert done.
  induction todo as [| y todo IH]; intros done Hlater Hnd.
  - cbn. now rewrite app_nil_r.
  - cbn [for_each]. unfold extrapolate_step at 1.
    assert (Hy : latest < y) by (apply Hlater, in_or_app; right; now left).
    rewrite (later_not_available avail latest latest_max) by assumption.
    cbn [negb].
    rewrite read_column_app.
    + destruct f as [idx cols] eqn:Ef. cbn [frame_index frame_columns] in *.
      rewrite Hv0. cbn [bind].
      rewrite write_column_fresh.
      * cbn [frame_index frame_columns]. rewrite <- app_assoc.
        change (map (fun y => (str y, v0)) done ++ [(str y, v0)])
          with (map (fun y => (str y, v0)) done
                ++ map (fun y => (str y, v0)) [y]).
        rewrite <- map_app.
        replace (done ++ y :: todo) with ((done ++ [y]) ++ todo)
          by now rewrite <- app_assoc.
        apply IH.
        -- intros z Hz. apply Hlater. now rewrite <- app_assoc in Hz.
        -- now rewrite <- app_assoc.
      * unfold columns. cbn [frame_columns].
        rewrite map_app, map_map. cbn [fst].
        intros Hin. apply in_app_or in Hin. destruct Hin as [Hin | Hin].
        -- apply (later_not_a_column int int_str (mk_Frame idx cols) avail
                    latest avail_f latest_max y Hy). exact Hin.
        -- apply in_map_iff in Hin. destruct Hin as (z & Ez & Hz).
           apply (str_injective int int_str) in Ez. subst z.
           apply NoDup_remove_2 in Hnd. apply Hnd, in_or_app. now left.
    + rewrite map_map. cbn [fst]. intros Hin. apply in_map_iff in Hin.
      destruct Hin as (z & Ez & Hz).
      apply (str_injective int int_str) in Ez. subst z.
      assert (latest < latest) by (apply Hlater, in_or_app; now left). lia.
Qed.

Lemma range_NoDup (lo hi : Z) : NoDup (range lo hi).
Proof.
  generalize (range_sorted lo hi).
  induction 1 as [| x l Hs IH Hx]; constructor; [| assumption].
  intros Hin. rewrite Forall_forall in Hx. specialize (Hx _ Hin). lia.
Qed.

(** The table returned when years are missing, written out. *)
Lemma extrapolate_births_extends (birth_years : list Z) (M : Z)
  (v0 : list Float64.t) :
  max birth_years = Ok M -> latest < M ->
  read_column f (str latest) = Ok v0 ->
  extrapolate_births int f birth_years
  = Ok (mk_Frame (frame_index f)
          (frame_columns f
           ++ map (fun y => (str y, v0)) (range (latest + 1) (M + 1)))).
Proof.
  intros HM Hlt Hv0. unfold extrapolate_births.
  rewrite avail_f. cbn [bind]. rewrite latest_max. cbn [bind].
  rewrite HM. cbn [bind].
  destruct (Z.ltb_spec latest M); [| lia].
  pose proof (extrapolate_loop_runs v0 (range (latest + 1) (M + 1)) [] Hv0)
    as H0.
  cbn [app map] in H0. rewrite app_nil_r in H0.
  destruct f as [idx cols]. cbn [frame_index frame_columns] in *.
  apply H0.
  - intros y Hy. apply In_range in Hy. lia.
  - apply range_NoDup.
Qed.

Lemma read_column_added (idx : list string)
  (cols : list (string * list Float64.t)) (v0 : list Float64.t)
  (years : list Z) (y : Z) :
  ~ In (str y) (map fst cols) -> NoDup years -> In y years ->
  read_column (mk_Frame idx (cols ++ map (fun z => (str z, v0)) years)) (str y)
  = Ok v0.
Proof.
  intros Hnew Hnd Hy. unfold read_column. cbn [frame_columns].
  rewrite filter_app.
  assert (E1 : filter (fun kv => String.eqb (fst kv) (str y)) cols = []).
  { clear - Hnew. induction cols as [| [l v] cols IH]; [reflexivity |].
    cbn in *. destruct (String.eqb_spec l (str y)) as [-> | _].
    - exfalso. apply Hnew. now left.
    - apply IH. intros Hin. apply Hnew. now right. }
  assert (E2 : filter (fun kv => String.eqb (fst kv) (str y))
                 (map (fun z => (str z, v0)) years) = [(str y, v0)]).
  { clear - Hnd Hy int_str. induction Hnd as [| z years Hz Hnd IH];
      [destruct Hy |].
    cbn [map filter fst].
    destruct (String.eqb_spec (str z) (str y)) as [E | Hne].
    - apply (str_injective int int_str) in E. subst z. f_equal.
      clear - Hz int_str. induction years as [| w years IH]; [reflexivity |].
      cbn [map filter fst].
      destruct (String.eqb_spec (str w) (str y)) as [E | _].
      + apply (str_injective int int_str) in E. subst w.
        exfalso. apply Hz. now left.
      + apply IH. intros Hin. apply Hz. now right.
    - destruct Hy as [-> | Hy]; [contradiction |]. now apply IH. }
  now rewrite E1, E2.
Qed.

End ExtrapolationResult.

(** X5.  When the table ends before the last birth year asked for, and the
    column of its latest year can be read, extrapolation returns a table
    with the same rows in which every column it was given reads as before
    and every year after the latest, up to the last birth year, has a
    column equal to the column of the latest year. *)
Theorem extrapolate_births_carries_the_latest_year_forward
  (int : string -> result Z) (f : Pandas.Frame) (birth_years avail : list Z)
  (latest M : Z) (v0 : list Float64.t) :
  (forall z, int (str z) = Ok z) ->
  FertilityProcessor.years_of int (Pandas.columns f) = Ok avail ->
  max avail = Ok latest ->
  max birth_years = Ok M ->
  latest < M ->
  FertilityProcessor.read_column f (str latest) = Ok v0 ->
  exists f',
    FertilityProcessor.extrapolate_births int f birth_years = Ok f'
    /\ Pandas.frame_index f' = Pandas.frame_index f
    /\ Pandas.columns f'
       = Pandas.columns f ++ map str (range (latest + 1) (M + 1))
    /\ (forall label, In label (Pandas.columns f) ->
          FertilityProcessor.read_column f' label
          = FertilityProcessor.read_column f label)
    /\ (forall y, latest < y <= M ->
          FertilityProcessor.read_column f' (str y) = Ok v0).
Proof.
  intros Hint Hav Hl HM Hlt Hv0.
  eexists. split; [| split; [| split; [| split]]].
  - apply (extrapolate_births_extends int Hint f avail latest Hav Hl
             birth_years M v0 HM Hlt Hv0).
  - reflexivity.
  - unfold Pandas.columns. cbn [Pandas.frame_columns].
    now rewrite map_app, map_map.
  - intros label Hin. rewrite read_column_app.
    + now destruct f.
    + rewrite map_map. cbn [fst]. intros Hin'. apply in_map_iff in Hin'.
      destruct Hin' as (y & <- & Hy). apply In_range in Hy.
      apply (later_not_a_column int Hint f avail latest Hav Hl y); [lia |].
      exact Hin.
  - intros y Hy.
    apply (read_column_added int Hint).
    + apply (later_not_a_column int Hint f avail latest Hav Hl y). lia.
    + apply range_NoDup.
    + apply In_range. lia.
Qed.

Lemma extrapolate_births_carries_forward_witness :
  exists f',
    FertilityProcessor.extrapolate_births int_of_decimal
      Examples.fertility_2023 [2023; 2024; 2025] = Ok f'
    /\ FertilityProcessor.read_column f' "2025"%string
       = Ok [Float64.of_int 11; Float64.of_int 48].
Proof.
  destruct (extrapolate_births_carries_the_latest_year_forward
              int_of_decimal Examples.fertility_2023 [2023; 2024; 2025]
              [2022; 2023] 2023 2025 [Float64.of_int 11; Float64.of_int 48]
              int_of_decimal_str eq_refl eq_refl eq_refl eq_refl eq_refl)
    as (f' & Hf & _ & _ & _ & Hy).
  exists f'. split; [exact Hf |].
  apply (Hy 2025). lia.
Defined.

(** X6.  When the table ends before the last birth year asked for, and no column
    is labelled with the decimal numeral of its latest year (the label
    converts to that year but is written differently, with a leading zero
    for instance), extrapolation raises a [KeyError]. *)
Theorem extrapolate_births_needs_the_latest_year_label
  (int : string -> result Z) (f : Pandas.Frame) (birth_years avail : list Z)
  (latest M : Z) :
  FertilityProcessor.years_of int (Pandas.columns f) = Ok avail ->
  max avail = Ok latest ->
  max birth_years = Ok M ->
  latest < M ->
  ~ In (str latest) (Pandas.columns f) ->
  FertilityProcessor.extrapolate_births int f birth_years = Raise KeyError.
Proof.
  intros Hav Hl HM Hlt Hno. unfold FertilityProcessor.extrapolate_births.
  rewrite Hav. cbn [bind]. rewrite Hl. cbn [bind]. rewrite HM. cbn [bind].
  destruct (Z.ltb_spec latest M); [| lia].
  rewrite range_cons by lia. cbn [for_each].
  unfold FertilityProcessor.extrapolate_step at 1.
  rewrite (later_not_available avail latest Hl) by lia. cbn [negb].
  assert (E : FertilityProcessor.read_column f (str latest) = Raise KeyError).
  { unfold FertilityProcessor.read_column.
    assert (E : filter (fun kv => String.eqb (fst kv) (str latest))
                  (Pandas.frame_columns f) = []).
    { unfold Pandas.columns in Hno.
      induction (Pandas.frame_columns f) as [| [l v] cols IH];
        [reflexivity |].
      cbn in *. destruct (String.eqb_spec l (str latest)) as [-> | _].
      - exfalso. apply Hno. now left.
      - apply IH. intros Hin. apply Hno. now right. }
    now rewrite E. }
  now rewrite E.
Qed.

Lemma extrapolate_births_needs_the_label_witness :
  FertilityProcessor.extrapolate_births int_of_decimal
    (Pandas.mk_Frame ["20 - 24 Years"%string]
       [("02023"%string, [Float64.of_int 11])])
    [2024]
  = Raise KeyError.
Proof.
  apply (extrapolate_births_needs_the_latest_year_label int_of_decimal
           (Pandas.mk_Frame ["20 - 24 Years"%string]
              [("02023"%string, [Float64.of_int 11])])
           [2024] [2023] 2023 2024 eq_refl eq_refl eq_refl).
  - lia.
  - cbn. intros [H | []]. discriminate.
Defined.

(** ** The averaged birth rates *)

Section BirthRates.

Import Pandas FertilityProcessor.

Lemma check_labels_Ok (labels axis : list string) :
  (forall l, In l labels -> In l axis) -> check_labels labels axis = Ok tt.
Proof.
  intros H. unfold check_labels.
  assert (E : forallb (fun l => existsb (String.eqb l) axis) labels = true).
  { apply forallb_forall. intros l Hl. apply existsb_eqb_In. auto. }
  now rewrite E.
Qed.

Lemma check_labels_Raise (labels axis : list string) (l : string) :
  In l labels -> ~ In l axis -> check_labels labels axis = Raise KeyError.
Proof.
  intros Hl Hno. unfold check_labels.
  destruct (forallb (fun l => existsb (String.eqb l) axis) labels) eqn:E;
    [| reflexivity].
  rewrite forallb_forall in E. specialize (E _ Hl).
  apply existsb_eqb_In in E. contradiction.
Qed.

Lemma get_combine {V : Type} (idx : list string) (vals : list V) (k : string) :
  In k idx -> length vals = length idx ->
  exists v, get (combine idx vals) k = Some v.
Proof.
  revert vals. induction idx as [| l idx IH]; intros vals Hin Hlen;
    [destruct Hin |].
  destruct vals as [| v vals]; [discriminate |]. cbn.
  destruct (String.eqb_spec l k) as [-> | Hne]; [eauto |].
  destruct Hin as [-> | Hin]; [contradiction |].
  apply IH; [assumption | now injection Hlen].
Qed.

Lemma get_In {V : Type} (s : Series V) (k : string) (v : V) :
  get s k = Some v -> In (k, v) s.
Proof.
  induction s as [| [l w] s IH]; cbn; [discriminate |].
  destruct (String.eqb_spec l k) as [-> | _].
  - intros [= ->]. now left.
  - intros H. right. auto.
Qed.

Lemma column_of_label (f : Frame) (label : string) :
  well_formed f -> In label (columns f) ->
  exists values,
    In (label, values) (frame_columns f)
    /\ length values = length (frame_index f)
    /\ column f label = Some (combine (frame_index f) values).
Proof.
  intros Hwf Hin. unfold columns in Hin.
  apply (get_Some_iff (frame_columns f)) in Hin.
  destruct Hin as [values Hv]. exists values.
  pose proof (get_In _ _ _ Hv) as Hmem. split; [exact Hmem |]. split.
  - unfold well_formed in Hwf. rewrite Forall_forall in Hwf.
    apply (Hwf _ Hmem).
  - unfold column. now rewrite Hv.
Qed.

Lemma map_result_getitem {V : Type} (s : Series V) (labels : list string) :
  (forall l, In l labels -> exists v, get s l = Some v) ->
  exists values, map_result (getitem s) labels = Ok values.
Proof.
  induction labels as [| l labels IH]; intros H; cbn; [eauto |].
  destruct (H l (or_introl eq_refl)) as [v Hv].
  unfold getitem at 1. rewrite Hv. cbn [bind].
  destruct IH as [values Hvalues]; [intros; apply H; now right |].
  rewrite Hvalues. cbn [bind]. eauto.
Qed.

(** The selection of the rows and columns succeeds on a table that has
    them, and keeps the years in the order asked for. *)
Lemma select_rates (f : Frame) (birth_years : list Z) :
  well_formed f ->
  (forall age, In age mother_ages -> In age (frame_index f)) ->
  (forall y, In y birth_years -> In (str y) (columns f)) ->
  exists selected,
    map_result
      (fun year =>
         match column f (str year) with
         | Some column =>
             values <- map_result (getitem column) mother_ages ;;
             Ok (str year, values)
         | None => Raise KeyError
         end)
      birth_years = Ok selected
    /\ map fst selected = map str birth_years.
Proof.
  intros Hwf Hrows Hcols.
  induction birth_years as [| y ys IH]; cbn [map_result]; [exists []; auto |].
  destruct (column_of_label f (str y) Hwf (Hcols y (or_introl eq_refl)))
    as (values & _ & Hlen & Hcol).
  rewrite Hcol.
  destruct (map_result_getitem (combine (frame_index f) values) mother_ages)
    as [vs Hvs].
  { intros age Hage. apply get_combine; auto. }
  rewrite Hvs. cbn [bind].
  destruct IH as (selected & Hsel & Hfst); [intros; apply Hcols; now right |].
  rewrite Hsel. cbn [bind]. eexists. split; [reflexivity |].
  cbn. now rewrite Hfst.
Qed.

Lemma birth_rates_total (f : Frame) (birth_years : list Z) :
  well_formed f ->
  (forall age, In age mother_ages -> In age (frame_index f)) ->
  (forall y, In y birth_years -> In (str y) (columns f)) ->
  exists rates,
    get_birth_rates_for_forecast_years f birth_years = Ok rates
    /\ index rates = map str birth_years.
Proof.
  intros Hwf Hrows Hcols. unfold get_birth_rates_for_forecast_years.
  rewrite check_labels_Ok by assumption. cbn [bind].
  rewrite check_labels_Ok.
  - cbn [bind].
    destruct (select_rates f birth_years Hwf Hrows Hcols)
      as (selected & Hsel & Hfst).
    rewrite Hsel. cbn [bind]. eexists. split; [reflexivity |].
    unfold index. rewrite map_map. cbn [fst]. exact Hfst.
  - intros l Hl. apply in_map_iff in Hl. destruct Hl as (y & <- & Hy). auto.
Qed.

Lemma birth_rates_index (f : Frame) (birth_years : list Z)
  (rates : Series Float64.t) :
  get_birth_rates_for_forecast_years f birth_years = Ok rates ->
  index rates = map str birth_years.
Proof.
  unfold get_birth_rates_for_forecast_years. intros H.
  destruct (check_labels mother_ages (frame_index f)); [| discriminate].
  cbn [bind] in H.
  destruct (check_labels (map str birth_years) (columns f)); [| discriminate].
  cbn [bind] in H.
  match type of H with
  | bind ?m _ = _ => destruct m as [selected | e] eqn:Esel; [| discriminate]
  end.
  cbn [bind] in H. injection H as <-.
  unfold index. rewrite map_map. cbn [fst].
  clear - Esel. revert selected Esel.
  induction birth_years as [| y ys IH]; intros selected Esel;
    cbn [map_result] in Esel.
  - now injection Esel as <-.
  - destruct (column f (str y)) as [col |]; [| discriminate].
    destruct (map_result (getitem col) mother_ages) as [vs |];
      [| discriminate].
    cbn [bind] in Esel.
    match type of Esel with
    | bind ?m _ = _ => destruct m as [sel' | e] eqn:E'; [| discriminate]
    end.
    cbn [bind] in Esel. injection Esel as <-. cbn. f_equal. now apply IH.
Qed.

End BirthRates.



(** X8.  The averaged birth rates cannot be computed, a [KeyError] is raised,
    when the table lacks the row of one of the four age groups of the
    mothers or the column of one of the birth years. *)
Theorem birth_rates_need_every_label
  (f : Pandas.Frame) (birth_years : list Z) :
  (exists age, In age FertilityProcessor.mother_ages
               /\ ~ In age (Pandas.frame_index f))
  \/ (exists y, In y birth_years /\ ~ In (str y) (Pandas.columns f)) ->
  FertilityProcessor.get_birth_rates_for_forecast_years f birth_years
  = Raise KeyError.
Proof.
  intros [(age & Hage & Hno) | (y & Hy & Hno)];
    unfold FertilityProcessor.get_birth_rates_for_forecast_years.
  - now rewrite (check_labels_Raise _ _ age Hage Hno).
  - destruct (FertilityProcessor.check_labels FertilityProcessor.mother_ages
                (Pandas.frame_index f)) as [[] | e] eqn:E.
    + cbn [bind].
      rewrite (check_labels_Raise (map str birth_years) (Pandas.columns f)
                 (str y)); [reflexivity | now apply in_map | exact Hno].
    + unfold FertilityProcessor.check_labels in E.
      destruct (forallb _ _) in E; [discriminate |].
      now injection E as <-.
Qed.

Lemma birth_rates_need_every_label_witness :
  FertilityProcessor.get_birth_rates_for_forecast_years
    Examples.fertility_2023 [2023]
  = Raise KeyError.
Proof.
  apply (birth_rates_need_every_label Examples.fertility_2023 [2023]).
  left. exists "30 - 34 Years"%string. split.
  - right. right. left. reflexivity.
  - cbn. intros [H | [H | []]]; discriminate.
Defined.



(** X10.  With the averaged rates of a list of birth years that holds the whole
    window of the target year, the new-housing estimator finds the rate of
    every birth year it looks up: its loop ends without a [KeyError],
    whatever the housing table. *)
Theorem bto_births_find_every_rate
  (c : Forecaster.Config) (y : Z) (f : Pandas.Frame) (birth_years : list Z)
  (rates : Pandas.Series Float64.t)
  (bto_units_by_subzone : Pandas.Table string) :
  FertilityProcessor.get_birth_rates_for_forecast_years f birth_years
  = Ok rates ->
  (forall b,
     In b (FertilityProcessor.birth_years_for_single_forecast_year
             (Forecaster.ages_of c) y) ->
     In b birth_years) ->
  exists series,
    Forecaster.bto_births c y rates bto_units_by_subzone = Ok series
    /\ NoDup (Pandas.index series)
    /\ forall s,
         In s (Pandas.index series)
         <-> In s (Pandas.table_columns bto_units_by_subzone).
Proof.
  intros Hrates Hcover.
  pose proof (birth_rates_index _ _ _ Hrates) as Hidx.
  assert (Hav : Forecaster.rates_available rates bto_units_by_subzone
                  (FertilityProcessor.birth_years_for_single_forecast_year
                     (Forecaster.ages_of c) y) = true).
  { unfold Forecaster.rates_available. apply forallb_forall. intros b Hb.
    destruct (Forecaster.loc_row bto_units_by_subzone (str b));
      [| reflexivity].
    unfold Pandas.has_label. apply existsb_eqb_In. rewrite Hidx.
    apply in_map. auto. }
  unfold Forecaster.bto_births. cbn zeta.
  destruct (bto_loop c rates bto_units_by_subzone
              (FertilityProcessor.birth_years_for_single_forecast_year
                 (Forecaster.ages_of c) y)
              (Pandas.unique (Pandas.table_columns bto_units_by_subzone))
              (FertilityProcessor.birth_years_for_single_forecast_year
                 (Forecaster.ages_of c) y)
              (Pandas.full Float64.zero
                 (Pandas.unique (Pandas.table_columns bto_units_by_subzone)))
              (unique_NoDup _) Hav) as (series & Hs & _).
  exists series. split; [exact Hs |].
  apply index_bto_loop in Hs. rewrite Hs, index_full.
  split; [apply unique_NoDup | intros s; apply In_unique].
Qed.

Lemma bto_births_find_every_rate_witness :
  exists series,
    Forecaster.bto_births (Forecaster.default_Config 2025) 2026
      [("2020"%string, Float64.Finite (240 # 4000));
       ("2021"%string, Float64.Finite (240 # 4000));
       ("2022"%string, Float64.Finite (240 # 4000));
       ("2023"%string, Float64.Finite (240 # 4000));
       ("2024"%string, Float64.Finite (240 # 4000))]
      Examples.units_2024 = Ok series
    /\ NoDup (Pandas.index series)
    /\ forall s,
         In s (Pandas.index series)
         <-> In s (Pandas.table_columns Examples.units_2024).
Proof.
  assert (H : FertilityProcessor.get_birth_rates_for_forecast_years
                (Pandas.mk_Frame FertilityProcessor.mother_ages
                   [("2020"%string,
                     [Float64.of_int 60; Float64.of_int 60;
                      Float64.of_int 60; Float64.of_int 60]);
                    ("2021"%string,
                     [Float64.of_int 60; Float64.of_int 60;
                      Float64.of_int 60; Float64.of_int 60]);
                    ("2022"%string,
                     [Float64.of_int 60; Float64.of_int 60;
                      Float64.of_int 60; Float64.of_int 60]);
                    ("2023"%string,
                     [Float64.of_int 60; Float64.of_int 60;
                      Float64.of_int 60; Float64.of_int 60]);
                    ("2024"%string,
                     [Float64.of_int 60; Float64.of_int 60;
                      Float64.of_int 60; Float64.of_int 60])])
                [2020; 2021; 2022; 2023; 2024]
              = Ok [("2020"%string, Float64.Finite (240 # 4000));
                    ("2021"%string, Float64.Finite (240 # 4000));
                    ("2022"%string, Float64.Finite (240 # 4000));
                    ("2023"%string, Float64.Finite (240 # 4000));
                    ("2024"%string, Float64.Finite (240 # 4000))]).
  { reflexivity. }
  apply (bto_births_find_every_rate (Forecaster.default_Config 2025) 2026
           _ _ _ Examples.units_2024 H).
  intros b Hb. exact Hb.
Defined.

(** ** The cumulative housing table *)

Section CumulativeUnits.

Import Pandas BTOProcessor.

Lemma fold_left_add (xs : list Z) (a : Z) :
  fold_left Z.add xs a = a + fold_left Z.add xs 0.
Proof.
  revert a. induction xs as [| x xs IH]; intros a; cbn; [lia |].
  rewrite IH, (IH x). lia.
Qed.

Lemma sum_int_cons (x : Z) (xs : list Z) : sum_int (x :: xs) = x + sum_int xs.
Proof. unfold sum_int. cbn. apply fold_left_add. Qed.

Lemma sum_int_nonneg (xs : list Z) :
  Forall (fun x => 0 <= x) xs -> 0 <= sum_int xs.
Proof.
  induction 1 as [| x xs Hx Hxs IH]; [cbn; lia |].
  rewrite sum_int_cons. lia.
Qed.

(** The sum over the rows selected by a test. *)
Let total (data : list bto) (p : bto -> bool) : Z :=
  sum_int (map Total_number_of_units (filter p data)).

Lemma total_ext (data : list bto) (p q : bto -> bool) :
  (forall r, In r data -> p r = q r) -> total data p = total data q.
Proof.
  intros H. unfold total. f_equal. f_equal. now apply filter_ext_in.
Qed.

Lemma total_split (data : list bto) (p q : bto -> bool) :
  (forall r, In r data -> p r = true -> q r = false) ->
  total data (fun r => p r || q r) = total data p + total data q.
Proof.
  unfold total. induction data as [| r data IH]; intros H; [reflexivity |].
  cbn [filter].
  assert (IH' : sum_int (map Total_number_of_units
                           (filter (fun r => p r || q r) data))
                = sum_int (map Total_number_of_units (filter p data))
                  + sum_int (map Total_number_of_units (filter q data))).
  { apply IH. intros r' Hr'. apply H. now right. }
  destruct (p r) eqn:Ep; cbn [orb].
  - rewrite (H r (or_introl eq_refl) Ep). cbn [map].
    rewrite !sum_int_cons, IH'. lia.
  - destruct (q r); cbn [map]; rewrite ?sum_int_cons, IH'; lia.
Qed.

Lemma total_monotone (data : list bto) (p q : bto -> bool) :
  Forall (fun r => 0 <= Total_number_of_units r) data ->
  (forall r, In r data -> p r = true -> q r = true) ->
  total data p <= total data q.
Proof.
  unfold total. induction 1 as [| r data Hr Hdata IH]; intros H;
    [cbn; lia |].
  cbn [filter].
  assert (IH' : sum_int (map Total_number_of_units (filter p data))
                <= sum_int (map Total_number_of_units (filter q data))).
  { apply IH. intros r' Hr'. apply H. now right. }
  destruct (p r) eqn:Ep.
  - rewrite (H r (or_introl eq_refl) Ep). cbn [map].
    rewrite !sum_int_cons. lia.
  - destruct (q r); cbn [map]; rewrite ?sum_int_cons; lia.
Qed.

Lemma insert_year_asc (x : Z) (l : list Z) : insert_year x l = insert_asc x l.
Proof.
  induction l as [| y l IH]; cbn; [reflexivity |]. now rewrite IH.
Qed.

Lemma sorted_years_sorted (ys : list Z) : StronglySorted Z.lt (sorted_years ys).
Proof.
  unfold sorted_years. induction ys as [| y ys IH]; cbn; [constructor |].
  rewrite insert_year_asc. now apply insert_asc_sorted.
Qed.

Lemma In_sorted_years (ys : list Z) (y : Z) : In y (sorted_years ys) <-> In y ys.
Proof.
  unfold sorted_years. induction ys as [| z ys IH]; cbn; [tauto |].
  rewrite insert_year_asc, In_insert_asc, IH. intuition auto.
Qed.

Lemma nth_cumsum_from (acc : Z) (xs : list Z) (i : nat) :
  (i < length xs)%nat ->
  nth i (cumsum_from acc xs) 0 = acc + sum_int (firstn (S i) xs).
Proof.
  revert acc i. induction xs as [| x xs IH]; intros acc i Hi; [cbn in Hi; lia |].
  destruct i as [| i].
  - cbn [cumsum_from nth firstn]. rewrite sum_int_cons. cbn. lia.
  - cbn [cumsum_from nth]. rewrite IH by (cbn in Hi; lia).
    change (firstn (S (S i)) (x :: xs)) with (x :: firstn (S i) xs).
    rewrite sum_int_cons. lia.
Qed.

Lemma length_cumsum_from (acc : Z) (xs : list Z) :
  length (cumsum_from acc xs) = length xs.
Proof.
  revert acc. induction xs as [| x xs IH]; intros acc; cbn; [reflexivity |].
  now rewrite IH.
Qed.

(** The per-year sums of distinct years add up to the sum over the rows of
    any of those years. *)
Lemma sum_of_year_cells (data : list bto) (q : bto -> bool) (years : list Z) :
  NoDup years ->
  sum_int
    (map (fun year =>
            total data (fun r => q r && (Estimated_completion_year r =? year)))
         years)
  = total data
      (fun r => q r && existsb (Z.eqb (Estimated_completion_year r)) years).
Proof.
  induction 1 as [| y years Hy Hnd IH].
  - cbn. unfold total. 
    assert (E : filter (fun r => q r && false) data = []).
    { induction data as [| r data IHd]; [reflexivity |].
      cbn. now rewrite andb_false_r. }
    cbn [existsb]. now rewrite E.
  - cbn [map existsb]. rewrite sum_int_cons, IH.
    rewrite <- total_split.
    + apply total_ext. intros r _.
      rewrite (Z.eqb_sym (Estimated_completion_year r) y).
      now destruct (q r), (y =? Estimated_completion_year r).
    + intros r _ H. apply andb_true_iff in H. destruct H as [_ H].
      apply Z.eqb_eq in H.
      destruct (existsb (Z.eqb (Estimated_completion_year r)) years) eqn:E;
        [| now rewrite andb_false_r].
      apply existsb_exists in E. destruct E as (z & Hz & E).
      apply Z.eqb_eq in E. subst. contradiction.
Qed.

Lemma In_firstn {A : Type} (n : nat) (l : list A) (x : A) :
  In x (firstn n l) -> In x l.
Proof.
  intros H. rewrite <- (firstn_skipn n l). apply in_or_app. now left.
Qed.

Lemma sorted_firstn_le (l : list Z) (i : nat) (y z : Z) :
  StronglySorted Z.lt l -> nth_error l i = Some y -> In z l ->
  (In z (firstn (S i) l) <-> z <= y).
Proof.
  intros Hs. revert i. induction Hs as [| a l Hs IH Ha]; intros i Hi Hz;
    [destruct Hz |].
  rewrite Forall_forall in Ha.
  destruct i as [| i].
  - injection Hi as ->. cbn. split.
    + intros [-> | []]. lia.
    + intros Hle. destruct Hz as [-> | Hz]; [now left |].
      specialize (Ha _ Hz). lia.
  - cbn [nth_error] in Hi.
    change (firstn (S (S i)) (a :: l)) with (a :: firstn (S i) l).
    assert (Hay : a < y) by (apply Ha; eapply nth_error_In; eauto).
    split.
    + intros [-> | Hin]; [lia |].
      apply (IH i Hi); [| exact Hin].
      eapply In_firstn; exact Hin.
    + intros Hle. destruct Hz as [-> | Hz]; [now left |].
      right. now apply (IH i Hi).
Qed.

End CumulativeUnits.

Lemma map_fst_combine {A B : Type} (l : list A) (l' : list B) :
  length l = length l' -> map fst (combine l l') = l.
Proof.
  revert l'. induction l as [| a l IH]; intros l' H; [reflexivity |].
  destruct l' as [| b l']; [discriminate |]. cbn. f_equal.
  apply IH. now injection H.
Qed.

Section CumulativeTable.

Import Pandas BTOProcessor.

Lemma str_inj (x y : Z) : str x = str y -> x = y.
Proof. apply (str_injective int_of_decimal int_of_decimal_str). Qed.

Lemma sorted_NoDup (l : list Z) : StronglySorted Z.lt l -> NoDup l.
Proof.
  induction 1 as [| x l Hs IH Hx]; constructor; [| assumption].
  intros Hin. rewrite Forall_forall in Hx. specialize (Hx _ Hin). lia.
Qed.

Lemma nth_error_transpose (n : nat) (rows : list (list Z)) (i : nat) :
  (i < n)%nat ->
  nth_error (transpose n rows) i = Some (map (fun row => nth i row 0) rows).
Proof.
  intros Hi. unfold transpose.
  rewrite nth_error_map.
  assert (E : nth_error (seq 0 n) i = Some i).
  { rewrite nth_error_nth' with (d := 0%nat) by now rewrite length_seq.
    now rewrite seq_nth. }
  now rewrite E.
Qed.

Lemma length_transpose (n : nat) (rows : list (list Z)) :
  length (transpose n rows) = n.
Proof. unfold transpose. now rewrite length_map, length_seq. Qed.

(** Reading the row of a year in a table whose rows are labelled with the
    numerals of distinct years. *)
Lemma get_year_row {V : Type} (years : list Z) (rows : list V) (i : nat)
  (y : Z) :
  NoDup years -> nth_error years i = Some y ->
  get (combine (map str years) rows) (str y) = nth_error rows i.
Proof.
  intros Hnd. revert rows i.
  induction Hnd as [| z years Hz Hnd IH]; intros rows i Hi;
    [destruct i; discriminate |].
  destruct rows as [| row rows].
  - cbn. now destruct i.
  - cbn [map combine get].
    destruct i as [| i].
    + injection Hi as ->. now rewrite String.eqb_refl.
    + cbn [nth_error] in Hi |- *.
      destruct (String.eqb_spec (str z) (str y)) as [E | _].
      * apply str_inj in E. subst z. exfalso. apply Hz.
        eapply nth_error_In; eauto.
      * now apply IH.
Qed.

Variable bto_data : list bto.
Variable last_year : Z.

Let included :=
  filter (fun r => Estimated_completion_year r <=? last_year) bto_data.
Let names := unique (map Subzone included).
Let completion_years := sorted_years (map Estimated_completion_year included).
Let pivot :=
  map (fun subzone =>
         map (fun year =>
                sum_int
                  (map Total_number_of_units
                     (filter (fun r =>
                                String.eqb (Subzone r) subzone
                                && (Estimated_completion_year r =? year))
                             included)))
             completion_years)
      names.

Lemma units_completed_by_included (subzone : string) (year : Z) :
  year <= last_year ->
  units_completed_by included subzone year
  = units_completed_by bto_data subzone year.
Proof.
  intros Hy. unfold units_completed_by. do 2 f_equal.
  subst included. induction bto_data as [| r data IH]; [reflexivity |].
  cbn [filter].
  destruct (Z.leb_spec (Estimated_completion_year r) last_year) as [Hle | Hgt].
  - cbn [filter]. now rewrite IH.
  - rewrite IH.
    destruct (Z.leb_spec (Estimated_completion_year r) year); [lia |].
    now rewrite andb_false_r.
Qed.

(** A cell of the table: the units of the projects of the subzone of its
    column completed by the year of its row. *)
Lemma cumulative_cell (i j : nat) (year : Z) (subzone : string) :
  nth_error completion_years i = Some year ->
  nth_error names j = Some subzone ->
  exists cells,
    nth_error (transpose (length completion_years) (map cumsum pivot)) i
    = Some cells
    /\ length cells = length names
    /\ nth_error cells j = Some (units_completed_by bto_data subzone year).
Proof.
  intros Hi Hj.
  assert (Hs : StronglySorted Z.lt completion_years)
    by apply sorted_years_sorted.
  assert (Hilt : (i < length completion_years)%nat)
    by (apply nth_error_Some; congruence).
  eexists. split; [now apply nth_error_transpose |]. split.
  - subst pivot. now rewrite !length_map.
  - subst pivot. rewrite !map_map, nth_error_map, Hj. cbn [option_map].
    f_equal. unfold cumsum.
    rewrite nth_cumsum_from by now rewrite length_map.
    rewrite Z.add_0_l, firstn_map.
    assert (Hnd : NoDup (firstn (S i) completion_years)).
    { apply sorted_NoDup in Hs.
      rewrite <- (firstn_skipn (S i) completion_years) in Hs.
      now apply NoDup_app_remove_r in Hs. }
    rewrite (sum_of_year_cells included
               (fun r => String.eqb (Subzone r) subzone) _ Hnd).
    assert (Hyear : year <= last_year).
    { assert (Hin : In year (map Estimated_completion_year included))
        by (apply In_sorted_years; eapply nth_error_In; eauto).
      apply in_map_iff in Hin. destruct Hin as (r & <- & Hr).
      subst included. apply filter_In in Hr. destruct Hr as [_ Hr].
      now apply Z.leb_le. }
    rewrite <- (units_completed_by_included subzone year Hyear).
    unfold units_completed_by. do 2 f_equal.
    apply filter_ext_in. intros r Hr. f_equal.
    assert (Hin : In (Estimated_completion_year r) completion_years)
      by (apply In_sorted_years; now apply in_map).
    pose proof (sorted_firstn_le completion_years i year
                  (Estimated_completion_year r) Hs Hi Hin) as Hiff.
    destruct (Z.leb_spec (Estimated_completion_year r) year) as [Hle | Hgt].
    + apply existsb_exists. exists (Estimated_completion_year r).
      split; [now apply Hiff | apply Z.eqb_refl].
    + destruct (existsb (Z.eqb (Estimated_completion_year r))
                  (firstn (S i) completion_years)) eqn:E; [| reflexivity].
      apply existsb_exists in E. destruct E as (z & Hz & E).
      apply Z.eqb_eq in E. subst z. apply Hiff in Hz. lia.
Qed.

(** Conversely, a cell read in the row labelled with a year belongs to a
    subzone and holds its units completed by that year. *)
Lemma cumulative_row_cell (z : Z) (cs : list Z) (j : nat) (w : Z) :
  get (combine (map str completion_years)
               (transpose (length completion_years) (map cumsum pivot)))
      (str z) = Some cs ->
  nth_error cs j = Some w ->
  exists subzone,
    nth_error names j = Some subzone
    /\ w = units_completed_by bto_data subzone z.
Proof.
  intros Hget Hw.
  assert (Hnd : NoDup completion_years)
    by apply sorted_NoDup, sorted_years_sorted.
  assert (Hz : In z completion_years).
  { assert (Hin : In (str z)
                    (index (combine (map str completion_years)
                              (transpose (length completion_years)
                                 (map cumsum pivot)))))
      by (apply get_Some_iff; eauto).
    unfold index in Hin. rewrite map_fst_combine in Hin
      by (subst pivot; now rewrite length_transpose, length_map).
    apply in_map_iff in Hin. destruct Hin as (z' & E & Hz').
    apply str_inj in E. now subst. }
  apply In_nth_error in Hz. destruct Hz as [i Hi].
  rewrite (get_year_row _ _ i z Hnd Hi) in Hget.
  rewrite nth_error_transpose in Hget by (apply nth_error_Some; congruence).
  injection Hget as <-.
  assert (Hlt : (j < length names)%nat).
  { assert (Hne : nth_error (map (fun row => nth i row 0) (map cumsum pivot)) j
                  <> None) by congruence.
    apply nth_error_Some in Hne. subst pivot.
    now rewrite !length_map in Hne. }
  destruct (nth_error names j) as [subzone |] eqn:Hj.
  2:{ apply nth_error_None in Hj. lia. }
  exists subzone. split; [reflexivity |].
  destruct (cumulative_cell i j z subzone Hi Hj) as (cs' & Hcs' & _ & Hcell).
  rewrite nth_error_transpose in Hcs' by (apply nth_error_Some; congruence).
  injection Hcs' as <-. congruence.
Qed.

(** The table the function returns, written with the names above. *)
Lemma cumulative_table (years : list Z) :
  max years = Ok last_year ->
  get_cumulative_bto_units_by_subzone bto_data years
  = Ok (mk_Table (map strip names)
          (combine (map str completion_years)
                   (transpose (length completion_years) (map cumsum pivot)))).
Proof.
  intros H. unfold get_cumulative_bto_units_by_subzone. rewrite H. reflexivity.
Qed.

End CumulativeTable.

(** X11.  The housing table can only fail on an empty list of forecast years, with
    a [ValueError].  Otherwise it has one row per distinct completion year
    of the projects completed by the last forecast year, labelled with the
    numerals of these years in increasing order, and every row has one cell
    per column. *)
Theorem cumulative_table_has_a_row_per_completion_year
  (bto_data : list BTOProcessor.bto) (years : list Z) :
  (years = [] ->
   BTOProcessor.get_cumulative_bto_units_by_subzone bto_data years
   = Raise ValueError)
  /\ (forall last_year,
        max years = Ok last_year ->
        exists t completion_years,
          BTOProcessor.get_cumulative_bto_units_by_subzone bto_data years
          = Ok t
          /\ map fst (Pandas.table_rows t) = map str completion_years
          /\ StronglySorted Z.lt completion_years
          /\ (forall y,
                In y completion_years
                <-> y <= last_year
                    /\ exists r, In r bto_data
                                 /\ BTOProcessor.Estimated_completion_year r = y)
          /\ Forall (fun row => length (snd row)
                                = length (Pandas.table_columns t))
                    (Pandas.table_rows t)).
Proof.
  split.
  - intros ->. reflexivity.
  - intros last_year Hmax.
    rewrite (cumulative_table bto_data last_year years Hmax).
    eexists.
    exists (BTOProcessor.sorted_years
              (map BTOProcessor.Estimated_completion_year
                 (filter (fun r =>
                            BTOProcessor.Estimated_completion_year r
                            <=? last_year)
                         bto_data))).
    split; [reflexivity |].
    cbn [Pandas.table_rows Pandas.table_columns].
    split; [| split; [| split]].
    + apply map_fst_combine.
      now rewrite length_transpose, length_map.
    + apply sorted_years_sorted.
    + intros y. rewrite In_sorted_years, in_map_iff. split.
      * intros (r & <- & Hr). apply filter_In in Hr. destruct Hr as [Hr Hle].
        apply Z.leb_le in Hle. eauto.
      * intros (Hle & r & Hr & <-). exists r. split; [reflexivity |].
        apply filter_In. split; [assumption | now apply Z.leb_le].
    + apply Forall_forall. intros [label cells] Hrow.
      apply in_combine_r in Hrow. unfold BTOProcessor.transpose in Hrow.
      apply in_map_iff in Hrow. destruct Hrow as (i & <- & _).
      cbn [snd]. now rewrite !length_map.
Qed.

Lemma cumulative_table_rows_witness :
  exists t completion_years,
    BTOProcessor.get_cumulative_bto_units_by_subzone
      Examples.projects_Bedok [2026] = Ok t
    /\ map fst (Pandas.table_rows t) = map str completion_years
    /\ StronglySorted Z.lt completion_years.
Proof.
  destruct (proj2 (cumulative_table_has_a_row_per_completion_year
                     Examples.projects_Bedok [2026]) 2026 eq_refl)
    as (t & cy & Ht & Hrows & Hs & _).
  exists t, cy. repeat split; assumption.
Defined.

(** X12.  Every cell of the housing table is cumulative.  Each subzone name of
    the projects completed by the last forecast year, as it is written in
    the data, has a column, labelled with the name without the whitespace
    around it; every column is the column of such a name; and in the row of
    a completion year the cell of the column is the number of units of all
    the projects with that name completed by that year. *)
Theorem cumulative_table_counts_the_units_completed_by_the_year
  (bto_data : list BTOProcessor.bto) (years : list Z)
  (t : Pandas.Table string) (last_year : Z) :
  BTOProcessor.get_cumulative_bto_units_by_subzone bto_data years = Ok t ->
  max years = Ok last_year ->
  let included :=
    filter (fun r => BTOProcessor.Estimated_completion_year r <=? last_year)
           bto_data in
  let counts (j : nat) (subzone : string) :=
    forall year,
      In year (map BTOProcessor.Estimated_completion_year included) ->
      exists cells,
        Pandas.get (Pandas.table_rows t) (str year) = Some cells
        /\ nth_error cells j
           = Some (units_completed_by bto_data subzone year) in
  (forall subzone,
     In subzone (map BTOProcessor.Subzone included) ->
     exists j,
       nth_error (Pandas.table_columns t) j = Some (strip subzone)
       /\ counts j subzone)
  /\ (forall j label,
        nth_error (Pandas.table_columns t) j = Some label ->
        exists subzone,
          In subzone (map BTOProcessor.Subzone included)
          /\ label = strip subzone
          /\ counts j subzone).
Proof.
  intros Ht Hmax included counts.
  rewrite (cumulative_table bto_data last_year years Hmax) in Ht.
  injection Ht as <-.
  assert (Hcells : forall j subzone,
            nth_error (Pandas.unique (map BTOProcessor.Subzone included)) j
            = Some subzone ->
            counts j subzone).
  { intros j subzone Hj year Hyear.
    cbn [Pandas.table_columns Pandas.table_rows].
    apply In_sorted_years, In_nth_error in Hyear. destruct Hyear as [i Hi].
    destruct (cumulative_cell bto_data last_year i j year subzone Hi Hj)
      as (cells & Hcells & _ & Hcell).
    exists cells. split; [| exact Hcell].
    rewrite (get_year_row _ _ i year); [exact Hcells | | exact Hi].
    apply sorted_NoDup, sorted_years_sorted. }
  cbn [Pandas.table_columns]. split.
  - intros subzone Hin. apply In_unique, In_nth_error in Hin.
    destruct Hin as [j Hj]. exists j. split; [| exact (Hcells j subzone Hj)].
    rewrite nth_error_map. fold included. now rewrite Hj.
  - intros j label Hj. rewrite nth_error_map in Hj. fold included in Hj.
    destruct (nth_error (Pandas.unique (map BTOProcessor.Subzone included)) j)
      as [subzone |] eqn:E; [| discriminate].
    injection Hj as <-. exists subzone. split; [| split].
    + apply (In_unique (map BTOProcessor.Subzone included)).
      exact (nth_error_In _ _ E).
    + reflexivity.
    + exact (Hcells j subzone E).
Qed.

Lemma cumulative_table_counts_witness :
  exists j,
    nth_error ["Bedok"%string; "Bedok"%string] j = Some (strip "Bedok ")
    /\ forall year,
         In year [2024; 2024] ->
         exists cells,
           Pandas.get [("2024"%string, [100; 100])] (str year) = Some cells
           /\ nth_error cells j
              = Some (units_completed_by Examples.projects_Bedok "Bedok " year).
Proof.
  exact (proj1 (cumulative_table_counts_the_units_completed_by_the_year
                  Examples.projects_Bedok [2026]
                  (Pandas.mk_Table ["Bedok"%string; "Bedok"%string]
                     [("2024"%string, [100; 100])])
                  2026 eq_refl eq_refl)
           "Bedok "%string (or_introl eq_refl)).
Defined.

(** X13.  When no project has a negative number of units, the housing table never
    decreases down a column: between the rows of two years, the cell of the
    later year is at least the cell of the earlier year. *)
Theorem cumulative_table_never_decreases
  (bto_data : list BTOProcessor.bto) (years : list Z)
  (t : Pandas.Table string) (y y' : Z) (cells cells' : list Z) (j : nat)
  (v v' : Z) :
  Forall (fun r => 0 <= BTOProcessor.Total_number_of_units r) bto_data ->
  BTOProcessor.get_cumulative_bto_units_by_subzone bto_data years = Ok t ->
  Pandas.get (Pandas.table_rows t) (str y) = Some cells ->
  Pandas.get (Pandas.table_rows t) (str y') = Some cells' ->
  y <= y' ->
  nth_error cells j = Some v ->
  nth_error cells' j = Some v' ->
  v <= v'.
Proof.
  intros Hpos Ht Hrow Hrow' Hle Hv Hv'.
  destruct (max years) as [last_year | e] eqn:Hmax.
  2:{ unfold BTOProcessor.get_cumulative_bto_units_by_subzone in Ht.
      rewrite Hmax in Ht. discriminate. }
  rewrite (cumulative_table bto_data last_year years Hmax) in Ht.
  injection Ht as <-. cbn [Pandas.table_rows] in Hrow, Hrow'.
  destruct (cumulative_row_cell bto_data last_year y cells j v Hrow Hv)
    as (s & Hs & ->).
  destruct (cumulative_row_cell bto_data last_year y' cells' j v' Hrow' Hv')
    as (s' & Hs' & ->).
  assert (s = s') by congruence. subst s'.
  unfold units_completed_by. apply total_monotone; [exact Hpos |].
  intros r _ H. apply andb_true_iff in H. destruct H as [H1 H2].
  apply andb_true_iff. split; [exact H1 |].
  apply Z.leb_le in H2. apply Z.leb_le. lia.
Qed.

Lemma cumulative_table_never_decreases_witness : 100 <= 130.
Proof.
  apply (cumulative_table_never_decreases
           [BTOProcessor.mk_bto "A" 2024 100; BTOProcessor.mk_bto "A" 2025 30]
           [2026]
           (Pandas.mk_Table ["A"%string]
              [("2024"%string, [100]); ("2025"%string, [130])])
           2024 2025 [100] [130] 0%nat 100 130).
  - repeat constructor; cbn; lia.
  - reflexivity.
  - reflexivity.
  - reflexivity.
  - lia.
  - reflexivity.
  - reflexivity.
Defined.

(** ** Failures and successes of the estimators *)

Section EstimatorErrors.

Import Pandas Forecaster.

Lemma bto_loop_raises (c : Config) (window : list Z)
  (birth_rates : Series Float64.t) (bto_units_by_subzone : Table string)
  (labels : list string) (years : list Z) (sp : Series Float64.t) :
  rates_available birth_rates bto_units_by_subzone years = false ->
  for_each (bto_step c window birth_rates bto_units_by_subzone labels) years sp
  = Raise KeyError.
Proof.
  revert sp. induction years as [| y years IH]; intros sp H; [discriminate |].
  cbn [rates_available forallb] in H. cbn [for_each]. unfold bto_step at 1.
  destruct (loc_row bto_units_by_subzone (str y)) as [units |].
  - unfold getitem.
    destruct (get birth_rates (str y)) as [rate |] eqn:Erate.
    + assert (Hl : has_label (str y) birth_rates = true)
        by (apply has_label_get; eauto).
      rewrite Hl in H. cbn [andb bind] in H |- *. now apply IH.
    + reflexivity.
  - cbn [andb bind] in H |- *. now apply IH.
Qed.

End EstimatorErrors.

(** X14.  The new-housing estimator raises a [KeyError] exactly when a birth year
    of the window has a row in the housing table and no averaged rate. *)
Theorem bto_estimator_raises_on_a_missing_rate
  (c : Forecaster.Config) (y : Z) (birth_rates : Pandas.Series Float64.t)
  (bto_units_by_subzone : Pandas.Table string) :
  let window :=
    FertilityProcessor.birth_years_for_single_forecast_year
      (Forecaster.ages_of c) y in
  (Forecaster.rates_available birth_rates bto_units_by_subzone window = false
   <-> Forecaster.bto_births c y birth_rates bto_units_by_subzone
       = Raise KeyError)
  /\ (Forecaster.rates_available birth_rates bto_units_by_subzone window = false
      -> Forecaster.calculate_bto_preschoolers_for_year c y birth_rates
           bto_units_by_subzone
         = Raise KeyError).
Proof.
  cbn zeta.
  assert (Hraise :
            Forecaster.rates_available birth_rates bto_units_by_subzone
              (FertilityProcessor.birth_years_for_single_forecast_year
                 (Forecaster.ages_of c) y) = false ->
            Forecaster.bto_births c y birth_rates bto_units_by_subzone
            = Raise KeyError).
  { intros H. unfold Forecaster.bto_births. cbn zeta.
    now apply bto_loop_raises. }
  split; [split |].
  - exact Hraise.
  - intros H.
    destruct (Forecaster.rates_available birth_rates bto_units_by_subzone
                (FertilityProcessor.birth_years_for_single_forecast_year
                   (Forecaster.ages_of c) y)) eqn:E; [| reflexivity].
    unfold Forecaster.bto_births in H. cbn zeta in H.
    destruct (bto_loop c birth_rates bto_units_by_subzone
                (FertilityProcessor.birth_years_for_single_forecast_year
                   (Forecaster.ages_of c) y)
                (Pandas.unique (Pandas.table_columns bto_units_by_subzone))
                (FertilityProcessor.birth_years_for_single_forecast_year
                   (Forecaster.ages_of c) y)
                (Pandas.full Float64.zero
                   (Pandas.unique (Pandas.table_columns bto_units_by_subzone)))
                (unique_NoDup _) E) as (series & Hs & _).
    congruence.
  - intros H. unfold Forecaster.calculate_bto_preschoolers_for_year.
    now rewrite (Hraise H).
Qed.

Lemma bto_estimator_raises_witness :
  Forecaster.calculate_bto_preschoolers_for_year
    (Forecaster.default_Config 2025) 2026 [] Examples.units_2024
  = Raise KeyError.
Proof.
  exact (proj2 (bto_estimator_raises_on_a_missing_rate
                  (Forecaster.default_Config 2025) 2026 []
                  Examples.units_2024) eq_refl).
Defined.

Section FiniteData.

Import Pandas Forecaster.

Lemma finite_add (x y : Float64.t) :
  finite x -> finite y -> finite (Float64.add x y).
Proof. intros [a ->] [b ->]. cbn. unfold finite. eauto. Qed.

Lemma finite_mul (x y : Float64.t) :
  finite x -> finite y -> finite (Float64.mul x y).
Proof. intros [a ->] [b ->]. cbn. unfold finite. eauto. Qed.

Lemma finite_div_int (x : Float64.t) (n : Z) :
  finite x -> n <> 0 -> finite (Float64.div x (Float64.of_int n)).
Proof.
  intros [a ->] Hn. unfold Float64.div, Float64.of_int, Float64.is_zero.
  cbn [inject_Z Qnum]. destruct (Z.eqb_spec n 0); [contradiction |].
  unfold finite. eauto.
Qed.

Lemma finite_of_int (n : Z) : finite (Float64.of_int n).
Proof. unfold finite, Float64.of_int. eauto. Qed.

Lemma finite_nansum (xs : list Float64.t) :
  Forall finite xs -> finite (Float64.nansum xs).
Proof.
  unfold Float64.nansum.
  assert (H : forall acc, finite acc -> Forall finite xs ->
                          finite (fold_left
                                    (fun acc x =>
                                       if Float64.isna x then acc
                                       else Float64.add acc x) xs acc)).
  { induction xs as [| x xs IH]; intros acc Hacc Hxs; [exact Hacc |].
    inversion Hxs; subst. cbn [fold_left]. apply IH; [| assumption].
    destruct (Float64.isna x); [assumption | now apply finite_add]. }
  apply H. unfold finite, Float64.zero. eauto.
Qed.

Lemma finite_update (f : Float64.t -> Float64.t) (k : string)
  (s : Series Float64.t) :
  (forall v, finite v -> finite (f v)) ->
  finite_series s -> finite_series (update f k s).
Proof.
  intros Hf Hs. unfold finite_series, update in *.
  apply Forall_forall. intros kv Hkv. apply in_map_iff in Hkv.
  destruct Hkv as ([l v] & <- & Hin). rewrite Forall_forall in Hs.
  specialize (Hs _ Hin). cbn [fst snd] in *.
  destruct (String.eqb l k); cbn [snd]; auto.
Qed.

Lemma finite_full (labels : list string) :
  finite_series (full Float64.zero labels).
Proof.
  unfold finite_series, full. apply Forall_forall. intros kv Hkv.
  apply in_map_iff in Hkv. destruct Hkv as (l & <- & _).
  cbn. unfold finite, Float64.zero. eauto.
Qed.

Lemma finite_get (s : Series Float64.t) (k : string) (v : Float64.t) :
  finite_series s -> get s k = Some v -> finite v.
Proof.
  intros Hs Hg. apply get_In in Hg. unfold finite_series in Hs.
  rewrite Forall_forall in Hs. apply (Hs _ Hg).
Qed.

(** The cast to integers of a series of finite values does not fail. *)
Lemma clean_up_finite (raw : Series Float64.t) :
  finite_series raw -> NoDup (index raw) ->
  exists ints, clean_up raw = Ok ints.
Proof.
  intros Hfin Hnd. unfold clean_up.
  assert (Hfill : fillna0 raw = raw).
  { clear Hnd. unfold fillna0.
    induction Hfin as [| [l v] s Hv Hs IH]; [reflexivity |].
    destruct Hv as [q Hq]. cbn [snd] in Hq. subst v.
    cbn [map fst snd]. now rewrite IH. }
  rewrite Hfill.
  assert (H : exists r, astype_int raw = Ok r).
  { clear Hnd Hfill. induction Hfin as [| [l v] s Hv Hs IH]; [cbn; eauto |].
    destruct Hv as [q Hq]. cbn [snd] in Hq. subst v.
    destruct IH as [r Hr]. cbn [astype_int Float64.to_int bind].
    rewrite Hr. cbn [bind]. eauto. }
  destruct H as [r Hr]. rewrite Hr. cbn [bind]. eauto.
Qed.

Variable W : list ExistingResidentsProcessor.women.
Hypothesis finite_W : Forall (fun w => finite (ExistingResidentsProcessor.Count w)) W.

Lemma finite_women_in_age_bin (subzone age_bin : string) :
  finite (women_in_age_bin W subzone age_bin).
Proof.
  unfold women_in_age_bin. apply finite_nansum.
  apply Forall_forall. intros x Hx. apply in_map_iff in Hx.
  destruct Hx as (w & <- & Hw). apply filter_In in Hw. destruct Hw as [Hw _].
  apply filter_In in Hw. destruct Hw as [Hw _].
  rewrite Forall_forall in finite_W. auto.
Qed.

Lemma finite_total_births (window : list Z) (rates : Series Float64.t)
  (birth_year : Z) (subzone : string) :
  finite_series rates ->
  finite (total_births_in_subzone window rates W birth_year subzone).
Proof.
  intros Hr. unfold total_births_in_subzone. cbn zeta.
  assert (Hb : finite (births_over_age_bins rates W subzone)).
  { unfold births_over_age_bins.
    assert (H : forall bins acc, finite acc ->
                  finite (fold_left (add_age_group rates W subzone) bins acc)).
    { induction bins as [| b bins IH]; intros acc Hacc; [exact Hacc |].
      cbn [fold_left]. apply IH. unfold add_age_group. cbn zeta.
      destruct (Float64.gt_zero (women_in_age_bin W subzone b)
                && has_label b rates); [| exact Hacc].
      destruct (get rates b) as [rate |] eqn:Eg; [| exact Hacc].
      apply finite_add; [exact Hacc |].
      apply finite_mul; [apply finite_women_in_age_bin |].
      eapply finite_get; eauto. }
    apply H. unfold finite, Float64.zero. eauto. }
  destruct (is_latest window birth_year); [| exact Hb].
  apply finite_mul; [exact Hb |]. unfold finite, Float64.half. eauto.
Qed.

Lemma finite_rates_per_woman (F : Frame) (label : string)
  (column : Series Float64.t) :
  finite_frame F -> Pandas.column F label = Some column ->
  finite_series (rates_per_woman column).
Proof.
  intros HF Hc. unfold Pandas.column in Hc.
  destruct (get (frame_columns F) label) as [values |] eqn:Eg;
    [| discriminate].
  injection Hc as <-. apply get_In in Eg.
  unfold finite_frame in HF. rewrite Forall_forall in HF.
  specialize (HF _ Eg). cbn [snd] in HF. rewrite Forall_forall in HF.
  unfold finite_series, rates_per_woman. apply Forall_forall.
  intros kv Hkv. apply in_map_iff in Hkv. destruct Hkv as ([l v] & <- & Hin).
  cbn [fst snd]. apply finite_div_int; [| lia].
  apply in_combine_r in Hin. auto.
Qed.

Lemma finite_existing_births (a : FertilityProcessor.ages) (y : Z) (F : Frame) :
  finite_frame F -> finite_series (existing_births a y F W).
Proof.
  intros HF. unfold existing_births. cbn zeta.
  set (window := FertilityProcessor.birth_years_for_single_forecast_year a y).
  set (labels := unique (map ExistingResidentsProcessor.Subzone W)).
  generalize (finite_full labels).
  generalize (full Float64.zero labels) as sp.
  generalize window at 2 as years.
  induction years as [| b years IH]; intros sp Hsp; [exact Hsp |].
  cbn [fold_left]. apply IH.
  destruct (column F (str b)) as [col |] eqn:Ec; [| exact Hsp].
  pose proof (finite_rates_per_woman F (str b) col HF Ec) as Hr.
  clear IH. revert sp Hsp.
  induction labels as [| l labels IHl]; intros sp Hsp; [exact Hsp |].
  cbn [fold_left]. apply IHl. apply finite_update; [| exact Hsp].
  intros v Hv. apply finite_add; [exact Hv |]. now apply finite_total_births.
Qed.

End FiniteData.



Section FiniteHousing.

Import Pandas Forecaster.

Lemma finite_groupby_sum (s : Series Float64.t) :
  finite_series s -> finite_series (groupby_sum Float64.nansum s).
Proof.
  intros Hs. unfold finite_series, groupby_sum. apply Forall_forall.
  intros kv Hkv. apply in_map_iff in Hkv. destruct Hkv as (k & <- & _).
  cbn [snd]. apply finite_nansum. apply Forall_forall. intros v Hv.
  apply in_map_iff in Hv. destruct Hv as (kv & <- & Hin).
  apply filter_In in Hin. destruct Hin as [Hin _].
  unfold finite_series in Hs. rewrite Forall_forall in Hs. auto.
Qed.

Lemma finite_children (c : Config) (window : list Z) (units : Series Z)
  (rate : Float64.t) (birth_year : Z) :
  finite rate ->
  finite_series (children_from_birth_year c window units rate birth_year).
Proof.
  intros Hr. unfold children_from_birth_year. cbn zeta.
  set (children := map (fun kv => (fst kv,
                                   Float64.mul (Float64.of_int (snd kv)) rate))
                       units).
  assert (H1 : finite_series children).
  { unfold finite_series. apply Forall_forall. intros kv Hkv.
    apply in_map_iff in Hkv. destruct Hkv as (kv' & <- & _). cbn [snd].
    apply finite_mul; [apply finite_of_int | exact Hr]. }
  set (discounted := if is_latest window birth_year
                        && negb (min_preschool_age c mod 12 =? 0)
                     then map _ children else children).
  assert (H2 : finite_series discounted).
  { subst discounted.
    destruct (is_latest window birth_year
              && negb (min_preschool_age c mod 12 =? 0)); [| exact H1].
    unfold finite_series. apply Forall_forall. intros kv Hkv.
    apply in_map_iff in Hkv. destruct Hkv as (kv' & <- & Hin). cbn [snd].
    apply finite_div_int; [| lia].
    apply finite_mul; [| apply finite_of_int].
    unfold finite_series in H1. rewrite Forall_forall in H1. auto. }
  destruct (duplicated_any (index discounted)); [| exact H2].
  now apply finite_groupby_sum.
Qed.

Lemma finite_add_children (children : Series Float64.t)
  (labels : list string) (sp : Series Float64.t) :
  finite_series children -> finite_series sp ->
  finite_series (add_children children labels sp).
Proof.
  intros Hc. unfold add_children. revert sp.
  induction labels as [| l labels IH]; intros sp Hsp; [exact Hsp |].
  cbn [fold_left]. apply IH.
  destruct (get children l) as [x |] eqn:Eg; [| exact Hsp].
  apply finite_update; [| exact Hsp].
  intros v Hv. apply finite_add; [exact Hv |].
  exact (finite_get children l x Hc Eg).
Qed.

Lemma finite_bto_loop (c : Config) (window : list Z)
  (birth_rates : Series Float64.t) (bto_units_by_subzone : Table string)
  (labels : list string) (years : list Z) (sp series : Series Float64.t) :
  finite_series birth_rates -> finite_series sp ->
  for_each (bto_step c window birth_rates bto_units_by_subzone labels) years sp
  = Ok series ->
  finite_series series.
Proof.
  intros Hr. revert sp. induction years as [| b years IH]; intros sp Hsp H.
  - cbn in H. injection H as H. now subst.
  - cbn [for_each] in H. unfold bto_step at 1 in H.
    destruct (loc_row bto_units_by_subzone (str b)) as [units |].
    + unfold getitem in H.
      destruct (get birth_rates (str b)) as [rate |] eqn:Eg; [| discriminate].
      cbn [bind] in H. apply IH in H; [exact H |].
      apply finite_add_children; [| exact Hsp].
      apply finite_children. exact (finite_get birth_rates (str b) rate Hr Eg).
    + cbn [bind] in H. now apply IH in H.
Qed.

End FiniteHousing.



(** ** More on the preschools needed and the gap *)

Section NeededTable.

Import Pandas Forecaster.

Lemma map_result_Ok {A B : Type} (f : A -> result B) (g : A -> B)
  (xs : list A) :
  (forall x, In x xs -> f x = Ok (g x)) -> map_result f xs = Ok (map g xs).
Proof.
  induction xs as [| x xs IH]; intros H; [reflexivity |].
  cbn [map_result map]. rewrite (H x (or_introl eq_refl)). cbn [bind].
  rewrite IH by (intros; apply H; now right). reflexivity.
Qed.

End NeededTable.

(** X17.  With a positive capacity the conversion to preschools needed does not
    fail: it returns a table with the same years and subzones in which every
    count is replaced by count / capacity rounded to the nearest integer, a
    tie going to the even neighbour. *)
Theorem preschools_needed_of_a_positive_capacity
  (capacity : Z) (forecasted_num_preschoolers : Pandas.Table Z) :
  0 < capacity ->
  Forecaster.preschools_needed capacity forecasted_num_preschoolers
  = Ok (Pandas.mk_Table
          (Pandas.table_columns forecasted_num_preschoolers)
          (map (fun row =>
                  (fst row, map (fun n => round_div n capacity) (snd row)))
               (Pandas.table_rows forecasted_num_preschoolers))).
Proof.
  intros H. unfold Forecaster.preschools_needed.
  rewrite (map_result_Ok _
             (fun row => (fst row, map (fun n => round_div n capacity) (snd row)))).
  - reflexivity.
  - intros row _.
    rewrite (map_result_Ok _ (fun n => round_div n capacity)).
    + reflexivity.
    + intros n _. rewrite preschools_needed_cell_pos by assumption.
      apply to_int_of_int.
Qed.

Lemma preschools_needed_table_witness :
  Forecaster.preschools_needed 100
    (Pandas.mk_Table ["A"%string; "B"%string] [(2026, [149; 250])])
  = Ok (Pandas.mk_Table ["A"%string; "B"%string] [(2026, [1; 2])]).
Proof.
  assert (H : 0 < 100) by lia.
  exact (preschools_needed_of_a_positive_capacity 100
           (Pandas.mk_Table ["A"%string; "B"%string] [(2026, [149; 250])]) H).
Defined.

(** X18.  The number of preschools needed never decreases when the number of
    children grows; it is 0 as long as the children fill at most half a
    preschool, and it is exactly k for k full preschools. *)
Theorem preschools_needed_grows_with_the_count
  (capacity n1 n2 k : Z) :
  0 < capacity ->
  n1 <= n2 ->
  exists r1 r2,
    Float64.to_int (Forecaster.preschools_needed_cell capacity n1) = Ok r1
    /\ Float64.to_int (Forecaster.preschools_needed_cell capacity n2) = Ok r2
    /\ r1 <= r2
    /\ (0 <= 2 * n1 <= capacity -> r1 = 0)
    /\ Float64.to_int
         (Forecaster.preschools_needed_cell capacity (k * capacity)) = Ok k.
Proof.
  intros Hc Hn.
  exists (round_div n1 capacity), (round_div n2 capacity).
  rewrite !preschools_needed_cell_pos, !to_int_of_int by assumption.
  split; [reflexivity |]. split; [reflexivity |]. split; [| split].
  - now apply round_div_monotone.
  - intros Hhalf. unfold round_div.
    assert (Hq : n1 / capacity = 0) by (apply Z.div_small; lia).
    assert (Hr : n1 mod capacity = n1) by (apply Z.mod_small; lia).
    rewrite Hq, Hr.
    destruct (Z.ltb_spec (2 * n1) capacity); [reflexivity |].
    destruct (Z.ltb_spec capacity (2 * n1)); [lia | reflexivity].
  - f_equal. unfold round_div.
    rewrite Z.div_mul, Z.mod_mul by lia.
    destruct (Z.ltb_spec (2 * 0) capacity); [reflexivity | lia].
Qed.

Lemma preschools_needed_grows_witness :
  exists r1 r2,
    Float64.to_int (Forecaster.preschools_needed_cell 100 50) = Ok r1
    /\ Float64.to_int (Forecaster.preschools_needed_cell 100 51) = Ok r2
    /\ r1 <= r2.
Proof.
  assert (H1 : 0 < 100) by lia.
  assert (H2 : 50 <= 51) by lia.
  destruct (preschools_needed_grows_with_the_count 100 50 51 3 H1 H2)
    as (r1 & r2 & E1 & E2 & Hle & _).
  exists r1, r2. repeat split; assumption.
Defined.

(** X19.  Taking the gap twice against the same supply gives the table of
    preschools needed back: the need is supply minus gap in the cells that
    have a supply, and the other cells were never changed. *)
Theorem preschool_gap_is_an_involution
  (existing_preschools : Pandas.Series Z)
  (forecasted_preschools_needed : Pandas.Table Z) :
  Forecaster.calculate_preschool_gap existing_preschools
    (Forecaster.calculate_preschool_gap existing_preschools
       forecasted_preschools_needed)
  = forecasted_preschools_needed.
Proof.
  destruct forecasted_preschools_needed as [columns rows].
  unfold Forecaster.calculate_preschool_gap.
  cbn [Pandas.table_columns Pandas.table_rows]. f_equal.
  rewrite map_map. cbn [fst snd].
  rewrite <- (map_id rows) at 2. apply map_ext. intros [year cells].
  cbn [fst snd]. f_equal.
  apply nth_error_ext. intros j.
  rewrite !nth_error_gap_loop by apply unique_NoDup.
  destruct (nth_error cells j) as [cell |]; [| reflexivity].
  destruct (nth_error columns j) as [column |]; [| reflexivity].
  f_equal.
  destruct (existsb (String.eqb column) _); [| reflexivity].
  destruct (Pandas.get existing_preschools column); [lia | reflexivity].
Qed.

(** X20.  A subzone of the table of preschools needed that has no entry in the
    existing supply keeps its need as it is in the gap table: the cell is
    not turned into a shortage. *)
Theorem preschool_gap_leaves_the_need_where_no_supply_is_known
  (existing_preschools : Pandas.Series Z)
  (forecasted_preschools_needed : Pandas.Table Z)
  (i j : nat) (year : Z) (cells : list Z) (subzone : string) (need : Z) :
  nth_error (Pandas.table_rows forecasted_preschools_needed) i
  = Some (year, cells) ->
  nth_error (Pandas.table_columns forecasted_preschools_needed) j
  = Some subzone ->
  nth_error cells j = Some need ->
  Pandas.get existing_preschools subzone = None ->
  exists cells',
    nth_error
      (Pandas.table_rows
         (Forecaster.calculate_preschool_gap existing_preschools
            forecasted_preschools_needed)) i
    = Some (year, cells')
    /\ nth_error cells' j = Some need.
Proof.
  intros Hrow Hcol Hneed Hnone.
  destruct (preschool_gap_cells existing_preschools
              forecasted_preschools_needed) as (_ & _ & Hcell).
  destruct (Hcell i year cells j subzone need Hrow Hcol Hneed)
    as (cells' & Hrow' & Hcell').
  exists cells'. split; [exact Hrow' |]. now rewrite Hnone in Hcell'.
Qed.

Lemma preschool_gap_leaves_the_need_witness :
  exists cells',
    nth_error
      (Pandas.table_rows
         (Forecaster.calculate_preschool_gap [("A"%string, 3)]
            (Pandas.mk_Table ["A"%string; "B"%string] [(2026, [5; 2])])))
      0
    = Some (2026, cells')
    /\ nth_error cells' 1 = Some 2.
Proof.
  exact (preschool_gap_leaves_the_need_where_no_supply_is_known
           [("A"%string, 3)]
           (Pandas.mk_Table ["A"%string; "B"%string] [(2026, [5; 2])])
           0%nat 1%nat 2026 [5; 2] "B"%string 2
           eq_refl eq_refl eq_refl eq_refl).
Defined.

(** ** The forecast table *)

Section ForecastTable.

Import Pandas Forecaster.

Lemma map_result_Forall2 {A B : Type} (f : A -> result B) (xs : list A)
  (ys : list B) :
  map_result f xs = Ok ys -> Forall2 (fun x y => f x = Ok y) xs ys.
Proof.
  revert ys. induction xs as [| x xs IH]; intros ys H; cbn in H.
  - injection H as <-. constructor.
  - destruct (f x) as [y |] eqn:Ey; [| discriminate]. cbn [bind] in H.
    destruct (map_result f xs) as [ys' |]; [| discriminate].
    cbn [bind] in H. injection H as <-. constructor; auto.
Qed.

End ForecastTable.

(** X21.  When the forecast over all the years succeeds, the forecast table has
    one row per forecast year, in order; its columns are the subzones of the
    yearly estimates, each once; and the row of a year holds, under each
    column, the count of that year's estimate for the subzone, or 0 when the
    estimate has no entry for it. *)
Theorem forecast_table_has_a_row_per_forecast_year
  (c : Forecaster.Config) (bto_birth_rates : Pandas.Series Float64.t)
  (bto_units_by_subzone : Pandas.Table string) (F : Pandas.Frame)
  (W : list ExistingResidentsProcessor.women) (t : Pandas.Table Z) :
  Forecaster.calculate_preschoolers_all_years c bto_birth_rates
    bto_units_by_subzone F W = Ok t ->
  map fst (Pandas.table_rows t) = Forecaster.forecast_years c
  /\ NoDup (Pandas.table_columns t)
  /\ forall i year cells,
       nth_error (Pandas.table_rows t) i = Some (year, cells) ->
       exists preschoolers,
         Forecaster.calculate_preschoolers_for_year c year bto_birth_rates
           bto_units_by_subzone F W = Ok preschoolers
         /\ (forall s, In s (Pandas.index preschoolers) ->
                       In s (Pandas.table_columns t))
         /\ cells
            = map (fun subzone =>
                     match Pandas.get preschoolers subzone with
                     | Some v => v
                     | None => 0
                     end)
                  (Pandas.table_columns t).
Proof.
  unfold Forecaster.calculate_preschoolers_all_years. intros H.
  match type of H with
  | bind ?m _ = _ => destruct m as [results |] eqn:E; [| discriminate]
  end.
  cbn [bind] in H. injection H as <-.
  cbn [Pandas.table_rows Pandas.table_columns].
  apply map_result_Forall2 in E.
  split; [| split].
  - rewrite map_map. cbn [fst].
    induction E as [| y r ys rs Hy Hrest IH]; [reflexivity |].
    cbn [map]. rewrite IH. f_equal.
    destruct (Forecaster.calculate_preschoolers_for_year c y bto_birth_rates
                bto_units_by_subzone F W); [| discriminate].
    cbn [bind] in Hy. now injection Hy as <-.
  - apply unique_NoDup.
  - intros i year cells Hi. rewrite nth_error_map in Hi.
    destruct (nth_error results i) as [[y s] |] eqn:Er; [| discriminate].
    cbn in Hi. injection Hi as <- <-.
    assert (Hin : In (y, s) results) by (eapply nth_error_In; eauto).
    exists s. split; [| split].
    + clear - E Hin. induction E as [| y' r ys rs Hy Hrest IH];
        [destruct Hin |].
      destruct Hin as [-> | Hin]; [| auto].
      destruct (Forecaster.calculate_preschoolers_for_year c y'
                  bto_birth_rates bto_units_by_subzone F W) as [p | e] eqn:Ec;
        [| discriminate].
      cbn [bind] in Hy. injection Hy as -> ->. exact Ec.
    + intros k Hk. apply In_unique, in_flat_map.
      exists (y, s). split; [exact Hin | exact Hk].
    + reflexivity.
Qed.

Lemma forecast_table_witness :
  map fst
    (Pandas.table_rows
       (Pandas.mk_Table ["A"%string]
          [(2026, [25]); (2027, [50]); (2028, [50]); (2029, [50]);
           (2030, [50])]))
  = Forecaster.forecast_years (Forecaster.default_Config 2025).
Proof.
  exact (proj1 (forecast_table_has_a_row_per_forecast_year
                  (Forecaster.default_Config 2025) []
                  (Pandas.mk_Table [] [])
                  Examples.rates_2024 Examples.women_A
                  (Pandas.mk_Table ["A"%string]
                     [(2026, [25]); (2027, [50]); (2028, [50]); (2029, [50]);
                      (2030, [50])])
                  eq_refl)).
Defined.

(** ** Nothing is lost when the two sides are combined *)

Section Conservation.

Import Pandas Forecaster.

Let get0 (s : Series Z) (k : string) : Z :=
  match get s k with Some v => v | None => 0 end.

Lemma sum_int_map_add {A : Type} (f g : A -> Z) (l : list A) :
  sum_int (map (fun x => f x + g x) l) = sum_int (map f l) + sum_int (map g l).
Proof.
  induction l as [| x l IH]; [reflexivity |].
  cbn [map]. rewrite !sum_int_cons, IH. lia.
Qed.

Lemma sum_if_absent (k : string) (v : Z) (g : string -> Z) (U : list string) :
  ~ In k U ->
  sum_int (map (fun x => if String.eqb k x then v else g x) U)
  = sum_int (map g U).
Proof.
  intros H. f_equal. apply map_ext_in. intros x Hx.
  destruct (String.eqb_spec k x) as [-> | _]; [contradiction | reflexivity].
Qed.

Lemma sum_if_present (k : string) (v : Z) (g : string -> Z) (U : list string) :
  NoDup U -> In k U ->
  sum_int (map (fun x => if String.eqb k x then v else g x) U)
  = v + sum_int (map g U) - g k.
Proof.
  induction 1 as [| u U Hu Hnd IH]; intros Hin; [destruct Hin |].
  cbn [map]. rewrite !sum_int_cons.
  destruct (String.eqb_spec k u) as [-> | Hne].
  - rewrite sum_if_absent by assumption. lia.
  - destruct Hin as [-> | Hin]; [contradiction |]. rewrite IH by assumption. lia.
Qed.

Lemma sum_get0_index (t : Series Z) :
  NoDup (index t) -> sum_int (map snd t) = sum_int (map (get0 t) (index t)).
Proof.
  induction t as [| [k v] t IH]; intros Hnd; [reflexivity |].
  cbn [index map fst snd] in *. inversion Hnd as [| ? ? Hk Hnd']; subst.
  rewrite !sum_int_cons. unfold get0 at 1. cbn [get].
  rewrite String.eqb_refl. f_equal.
  rewrite (IH Hnd'). f_equal. apply map_ext_in. intros x Hx.
  unfold get0. cbn [get].
  destruct (String.eqb_spec k x) as [-> | _]; [contradiction | reflexivity].
Qed.

Lemma sum_get0_incl (e : Series Z) (U : list string) :
  NoDup U -> NoDup (index e) -> (forall k, In k (index e) -> In k U) ->
  sum_int (map (get0 e) U) = sum_int (map snd e).
Proof.
  intros HU. induction e as [| [k v] e IH]; intros Hnd Hincl.
  - change (sum_int (map snd (@nil (string * Z)))) with 0.
    clear HU Hnd Hincl. induction U as [| u U IHU]; [reflexivity |].
    cbn [map]. rewrite sum_int_cons, IHU. reflexivity.
  - cbn [index map fst snd] in *. inversion Hnd as [| ? ? Hk Hnd']; subst.
    rewrite sum_int_cons.
    rewrite <- (IH Hnd') by (intros; apply Hincl; now right).
    assert (E : map (get0 ((k, v) :: e)) U
                = map (fun x => if String.eqb k x then v else get0 e x) U).
    { apply map_ext. intros x. unfold get0. cbn [get].
      now destruct (String.eqb k x). }
    rewrite E, sum_if_present; [| assumption | apply Hincl; now left].
    assert (E0 : get0 e k = 0).
    { unfold get0. destruct (get e k) eqn:Eg; [| reflexivity].
      exfalso. apply Hk. apply get_Some_iff. eauto. }
    lia.
Qed.

Lemma combine_sides_sum_NoDup (e b : Series Z) :
  NoDup (index e) -> NoDup (index b) ->
  sum_int (map snd (combine_sides e b))
  = sum_int (map snd e) + sum_int (map snd b).
Proof.
  intros He Hb. destruct (combine_sides_spec e b He Hb) as [Hi Hg].
  rewrite sum_get0_index by (rewrite Hi; apply unique_NoDup).
  rewrite Hi.
  assert (E : map (get0 (combine_sides e b)) (unique (index e ++ index b))
              = map (fun k => get0 e k + get0 b k)
                    (unique (index e ++ index b))).
  { apply map_ext. intros k. unfold get0. rewrite Hg.
    destruct (get e k), (get b k); cbn; lia. }
  rewrite E, sum_int_map_add.
  rewrite !sum_get0_incl; try assumption; try apply unique_NoDup.
  - reflexivity.
  - intros k Hk. apply In_unique, in_or_app. now right.
  - intros k Hk. apply In_unique, in_or_app. now left.
Qed.

Lemma duplicated_any_false (labels : list string) :
  duplicated_any labels = false -> NoDup labels.
Proof.
  induction labels as [| l labels IH]; intros H; [constructor |].
  cbn in H. apply orb_false_iff in H. destruct H as [H1 H2].
  constructor; [| auto].
  intros Hin. apply existsb_eqb_In in Hin. congruence.
Qed.

Lemma index_groupby_sum {V : Type} (sum : list V -> V) (s : Series V) :
  index (groupby_sum sum s) = unique (index s).
Proof.
  unfold groupby_sum, index. rewrite map_map. cbn [fst]. apply map_id.
Qed.

Lemma without_duplicates_index (s : Series Z) :
  NoDup (index (without_duplicates s)).
Proof.
  unfold without_duplicates.
  destruct (duplicated_any (index s)) eqn:E.
  - rewrite index_groupby_sum. apply unique_NoDup.
  - now apply duplicated_any_false.
Qed.

(** The sums per label of distinct labels add up to the sum of the entries
    with any of those labels. *)
Lemma sum_of_groups (s : Series Z) (labels : list string) :
  NoDup labels ->
  sum_int
    (map (fun k =>
            sum_int (map snd (filter (fun kv => String.eqb (fst kv) k) s)))
         labels)
  = sum_int
      (map snd (filter (fun kv => existsb (String.eqb (fst kv)) labels) s)).
Proof.
  induction 1 as [| l labels Hl Hnd IH].
  - cbn. induction s as [| kv s IHs]; [reflexivity | exact IHs].
  - cbn [map existsb]. rewrite sum_int_cons, IH. clear IH.
    induction s as [| [k v] s IHs]; [reflexivity |].
    cbn [filter fst].
    destruct (String.eqb_spec k l) as [-> | Hne]; cbn [orb].
    + assert (E : existsb (String.eqb l) labels = false).
      { destruct (existsb (String.eqb l) labels) eqn:E; [| reflexivity].
        apply existsb_eqb_In in E. contradiction. }
      rewrite E. cbn [map snd]. rewrite !sum_int_cons. lia.
    + destruct (existsb (String.eqb k) labels); cbn [map snd];
        rewrite ?sum_int_cons; lia.
Qed.

Lemma filter_all {A : Type} (p : A -> bool) (l : list A) :
  (forall x, In x l -> p x = true) -> filter p l = l.
Proof.
  induction l as [| x l IH]; intros H; [reflexivity |].
  cbn [filter]. rewrite (H x (or_introl eq_refl)). f_equal.
  apply IH. intros y Hy. apply H. now right.
Qed.

Lemma without_duplicates_sum (s : Series Z) :
  sum_int (map snd (without_duplicates s)) = sum_int (map snd s).
Proof.
  unfold without_duplicates.
  destruct (duplicated_any (index s)); [| reflexivity].
  unfold groupby_sum. rewrite map_map. cbn [snd].
  rewrite sum_of_groups by apply unique_NoDup.
  rewrite filter_all; [reflexivity |].
  intros kv Hkv. apply existsb_eqb_In, In_unique. now apply in_map.
Qed.

End Conservation.

(** X22.  Combining the two sides loses and invents no child: whatever the labels
    of the two series, repeated or not, the counts of the combined series
    add up to the counts of the residents' side plus the counts of the
    housing side. *)
Theorem combined_counts_add_up (e b : Pandas.Series Z) :
  Pandas.sum_int (map snd (Forecaster.combine_sides e b))
  = Pandas.sum_int (map snd e) + Pandas.sum_int (map snd b).
Proof.
  assert (E : Forecaster.combine_sides e b
              = Forecaster.combine_sides (Forecaster.without_duplicates e)
                  (Forecaster.without_duplicates b)).
  { unfold Forecaster.combine_sides.
    now rewrite !(without_duplicates_NoDup (Forecaster.without_duplicates _))
      by apply without_duplicates_index. }
  rewrite E, combine_sides_sum_NoDup by apply without_duplicates_index.
  now rewrite !without_duplicates_sum.
Qed.

(** X23.  The combination does not depend on which side is which: every subzone
    gets the same count when the two series are exchanged. *)
Theorem combined_count_is_symmetric (e b : Pandas.Series Z) (k : string) :
  Pandas.get (Forecaster.combine_sides e b) k
  = Pandas.get (Forecaster.combine_sides b e) k.
Proof.
  assert (E : forall x y,
             Forecaster.combine_sides x y
             = Forecaster.combine_sides (Forecaster.without_duplicates x)
                 (Forecaster.without_duplicates y)).
  { intros x y. unfold Forecaster.combine_sides.
    now rewrite !(without_duplicates_NoDup (Forecaster.without_duplicates _))
      by apply without_duplicates_index. }
  rewrite (E e b), (E b e).
  destruct (combine_sides_spec (Forecaster.without_duplicates e)
              (Forecaster.without_duplicates b)
              (without_duplicates_index e) (without_duplicates_index b))
    as [_ H1].
  destruct (combine_sides_spec (Forecaster.without_duplicates b)
              (Forecaster.without_duplicates e)
              (without_duplicates_index b) (without_duplicates_index e))
    as [_ H2].
  rewrite H1, H2.
  destruct (Pandas.get (Forecaster.without_duplicates e) k),
    (Pandas.get (Forecaster.without_duplicates b) k);
    cbn; try reflexivity; f_equal; lia.
Qed.

(** ** The women of the residents sheet *)

Section Residents.

Import Pandas ExistingResidentsProcessor.

Lemma age_bins_keys : map fst get_age_bins = map str (range 15 50).
Proof. vm_compute. reflexivity. Qed.

Lemma age_bins_values :
  forall kv, In kv get_age_bins -> In (snd kv) all_mother_ages.
Proof.
  assert (H : forallb (fun kv => existsb (String.eqb (snd kv)) all_mother_ages)
                get_age_bins = true) by (vm_compute; reflexivity).
  rewrite forallb_forall in H. intros kv Hkv.
  now apply existsb_eqb_In, H.
Qed.

Lemma get_In_value {V : Type} (s : Series V) (k : string) (v : V) :
  get s k = Some v -> In (k, v) s.
Proof.
  induction s as [| [l w] s IH]; cbn; [discriminate |].
  destruct (String.eqb_spec l k) as [-> | _].
  - intros [= ->]. now left.
  - intros H. right. auto.
Qed.

Let skip_nan (acc x : Float64.t) : Float64.t :=
  if Float64.isna x then acc else Float64.add acc x.

Lemma nansum_skips_nan (xs : list Float64.t) (acc : Float64.t) :
  fold_left skip_nan (filter (fun x => negb (Float64.isna x)) xs) acc
  = fold_left skip_nan xs acc.
Proof.
  revert acc. induction xs as [| x xs IH]; intros acc; [reflexivity |].
  cbn [filter fold_left]. unfold skip_nan at 3.
  destruct (Float64.isna x) eqn:E; cbn [negb].
  - apply IH.
  - cbn [fold_left]. unfold skip_nan at 2. rewrite E. apply IH.
Qed.

Lemma nansum_without_nan (xs : list Float64.t) :
  Float64.nansum (filter (fun x => negb (Float64.isna x)) xs)
  = Float64.nansum xs.
Proof. apply nansum_skips_nan. Qed.

Lemma add_zero_l (x : Float64.t) :
  Float64.isna x = false -> Float64.add Float64.zero x = x.
Proof.
  destruct x as [[n d] | | |]; cbn; try reflexivity; try discriminate.
  intros _. unfold Qplus. cbn. now rewrite Z.mul_1_r.
Qed.

Lemma nansum_singleton (x : Float64.t) :
  Float64.nansum [x] = Float64.fillna0 x.
Proof.
  unfold Float64.nansum, Float64.fillna0. cbn [fold_left].
  destruct (Float64.isna x) eqn:E; [reflexivity | now apply add_zero_l].
Qed.

Lemma filter_filter {A : Type} (p q : A -> bool) (l : list A) :
  filter q (filter p l) = filter (fun x => p x && q x) l.
Proof.
  induction l as [| x l IH]; [reflexivity |].
  cbn [filter]. destruct (p x); cbn [andb filter]; [| exact IH].
  destruct (q x); now rewrite IH.
Qed.

Lemma filter_of_map {A B : Type} (f : A -> B) (p : B -> bool) (l : list A) :
  filter p (map f l) = map f (filter (fun x => p (f x)) l).
Proof.
  induction l as [| x l IH]; [reflexivity |].
  cbn [map filter]. destruct (p (f x)); cbn [map]; now rewrite IH.
Qed.

Lemma key_eqb_pair (a b c d : string) :
  key_eqb (a, b) (c, d) = String.eqb a c && String.eqb b d.
Proof.
  unfold key_eqb. destruct (key_dec (a, b) (c, d)) as [E | N].
  - injection E as -> ->. now rewrite !String.eqb_refl.
  - destruct (String.eqb_spec a c) as [-> | _]; [| reflexivity].
    destruct (String.eqb_spec b d) as [-> | _]; [| reflexivity].
    now contradiction N.
Qed.

Lemma select_key (g : string * string -> Float64.t)
  (keys : list (string * string)) (subzone age_bin : string) :
  NoDup keys ->
  filter (fun w => String.eqb (Subzone w) subzone
                   && String.eqb (Age_Bin w) age_bin)
         (map (fun key => mk_women (fst key) (snd key) (g key)) keys)
  = if in_dec key_dec (subzone, age_bin) keys
    then [mk_women subzone age_bin (g (subzone, age_bin))]
    else [].
Proof.
  induction 1 as [| [a b] keys Hk Hnd IH].
  - reflexivity.
  - cbn [map filter fst snd Subzone Age_Bin]. rewrite IH.
    rewrite <- key_eqb_pair. unfold key_eqb.
    destruct (key_dec (a, b) (subzone, age_bin)) as [E | N].
    + injection E as -> ->.
      destruct (in_dec key_dec (subzone, age_bin) keys) as [Hin | _];
        [contradiction |].
      destruct (in_dec key_dec (subzone, age_bin) ((subzone, age_bin) :: keys))
        as [_ | Hn]; [reflexivity |].
      contradiction Hn. now left.
    + destruct (in_dec key_dec (subzone, age_bin) keys) as [Hin | Hn];
        destruct (in_dec key_dec (subzone, age_bin) ((a, b) :: keys))
          as [Hin' | Hn']; try reflexivity.
      * contradiction Hn'. now right.
      * destruct Hin' as [E | Hin']; [now contradiction N | contradiction].
Qed.

Lemma filter_absent_key (kept : list ((string * string) * Float64.t))
  (key : string * string) :
  ~ In key (map fst kept) ->
  filter (fun kc => key_eqb (fst kc) key) kept = [].
Proof.
  induction kept as [| kc kept IH]; intros H; [reflexivity |].
  cbn [filter]. unfold key_eqb at 1.
  destruct (key_dec (fst kc) key) as [E | _].
  - contradiction H. now left.
  - apply IH. intros Hin. apply H. now right.
Qed.

Lemma women_of_aggregate (age_bins : list (string * string))
  (residents : list resident) (subzone age_bin : string) :
  Forecaster.women_in_age_bin
    (aggregate_women_by_age_bin age_bins residents) subzone age_bin
  = Float64.fillna0
      (Float64.nansum
         (map resident_Count
            (filter (fun r =>
                       String.eqb (resident_Subzone r) subzone
                       && match get age_bins (resident_Age r) with
                          | Some b => String.eqb b age_bin
                          | None => false
                          end)
                    residents))).
Proof.
  unfold Forecaster.women_in_age_bin, aggregate_women_by_age_bin. cbn zeta.
  rewrite filter_filter.
  set (kept := flat_map _ _).
  rewrite (select_key
             (fun key =>
                Float64.nansum
                  (map snd (filter (fun kc => key_eqb (fst kc) key) kept))))
    by apply NoDup_nodup.
  assert (Hk : map snd (filter (fun kc => key_eqb (fst kc) (subzone, age_bin))
                               kept)
               = filter (fun x => negb (Float64.isna x))
                   (map resident_Count
                      (filter (fun r =>
                                 String.eqb (resident_Subzone r) subzone
                                 && match get age_bins (resident_Age r) with
                                    | Some b => String.eqb b age_bin
                                    | None => false
                                    end)
                              residents))).
  { subst kept. induction residents as [| r rs IH]; [reflexivity |].
    cbn [map flat_map filter]. rewrite filter_app, map_app, IH.
    destruct (get age_bins (resident_Age r)) as [b |].
    - destruct (Float64.isna (resident_Count r)) eqn:Ena.
      + cbn [filter map app].
        destruct (String.eqb (resident_Subzone r) subzone
                  && String.eqb b age_bin); [| reflexivity].
        cbn [map filter]. now rewrite Ena.
      + cbn [filter fst]. rewrite key_eqb_pair.
        destruct (String.eqb (resident_Subzone r) subzone
                  && String.eqb b age_bin); [| reflexivity].
        cbn [map snd app filter]. now rewrite Ena.
    - cbn [filter map app]. now rewrite andb_false_r. }
  match goal with
  | |- _ = Float64.fillna0 (Float64.nansum ?L) =>
      rewrite <- (nansum_without_nan L)
  end.
  rewrite <- Hk.
  destruct (in_dec key_dec (subzone, age_bin) (nodup key_dec (map fst kept)))
    as [Hin | Hn].
  - cbn [map Count]. apply nansum_singleton.
  - rewrite filter_absent_key by (intros H; apply Hn; now apply nodup_In).
    reflexivity.
Qed.

End Residents.

(** X24.  The dictionary of [get_age_bins] has one entry per age from 15 to 49 and
    no other: each of these ages, written in decimal, is sent to the
    five-year bin that holds it, and any other age has no bin. *)
Theorem age_bins_map_the_ages_15_to_49 (age : Z) :
  NoDup (map fst ExistingResidentsProcessor.get_age_bins)
  /\ Pandas.get ExistingResidentsProcessor.get_age_bins (str age)
     = if (15 <=? age) && (age <=? 49)
       then nth_error ExistingResidentsProcessor.all_mother_ages
              (Z.to_nat ((age - 15) / 5))
       else None.
Proof.
  split.
  - rewrite age_bins_keys. generalize (range_NoDup 15 50).
    induction 1 as [| x l Hx Hnd IH]; cbn [map]; constructor; [| exact IH].
    intros Hin. apply in_map_iff in Hin. destruct Hin as (y & Hy & Hin).
    apply str_inj in Hy. now subst y.
  - destruct ((15 <=? age) && (age <=? 49)) eqn:E.
    + apply andb_true_iff in E. destruct E as [E1 E2].
      apply Z.leb_le in E1. apply Z.leb_le in E2.
      assert (Hn : age = 15 + Z.of_nat (Z.to_nat (age - 15))) by lia.
      assert (Hb : (Z.to_nat (age - 15) < 35)%nat) by lia.
      revert Hn Hb. generalize (Z.to_nat (age - 15)). intros n -> Hb.
      do 35 (destruct n as [| n]; [vm_compute; reflexivity |]).
      lia.
    + apply get_None_iff. unfold Pandas.index.
      rewrite age_bins_keys, in_map_iff.
      intros (x & Hx & Hin). apply str_inj in Hx. subst x.
      apply In_range in Hin.
      apply andb_false_iff in E. destruct E as [E | E];
        [apply Z.leb_gt in E | apply Z.leb_gt in E]; lia.
Qed.

(** X25.  What the estimator of the residents' side reads from the result of
    [run] for a subzone and an age bin is the sum of the counts of the rows
    of the sheet for women of that subzone whose age lies in the bin: the
    total rows, the rows of the males, the ages outside every bin and the
    cells without a number add nothing. *)
Theorem women_read_by_the_estimator_are_the_rows_of_the_bin
  (existing_residents_data : list ExistingResidentsProcessor.sheet_row)
  (subzone age_bin : string) :
  Forecaster.women_in_age_bin
    (ExistingResidentsProcessor.run existing_residents_data) subzone age_bin
  = Float64.fillna0
      (Float64.nansum
         (map ExistingResidentsProcessor.sheet_Count
            (rows_counted_for ExistingResidentsProcessor.get_age_bins
               subzone age_bin existing_residents_data))).
Proof.
  unfold ExistingResidentsProcessor.run. rewrite women_of_aggregate.
  unfold ExistingResidentsProcessor.clean_existing_residents_data,
    rows_counted_for.
  cbn zeta. rewrite filter_of_map, map_map.
  cbn [ExistingResidentsProcessor.resident_Subzone
       ExistingResidentsProcessor.resident_Age
       ExistingResidentsProcessor.resident_Count].
  rewrite !filter_filter. do 2 f_equal.
  change (fun x : ExistingResidentsProcessor.sheet_row =>
            ExistingResidentsProcessor.sheet_Count x)
    with ExistingResidentsProcessor.sheet_Count.
  f_equal. apply filter_ext. intros r.
  now rewrite !andb_assoc.
Qed.

(** X26.  The table [run] returns has one row per pair of a subzone and an age
    bin; every bin is one of the seven of [all_mother_ages], and no row is a
    row of the totals. *)
Theorem residents_table_has_one_row_per_subzone_and_bin
  (existing_residents_data : list ExistingResidentsProcessor.sheet_row) :
  NoDup (map (fun w => (ExistingResidentsProcessor.Subzone w,
                        ExistingResidentsProcessor.Age_Bin w))
             (ExistingResidentsProcessor.run existing_residents_data))
  /\ forall w,
       In w (ExistingResidentsProcessor.run existing_residents_data) ->
       In (ExistingResidentsProcessor.Age_Bin w)
          ExistingResidentsProcessor.all_mother_ages
       /\ ExistingResidentsProcessor.Subzone w <> "Total"%string.
Proof.
  unfold ExistingResidentsProcessor.run,
    ExistingResidentsProcessor.aggregate_women_by_age_bin.
  cbn zeta. set (kept := flat_map _ _). split.
  - rewrite map_map.
    cbn [ExistingResidentsProcessor.Subzone ExistingResidentsProcessor.Age_Bin].
    rewrite (map_ext _ (fun key => key)) by (now intros [a b]).
    rewrite map_id. apply NoDup_nodup.
  - intros w Hw. apply in_map_iff in Hw. destruct Hw as (key & <- & Hkey).
    cbn [ExistingResidentsProcessor.Subzone ExistingResidentsProcessor.Age_Bin].
    apply nodup_In, in_map_iff in Hkey. destruct Hkey as (kc & <- & Hkc).
    subst kept. apply in_flat_map in Hkc. destruct Hkc as (row & Hrow & Hkc).
    apply in_map_iff in Hrow. destruct Hrow as (r & <- & Hr).
    destruct (Pandas.get ExistingResidentsProcessor.get_age_bins
                (ExistingResidentsProcessor.resident_Age r)) as [b |] eqn:Eb;
      [| destruct Hkc].
    destruct (Float64.isna (ExistingResidentsProcessor.resident_Count r));
      [destruct Hkc |].
    destruct Hkc as [<- | []]. cbn [fst snd]. split.
    + exact (age_bins_values _ (get_In_value _ _ _ Eb)).
    + unfold ExistingResidentsProcessor.clean_existing_residents_data in Hr.
      cbn zeta in Hr.
      apply in_map_iff in Hr. destruct Hr as (sr & <- & Hsr).
      cbn [ExistingResidentsProcessor.resident_Subzone].
      do 3 (apply filter_In in Hsr; destruct Hsr as [Hsr _]).
      apply filter_In in Hsr. destruct Hsr as [_ Hsr].
      apply negb_true_iff, String.eqb_neq in Hsr. exact Hsr.
Qed.
